(** * Assessment tracker and badge catalogue: a model of [app/crud/crud.py]

    The CRUD layer of the skill-assessment application is embedded as
    functions in a small exception-and-state monad.  The state is the
    SQLAlchemy session (the committed tables and the tables as the open
    transaction sees them) together with the number of clock readings and
    random draws made so far.  Library calls whose code is not part of the
    repository ([str], [datetime.strptime], [datetime.utcnow],
    [random.randint], [utils.verify_check]) are fields of the [Platform]
    class.  Of the constraints of the schema the store enforces one that the
    code can run into: [latest_commit] of a tracker entry is declared
    [unique=True], so the commit of a statement that gives a second row the
    same [latest_commit] is refused.  The other constraints (such as the
    uniqueness of primary keys) are stated as hypotheses where a property
    needs them. *)

From Stdlib Require Import ZArith List String Bool Lia.
Import ListNotations.

Local Open Scope string_scope.
Local Open Scope Z_scope.
Local Open Scope list_scope.

(** ** Python values *)

(** Exceptions raised by the code or by the library calls it makes. *)
Inductive exn : Type :=
| ValueError (msg : string)
| KeyError (key : string)
| IndexError (msg : string)
| TypeError (msg : string)
| Exception (msg : string).

(** [str(e)]: the message; for a [KeyError] the quoted key. *)
Definition exn_str (e : exn) : string :=
  match e with
  | ValueError msg | IndexError msg | TypeError msg | Exception msg => msg
  | KeyError key => ("'" ++ key ++ "'")%string
  end.

(** JSON-like values held in the [log] column and in request bodies. *)
#[local] Unset Elimination Schemes.
Inductive json : Type :=
| JNone
| JBool (b : bool)
| JInt (n : Z)
| JStr (s : string)
| JList (l : list json)
| JDict (d : list (string * json)).
#[local] Set Elimination Schemes.

(** A [dict] with string keys: the items in insertion order.  Assigning to a
    key that is present keeps its position, assigning to a new key appends. *)
Module Dict.
Section Ops.
Context {V : Type}.

Definition t : Type := list (string * V).

Fixpoint get (k : string) (d : t) : option V :=
  match d with
  | [] => None
  | (k', v) :: d' => if String.eqb k' k then Some v else get k d'
  end.

Fixpoint set (k : string) (v : V) (d : t) : t :=
  match d with
  | [] => [(k, v)]
  | (k', v') :: d' =>
      if String.eqb k' k then (k', v) :: d' else (k', v') :: set k v d'
  end.

Definition keys (d : t) : list string := map fst d.

Definition items (d : t) : list (string * V) := d.

(** [d.update(other)] and the effect of a dict comprehension. *)
Definition update (d other : t) : t :=
  fold_left (fun acc kv => set (fst kv) (snd kv) acc) other d.
End Ops.
Arguments t : clear implicits.
End Dict.

(** [datetime.datetime]: a naive timestamp. *)
Module datetime.
Record t : Type := mk {
  year : Z; month : Z; day : Z;
  hour : Z; minute : Z; second : Z; microsecond : Z
}.
End datetime.

(** A column value of a badge row: text, or a timestamp once parsed. *)
Inductive value : Type :=
| VStr (s : string)
| VDatetime (d : datetime.t).

(** ** The mapped classes of [app.models]

    Only the columns that [crud.py] reads or writes are listed. *)

Module Users.
Record t : Type := mk { id : Z; username : string }.
End Users.

Module Reviewers.
Record t : Type := mk { id : Z; user_id : Z }.
End Reviewers.

Module Assessments.
Record t : Type := mk { id : Z; name : string }.
End Assessments.

Module AssessmentTracker.
Record t : Type := mk {
  id : Z;
  user_id : Z;
  assessment_id : Z;
  latest_commit : string;
  last_updated : datetime.t;
  status : string;
  reviewer_id : option Z;
  log : list (Dict.t json)
}.

(** Attribute assignments [entry.field = x]. *)
Definition set_reviewer_id (x : option Z) (e : t) : t :=
  mk (id e) (user_id e) (assessment_id e) (latest_commit e)
     (last_updated e) (status e) x (log e).
Definition set_status (x : string) (e : t) : t :=
  mk (id e) (user_id e) (assessment_id e) (latest_commit e)
     (last_updated e) x (reviewer_id e) (log e).
Definition set_last_updated (x : datetime.t) (e : t) : t :=
  mk (id e) (user_id e) (assessment_id e) (latest_commit e)
     x (status e) (reviewer_id e) (log e).
Definition set_latest_commit (x : string) (e : t) : t :=
  mk (id e) (user_id e) (assessment_id e) x
     (last_updated e) (status e) (reviewer_id e) (log e).
Definition set_log (x : list (Dict.t json)) (e : t) : t :=
  mk (id e) (user_id e) (assessment_id e) (latest_commit e)
     (last_updated e) (status e) (reviewer_id e) x.
End AssessmentTracker.

(** A badge row: the columns that are set, by name.  The external catalogue
    decides which columns a row carries. *)
Module Badges.
Definition t : Type := Dict.t value.
End Badges.

(** [schemas.InitRequest]. *)
Module InitRequest.
Record t : Type := mk {
  username : string;
  assessment_name : string;
  latest_commit : string
}.
End InitRequest.

(** The [reviewer_info] dict of [assign_reviewer], in the shape its
    docstring fixes: [{"reviewer_id": int, "reviewer_username": str}]. *)
Module ReviewerInfo.
Record t : Type := mk { reviewer_id : Z; reviewer_username : string }.

Definition to_dict (r : t) : Dict.t json :=
  [("reviewer_id", JInt (reviewer_id r));
   ("reviewer_username", JStr (reviewer_username r))].
End ReviewerInfo.

(** ** The store *)

Module Tables.
Record t : Type := mk {
  users : list Users.t;
  reviewers : list Reviewers.t;
  assessments : list Assessments.t;
  assessment_tracker : list AssessmentTracker.t;
  badges : list Badges.t
}.

Definition set_assessment_tracker (x : list AssessmentTracker.t) (tb : t) : t :=
  mk (users tb) (reviewers tb) (assessments tb) x (badges tb).
Definition set_badges (x : list Badges.t) (tb : t) : t :=
  mk (users tb) (reviewers tb) (assessments tb) (assessment_tracker tb) x.
End Tables.

(** A session: what is durably committed, and what the open transaction
    sees.  Queries read [pending]; [commit] makes it durable; [rollback]
    forgets it. *)
Module Session.
Record t : Type := mk { committed : Tables.t; pending : Tables.t }.

Definition commit (s : t) : t := mk (pending s) (pending s).
Definition rollback (s : t) : t := mk (committed s) (committed s).
Definition write (f : Tables.t -> Tables.t) (s : t) : t :=
  mk (committed s) (f (pending s)).
End Session.

(** The state the code runs in: the session [db], the number of clock
    readings taken and the number of random draws made. *)
Record World : Type := mkWorld {
  db : Session.t;
  ticks : nat;
  draws : nat
}.

(** ** Library calls and collaborators *)

Class Platform : Type := {
  (** the type of the raw field values of a fetched badge record *)
  PyVal : Type;
  (** [str(v)] on such a value *)
  py_str : PyVal -> string;
  (** the value of the n-th reading of [datetime.utcnow()] *)
  utcnow_at : nat -> datetime.t;
  (** [str(d)] on a datetime *)
  datetime_str : datetime.t -> string;
  (** [datetime.strptime(s, fmt)]; [None] stands for its [ValueError] *)
  strptime : string -> string -> option datetime.t;
  (** the raw outcome of the n-th draw of the seeded generator *)
  random_at : nat -> Z;
  (** [utils.verify_check(assessment_tracker_entry=e)] *)
  verify_check : AssessmentTracker.t -> bool;
  (** the column names of the [Badges] mapped class *)
  Badges_columns : list string
}.

(** ** The monad: exceptions over the world *)

Inductive result (A : Type) : Type :=
| Ok (a : A)
| Raise (e : exn).
Arguments Ok {A} a.
Arguments Raise {A} e.

Definition M (A : Type) : Type := World -> result A * World.

Definition ret {A} (a : A) : M A := fun w => (Ok a, w).

Definition raise {A} (e : exn) : M A := fun w => (Raise e, w).

Definition bind {A B} (c : M A) (k : A -> M B) : M B :=
  fun w =>
    match c w with
    | (Ok a, w') => k a w'
    | (Raise e, w') => (Raise e, w')
    end.

Declare Scope py_scope.
Delimit Scope py_scope with py.
Notation "x <- c ;; k" := (bind c (fun x => k))
  (at level 61, c at next level, right associativity) : py_scope.
Notation "c ;; k" := (bind c (fun _ => k))
  (at level 61, right associativity) : py_scope.
Local Open Scope py_scope.

(** [try: body  except Exception as e: handler e].  The handler runs in the
    state the body left behind. *)
Definition try_except {A} (body : M A) (handler : exn -> M A) : M A :=
  fun w =>
    match body w with
    | (Ok a, w') => (Ok a, w')
    | (Raise e, w') => handler e w'
    end.

(** [try: body  except ValueError as e: handler str(e)]: other exceptions
    pass through. *)
Definition try_except_ValueError {A} (body : M A) (handler : string -> M A)
  : M A :=
  fun w =>
    match body w with
    | (Ok a, w') => (Ok a, w')
    | (Raise (ValueError msg), w') => handler msg w'
    | (Raise e, w') => (Raise e, w')
    end.

(** [for x in xs: body x]. *)
Fixpoint for_each {A} (xs : list A) (body : A -> M unit) : M unit :=
  match xs with
  | [] => ret tt
  | x :: xs' => body x ;; for_each xs' body
  end.

(** Session primitives. *)
Definition query {A} (q : Tables.t -> A) : M A :=
  fun w => (Ok (q (Session.pending (db w))), w).

Definition db_write (f : Tables.t -> Tables.t) : M unit :=
  fun w => (Ok tt, mkWorld (Session.write f (db w)) (ticks w) (draws w)).

(** [db.commit()] when no statement of the unit of work sets
    [latest_commit]: the UNIQUE constraint on that column, the one
    constraint the code can break, is not touched, and the transaction is
    made durable. *)
Definition db_commit : M unit :=
  fun w => (Ok tt, mkWorld (Session.commit (db w)) (ticks w) (draws w)).

(** The error of the store when a statement breaks the UNIQUE constraint on
    [latest_commit]: [sqlalchemy.exc.IntegrityError], which is an
    [Exception] and no [ValueError].  Its text is the database engine's. *)
Definition IntegrityError : exn :=
  Exception "UNIQUE constraint failed: assessment_tracker.latest_commit".

(** More than one of [rows] carries the commit [c]. *)
Definition commit_taken (c : string) (rows : list AssessmentTracker.t) : bool :=
  Nat.ltb 1
    (List.length
       (filter (fun r => String.eqb (AssessmentTracker.latest_commit r) c) rows)).

(** [db.commit()] when the unit of work holds a statement that sets
    [latest_commit] to [c]: the INSERT of a new entry, or the UPDATE of an
    entry whose [latest_commit] was assigned a value other than the one it
    was loaded with (SQLAlchemy sends only the columns that changed).  The
    flush is refused when, with the statement applied, more than one row
    carries [c]; nothing is made durable then.  No caller handles the error
    or rolls back, so the code does not say what the session sees next: it
    is kept here as [db.add] left it. *)
Definition db_commit_unique (c : string) : M unit :=
  fun w =>
    if commit_taken c (Tables.assessment_tracker (Session.pending (db w)))
    then (Raise IntegrityError, w)
    else db_commit w.

Definition db_rollback : M unit :=
  fun w => (Ok tt, mkWorld (Session.rollback (db w)) (ticks w) (draws w)).

(** [valid[i]] with Python's indexing: negative indices count from the end. *)
Definition py_index {A} (l : list A) (i : Z) : M A :=
  let n := Z.of_nat (List.length l) in
  let j := if i <? 0 then i + n else i in
  if (j <? 0) || (n <=? j) then raise (IndexError "list index out of range")
  else match nth_error l (Z.to_nat j) with
       | Some a => ret a
       | None => raise (IndexError "list index out of range")
       end.

Section Crud.
Context {P : Platform}.

(** [datetime.utcnow()]. *)
Definition utcnow : M datetime.t :=
  fun w => (Ok (utcnow_at (ticks w)), mkWorld (db w) (S (ticks w)) (draws w)).

(** [random.randint(a, b)]: some integer of [a..b], or [ValueError] when the
    range is empty (the only caller replaces that exception, so its text is
    never seen). *)
Definition randint (a b : Z) : M Z :=
  fun w =>
    if b <? a then (Raise (ValueError "empty range for randrange()"), w)
    else (Ok (a + random_at (draws w) mod (b - a + 1)),
          mkWorld (db w) (ticks w) (S (draws w))).

(** *** Lookups *)

Definition get_user_by_username (username : string) : M Users.t :=
  user <- query (fun tb =>
            find (fun u => String.eqb (Users.username u) username)
                 (Tables.users tb)) ;;
  match user with
  | None => raise (ValueError "User name does not exist")
  | Some user => ret user
  end.

Definition get_user_by_id (user_id : Z) : M Users.t :=
  user <- query (fun tb =>
            find (fun u => Z.eqb (Users.id u) user_id) (Tables.users tb)) ;;
  match user with
  | None => raise (ValueError "User ID does not exist")
  | Some user => ret user
  end.

Definition get_reviewer_by_username (username : string) : M Reviewers.t :=
  user <- get_user_by_username username ;;
  let user_id := Users.id user in
  reviewer <- query (fun tb =>
                find (fun r => Z.eqb (Reviewers.user_id r) user_id)
                     (Tables.reviewers tb)) ;;
  match reviewer with
  | None => raise (ValueError "Reviewer does not exist")
  | Some reviewer => ret reviewer
  end.

Definition get_reviewer_by_id (reviewer_id : Z) : M Reviewers.t :=
  reviewer <- query (fun tb =>
                find (fun r => Z.eqb (Reviewers.id r) reviewer_id)
                     (Tables.reviewers tb)) ;;
  match reviewer with
  | None => raise (ValueError "Reviewer does not exist")
  | Some reviewer => ret reviewer
  end.

Definition get_assessment_by_name (assessment_name : string)
  : M Assessments.t :=
  assessment <- query (fun tb =>
                  find (fun a => String.eqb (Assessments.name a) assessment_name)
                       (Tables.assessments tb)) ;;
  match assessment with
  | None => raise (ValueError "Assessment does not exist")
  | Some assessment => ret assessment
  end.

Definition get_assessment_by_id (assessment_id : Z) : M Assessments.t :=
  assessment <- query (fun tb =>
                  find (fun a => Z.eqb (Assessments.id a) assessment_id)
                       (Tables.assessments tb)) ;;
  match assessment with
  | None => raise (ValueError "Assessment ID does not exist")
  | Some assessment => ret assessment
  end.

Definition get_assessment_tracker_entry (user_id assessment_id : Z)
  : M AssessmentTracker.t :=
  assessment_tracker <- query (fun tb =>
      find (fun e => Z.eqb (AssessmentTracker.assessment_id e) assessment_id)
           (filter (fun e => Z.eqb (AssessmentTracker.user_id e) user_id)
                   (Tables.assessment_tracker tb))) ;;
  match assessment_tracker with
  | None => raise (ValueError "Assessment tracker entry unavailable.")
  | Some assessment_tracker => ret assessment_tracker
  end.

Definition get_assessment_tracker_entry_by_id (entry_id : Z)
  : M AssessmentTracker.t :=
  assessment_tracker <- query (fun tb =>
      find (fun e => Z.eqb (AssessmentTracker.id e) entry_id)
           (Tables.assessment_tracker tb)) ;;
  match assessment_tracker with
  | None => raise (ValueError "Assessment tracker entry unavailable.")
  | Some assessment_tracker => ret assessment_tracker
  end.

Definition get_assessment_tracker_entry_by_commit (commit : string)
  : M AssessmentTracker.t :=
  assessment_tracker <- query (fun tb =>
      find (fun e => String.eqb (AssessmentTracker.latest_commit e) commit)
           (Tables.assessment_tracker tb)) ;;
  match assessment_tracker with
  | None => raise (ValueError "Assessment tracker entry unavailable.")
  | Some assessment_tracker => ret assessment_tracker
  end.

(** *** Writing tracker rows *)

(** The primary key the store gives to a new row (autoincrement). *)
Definition next_id (rows : list AssessmentTracker.t) : Z :=
  1 + fold_right Z.max 0 (map AssessmentTracker.id rows).

(** Flushing a persistent instance: the row with its primary key is
    rewritten.  An instance is represented by its column values, so the row
    is found by [id]; an instance with an unknown key is inserted. *)
Fixpoint merge_row (e : AssessmentTracker.t) (rows : list AssessmentTracker.t)
  : list AssessmentTracker.t :=
  match rows with
  | [] => [e]
  | r :: rows' =>
      if Z.eqb (AssessmentTracker.id r) (AssessmentTracker.id e)
      then e :: rows'
      else r :: merge_row e rows'
  end.

(** [db.add(obj)] for an instance built by the class constructor, which
    carries no primary key yet. *)
Definition db_add_new (obj : Z -> AssessmentTracker.t) : M unit :=
  db_write (fun tb =>
    let rows := Tables.assessment_tracker tb in
    Tables.set_assessment_tracker (rows ++ [obj (next_id rows)]) tb).

(** [db.add(entry)] for an instance that came out of a query. *)
Definition db_add (entry : AssessmentTracker.t) : M unit :=
  db_write (fun tb =>
    Tables.set_assessment_tracker
      (merge_row entry (Tables.assessment_tracker tb)) tb).

(** [if cond: raise e]. *)
Definition raise_if (cond : bool) (e : exn) : M unit :=
  if cond then raise e else ret tt.

(** *** The tracker operations *)

(** The commit flushes the INSERT of the new entry, which sets its
    [latest_commit]. *)
Definition init_assessment_tracker (init_request : InitRequest.t) (user_id : Z)
  : M bool :=
  assessment <- get_assessment_by_name (InitRequest.assessment_name init_request) ;;
  let assessment_id := Assessments.id assessment in
  try_except_ValueError
    (_ <- get_assessment_tracker_entry user_id assessment_id ;;
     raise (ValueError "Assessment tracker entry already exists."))
    (fun msg =>
       if negb (String.eqb msg "Assessment tracker entry unavailable.")
       then raise (ValueError msg)
       else
         now1 <- utcnow ;;
         now2 <- utcnow ;;
         let db_obj := fun pk =>
           AssessmentTracker.mk pk user_id assessment_id
             (InitRequest.latest_commit init_request)
             now1
             "Initiated"
             None
             [[("status", JStr "Initiated");
               ("timestamp", JStr (datetime_str now2));
               ("commit", JStr (InitRequest.latest_commit init_request))]] in
         db_add_new db_obj ;;
         db_commit_unique (InitRequest.latest_commit init_request) ;;
         ret true).

Definition select_reviewer (assessment_tracker_entry : AssessmentTracker.t)
  : M Reviewers.t :=
  invalid_rev <- query (fun tb =>
      map Reviewers.id
        (filter (fun r => Z.eqb (Reviewers.user_id r)
                            (AssessmentTracker.user_id assessment_tracker_entry))
                (Tables.reviewers tb))) ;;
  valid_reviewers <- query (fun tb =>
      map Reviewers.id
        (filter (fun r => negb (existsb (Z.eqb (Reviewers.id r)) invalid_rev))
                (Tables.reviewers tb))) ;;
  random_id <- try_except
      (i <- randint 0 (Z.of_nat (List.length valid_reviewers) - 1) ;;
       py_index valid_reviewers i)
      (fun _ => raise (ValueError
         "No reviewer available. Please contact the administrator.")) ;;
  try_except
    (get_reviewer_by_id random_id)
    (fun e => raise (Exception
       ("Error selecting reviewer. Contact the administrators. Error string: "
        ++ exn_str e)%string)).

(** The entry is loaded, three of its attributes are assigned, and the
    commit flushes it: the UPDATE sets [latest_commit] only when the
    assigned value is not the loaded one ([loaded_commit]). *)
Definition update_assessment_log (entry_id : Z) (latest_commit : string)
    (update_logs : Dict.t json) : M bool :=
  assessment_tracker_entry <- get_assessment_tracker_entry_by_id entry_id ;;
  let loaded_commit := AssessmentTracker.latest_commit assessment_tracker_entry in
  now <- utcnow ;;
  let assessment_tracker_entry :=
    AssessmentTracker.set_last_updated now assessment_tracker_entry in
  let assessment_tracker_entry :=
    AssessmentTracker.set_latest_commit latest_commit assessment_tracker_entry in
  let logs := AssessmentTracker.log assessment_tracker_entry in
  let update_logs := Dict.set "commit" (JStr latest_commit) update_logs in
  let update_logs :=
    Dict.set "timestamp"
      (JStr (datetime_str (AssessmentTracker.last_updated assessment_tracker_entry)))
      update_logs in
  let logs := logs ++ [update_logs] in
  let assessment_tracker_entry :=
    AssessmentTracker.set_log logs assessment_tracker_entry in
  db_add assessment_tracker_entry ;;
  (if String.eqb loaded_commit latest_commit
   then db_commit
   else db_commit_unique latest_commit) ;;
  ret true.

Definition assign_reviewer (assessment_tracker_entry : AssessmentTracker.t)
    (reviewer_info : ReviewerInfo.t) : M bool :=
  let assessment_tracker_entry :=
    AssessmentTracker.set_reviewer_id
      (Some (ReviewerInfo.reviewer_id reviewer_info)) assessment_tracker_entry in
  let assessment_tracker_entry :=
    AssessmentTracker.set_status "Under review" assessment_tracker_entry in
  now <- utcnow ;;
  let assessment_tracker_entry :=
    AssessmentTracker.set_last_updated now assessment_tracker_entry in
  db_add assessment_tracker_entry ;;
  db_commit ;;
  update_assessment_log
    (AssessmentTracker.id assessment_tracker_entry)
    (AssessmentTracker.latest_commit assessment_tracker_entry)
    (ReviewerInfo.to_dict reviewer_info) ;;
  ret true.

Definition approve_assessment (trainee : Users.t) (reviewer : Reviewers.t)
    (reviewer_username : string) (assessment : Assessments.t) : M bool :=
  raise_if (Z.eqb (Reviewers.user_id reviewer) (Users.id trainee))
    (ValueError "Reviewer cannot be the same as the trainee.") ;;
  assessment_tracker_entry <-
    get_assessment_tracker_entry (Users.id trainee) (Assessments.id assessment) ;;
  match AssessmentTracker.reviewer_id assessment_tracker_entry with
  | None => raise (ValueError "No reviewer is assigned to the assessment.")
  | Some assigned_id =>
      raise_if
        (negb (String.eqb (AssessmentTracker.status assessment_tracker_entry)
                          "Under review"))
        (ValueError "Assessment is not under review.") ;;
      raise_if (negb (verify_check assessment_tracker_entry))
        (ValueError "Last commit checks failed.") ;;
      reviewer_real <- get_reviewer_by_id assigned_id ;;
      reviewer_real_user <- get_user_by_id (Reviewers.user_id reviewer_real) ;;
      raise_if
        (negb (String.eqb (Users.username reviewer_real_user) reviewer_username))
        (ValueError
           "Reviewer is not the same as the reviewer assigned to the assessment.") ;;
      let latest_commit := AssessmentTracker.latest_commit assessment_tracker_entry in
      let assessment_tracker_entry :=
        AssessmentTracker.set_status "Approved" assessment_tracker_entry in
      now1 <- utcnow ;;
      let assessment_tracker_entry :=
        AssessmentTracker.set_last_updated now1 assessment_tracker_entry in
      now2 <- utcnow ;;
      let log := [("timestamp", JStr (datetime_str now2));
                  ("status", JStr "Approved");
                  ("commit", JStr latest_commit);
                  ("Reviewer", JInt (Reviewers.id reviewer))] in
      let logs := AssessmentTracker.log assessment_tracker_entry ++ [log] in
      let assessment_tracker_entry :=
        AssessmentTracker.set_log logs assessment_tracker_entry in
      db_add assessment_tracker_entry ;;
      db_commit ;;
      ret true
  end.

(** *** The badge catalogue *)

(** The two timestamp formats of the external service. *)
Definition FMT_FRACTION : string := "%Y-%m-%dT%H:%M:%S.%fZ".
Definition FMT_SECONDS : string := "%Y-%m-%dT%H:%M:%SZ".

(** [badge[k]]. *)
Definition getitem {V} (k : string) (d : Dict.t V) : M V :=
  match Dict.get k d with
  | Some v => ret v
  | None => raise (KeyError k)
  end.

(** One round of the loop over [fields.items()]: the nested [try] blocks
    around the two [strptime] calls. *)
Definition reparse (fields : Dict.t value) (kv : string * value)
  : Dict.t value :=
  match snd kv with
  | VStr v =>
      match strptime v FMT_FRACTION with
      | Some d => Dict.set (fst kv) (VDatetime d) fields
      | None =>
          match strptime v FMT_SECONDS with
          | Some d => Dict.set (fst kv) (VDatetime d) fields
          | None => fields
          end
      end
  | VDatetime _ => fields
  end.

(** [{k: str(v) for k, v in badge.items()}] followed by the reparsing loop. *)
Definition badge_fields (badge : Dict.t PyVal) : Dict.t value :=
  let fields :=
    Dict.update [] (map (fun kv => (fst kv, VStr (py_str (snd kv))))
                        (Dict.items badge)) in
  fold_left reparse (Dict.items fields) fields.

(** The filter [name == x] of [filter_by(name=x)] on a badge row; the text
    column is compared with the text of the bound value. *)
Definition name_is (x : PyVal) (row : Badges.t) : bool :=
  match Dict.get "name" row with
  | Some (VStr s) => String.eqb s (py_str x)
  | _ => false
  end.

(** The keyword arguments of the [models.Badges] constructor and the keys
    of [Query.update(values=fields)] must name columns of the class: the
    first key that does not, if any. *)
Definition unknown_column (fields : Dict.t value) : option string :=
  find (fun k => negb (existsb (String.eqb k) Badges_columns))
       (Dict.keys fields).

(** The body of the loop of [sync_badges] for one fetched record.  The
    constructor refuses an unknown keyword with [TypeError]; the bulk update
    refuses an unknown key with an SQLAlchemy error, rendered as a plain
    [Exception]. *)
Definition sync_badge (badge : Dict.t PyVal) : M unit :=
  name <- getitem "name" badge ;;
  let current_badge := fun tb => filter (name_is name) (Tables.badges tb) in
  let fields := badge_fields badge in
  first <- query (fun tb => hd_error (current_badge tb)) ;;
  match first with
  | None =>
      match unknown_column fields with
      | Some k =>
          raise (TypeError
            ("'" ++ k ++ "' is an invalid keyword argument for Badges")%string)
      | None =>
          db_write (fun tb =>
            Tables.set_badges (Tables.badges tb ++ [fields]) tb) ;;
          db_commit
      end
  | Some _ =>
      match unknown_column fields with
      | Some k =>
          raise (Exception
            ("Entity namespace for badges has no property " ++ k)%string)
      | None =>
          db_write (fun tb =>
            Tables.set_badges
              (map (fun row =>
                      if name_is name row then Dict.update row fields else row)
                   (Tables.badges tb)) tb) ;;
          db_commit
      end
  end.

(** [fetched] is what the calls to the badge service gave: the list under
    ['result'], or the exception they raised. *)
Definition sync_badges (fetched : result (list (Dict.t PyVal))) : M unit :=
  badgelst <- try_except
                (match fetched with Ok l => ret l | Raise e => raise e end)
                (fun e => raise e) ;;
  try_except
    (for_each badgelst sync_badge)
    (fun e => db_rollback ;; raise e).

End Crud.

(** ** The failures, by the names the specification gives them *)

Definition SelfReview : exn :=
  ValueError "Reviewer cannot be the same as the trainee.".
Definition NotFound : exn :=
  ValueError "Assessment tracker entry unavailable.".
Definition AlreadyExists : exn :=
  ValueError "Assessment tracker entry already exists.".
Definition NoReviewerAssigned : exn :=
  ValueError "No reviewer is assigned to the assessment.".
Definition NotUnderReview : exn :=
  ValueError "Assessment is not under review.".
Definition ChecksFailed : exn :=
  ValueError "Last commit checks failed.".
Definition ReviewerMismatch : exn :=
  ValueError "Reviewer is not the same as the reviewer assigned to the assessment.".

(** ** The order of the states *)

Definition status_rank (s : string) : option nat :=
  if String.eqb s "Initiated" then Some 0%nat
  else if String.eqb s "Under review" then Some 1%nat
  else if String.eqb s "Approved" then Some 2%nat
  else None.

(** [s'] is [s] or a later state. *)
Definition status_forward (s s' : string) : bool :=
  String.eqb s s' ||
  match status_rank s, status_rank s' with
  | Some a, Some b => Nat.leb a b
  | _, _ => false
  end.

(** Every row of [before] is still there, in place, under the same key, and
    its status has not moved back; rows may have been added behind. *)
Definition never_backward (before after : list AssessmentTracker.t) : Prop :=
  exists kept added,
    after = kept ++ added /\
    Forall2 (fun e e' =>
               AssessmentTracker.id e' = AssessmentTracker.id e /\
               status_forward (AssessmentTracker.status e)
                              (AssessmentTracker.status e') = true)
            before kept.

(** The primary key of the tracker table is unique. *)
Definition primary_keys_unique (w : World) : Prop :=
  NoDup (map AssessmentTracker.id
             (Tables.assessment_tracker (Session.pending (db w)))).

(** The tracker rows the session sees. *)
Definition tracker_rows (w : World) : list AssessmentTracker.t :=
  Tables.assessment_tracker (Session.pending (db w)).

(** The badge rows the session sees, and those that are durable. *)
Definition badge_rows (w : World) : list Badges.t :=
  Tables.badges (Session.pending (db w)).
Definition stored_badges (w : World) : list Badges.t :=
  Tables.badges (Session.committed (db w)).

(** ** The catalogue synchronisation, in the words of its description *)

Section CatalogueWords.
Context {P : Platform}.

(** The string-coerced record, before any reparsing. *)
Definition coerced_fields (badge : Dict.t PyVal) : Dict.t value :=
  Dict.update [] (map (fun kv => (fst kv, VStr (py_str (snd kv))))
                      (Dict.items badge)).

(** Try the format with fractional seconds, then the one without, else keep
    the text. *)
Definition parse_chain (s : string) : value :=
  match strptime s FMT_FRACTION with
  | Some d => VDatetime d
  | None =>
      match strptime s FMT_SECONDS with
      | Some d => VDatetime d
      | None => VStr s
      end
  end.

(** A record the loop body accepts: it has a name and only known columns. *)
Definition record_accepted (badge : Dict.t PyVal) : bool :=
  match Dict.get "name" badge with
  | Some _ =>
      match unknown_column (coerced_fields badge) with
      | None => true
      | Some _ => false
      end
  | None => false
  end.

(** Upsert keyed by the record's name: rows with that name take the record's
    fields, and if there is none the record becomes a new row. *)
Definition upsert_by_name (rows : list Badges.t) (badge : Dict.t PyVal)
  : list Badges.t :=
  match Dict.get "name" badge with
  | Some name =>
      if existsb (name_is name) rows
      then map (fun row => if name_is name row
                           then Dict.update row (badge_fields badge)
                           else row) rows
      else rows ++ [badge_fields badge]
  | None => rows
  end.

(** The world after one accepted record has been upserted and committed. *)
Definition world_after_upsert (w : World) (badge : Dict.t PyVal) : World :=
  mkWorld
    (Session.commit
       (Session.write
          (fun tb => Tables.set_badges (upsert_by_name (Tables.badges tb) badge) tb)
          (db w)))
    (ticks w) (draws w).

(** The filter [entityId == x] on a badge row. *)
Definition entityId_is (x : PyVal) (row : Badges.t) : bool :=
  match Dict.get "entityId" row with
  | Some (VStr s) => String.eqb s (py_str x)
  | _ => false
  end.

(** Upsert keyed by the record's external entity id, as the specification
    words it: a row with that id is updated in place, otherwise a new row is
    inserted. *)
Definition upsert_by_entityId (rows : list Badges.t) (badge : Dict.t PyVal)
  : list Badges.t :=
  match Dict.get "entityId" badge with
  | Some eid =>
      if existsb (entityId_is eid) rows
      then map (fun row => if entityId_is eid row
                           then Dict.update row (badge_fields badge)
                           else row) rows
      else rows ++ [badge_fields badge]
  | None => rows ++ [badge_fields badge]
  end.

End CatalogueWords.

(** ** The rows the operations write *)

Section WrittenRows.
Context {P : Platform}.

(** The log record of an approval by [reviewer] stamped [now]. *)
Definition approval_record (now : datetime.t) (latest_commit : string)
    (reviewer : Reviewers.t) : Dict.t json :=
  [("timestamp", JStr (datetime_str now));
   ("status", JStr "Approved");
   ("commit", JStr latest_commit);
   ("Reviewer", JInt (Reviewers.id reviewer))].

(** The row of [entry] once approved by [reviewer], the clock having been
    read [n] times before. *)
Definition approved_row (n : nat) (reviewer : Reviewers.t)
    (entry : AssessmentTracker.t) : AssessmentTracker.t :=
  AssessmentTracker.mk
    (AssessmentTracker.id entry) (AssessmentTracker.user_id entry)
    (AssessmentTracker.assessment_id entry)
    (AssessmentTracker.latest_commit entry)
    (utcnow_at n) "Approved" (AssessmentTracker.reviewer_id entry)
    (AssessmentTracker.log entry ++
       [approval_record (utcnow_at (S n))
          (AssessmentTracker.latest_commit entry) reviewer]).

(** The world after [row] has been written back and committed, the clock
    having been read [n] more times. *)
Definition world_after_write (row : AssessmentTracker.t) (n : nat) (w : World)
  : World :=
  mkWorld
    (Session.commit
       (Session.write
          (fun tb => Tables.set_assessment_tracker
                       (merge_row row (Tables.assessment_tracker tb)) tb)
          (db w)))
    (n + ticks w) (draws w).

End WrittenRows.

(** ** A concrete platform and store *)

Module Demo.

Definition clock (n : nat) : datetime.t :=
  datetime.mk 2022 6 1 12 0 (Z.of_nat n) 0.

Definition show (d : datetime.t) : string :=
  if Z.eqb (datetime.second d) 0 then "2022-06-01 12:00:00"
  else if Z.eqb (datetime.second d) 1 then "2022-06-01 12:00:01"
  else if Z.eqb (datetime.second d) 2 then "2022-06-01 12:00:02"
  else "2022-06-01 12:00:03".

Definition parse (s fmt : string) : option datetime.t :=
  if String.eqb s "2022-05-04T03:02:01.500000Z" && String.eqb fmt FMT_FRACTION
  then Some (datetime.mk 2022 5 4 3 2 1 500000)
  else if String.eqb s "2022-05-04T03:02:01Z" && String.eqb fmt FMT_SECONDS
  then Some (datetime.mk 2022 5 4 3 2 1 0)
  else None.

Definition platform : Platform := {|
  PyVal := string;
  py_str := fun s => s;
  utcnow_at := clock;
  datetime_str := show;
  strptime := parse;
  random_at := fun n => Z.of_nat n;
  verify_check := fun e =>
    negb (String.eqb (AssessmentTracker.latest_commit e) "red");
  Badges_columns := ["entityId"; "name"; "createdAt"; "description"]
|}.

Definition alice : Users.t := Users.mk 42 "alice".
Definition bob : Users.t := Users.mk 50 "bob".
Definition carol : Users.t := Users.mk 51 "carol".

Definition rev_bob : Reviewers.t := Reviewers.mk 7 50.
Definition rev_carol : Reviewers.t := Reviewers.mk 8 51.
Definition rev_alice : Reviewers.t := Reviewers.mk 9 42.

Definition python1 : Assessments.t := Assessments.mk 1 "Python I".

Definition world_of (rows : list AssessmentTracker.t) (bs : list Badges.t)
  : World :=
  let tb := Tables.mk [alice; bob; carol] [rev_bob; rev_carol; rev_alice]
                      [python1] rows bs in
  mkWorld (Session.mk tb tb) 0 0.

Definition empty_world : World := world_of [] [].

Definition request : InitRequest.t := InitRequest.mk "alice" "Python I" "abc123".

Definition first_log : Dict.t json :=
  [("status", JStr "Initiated");
   ("timestamp", JStr "2022-06-01 12:00:01");
   ("commit", JStr "abc123")].

Definition entry_with (status : string) (reviewer_id : option Z)
  : AssessmentTracker.t :=
  AssessmentTracker.mk 1 42 1 "abc123" (clock 0) status reviewer_id [first_log].

(** The entry of another trainee, carrying [commit]. *)
Definition entry_of_bob (commit : string) : AssessmentTracker.t :=
  AssessmentTracker.mk 2 50 1 commit (clock 0) "Initiated" None
    [[("status", JStr "Initiated");
      ("timestamp", JStr "2022-06-01 12:00:01");
      ("commit", JStr commit)]].

Definition under_review : World := world_of [entry_with "Under review" (Some 7)] [].
Definition approved : World := world_of [entry_with "Approved" (Some 7)] [].

Definition badge_a : Dict.t string :=
  [("entityId", "e1"); ("name", "A"); ("createdAt", "2022-05-04T03:02:01Z")].
Definition badge_nameless : Dict.t string := [("entityId", "e2")].
Definition badge_a_renumbered : Dict.t string :=
  [("entityId", "e2"); ("name", "A")].

Definition row_a : Badges.t :=
  [("entityId", VStr "e1"); ("name", VStr "A");
   ("createdAt", VDatetime (datetime.mk 2022 5 4 3 2 1 0))].

End Demo.

(** ** Constraints of the schema and of the session *)

(** One tracker entry per user and assessment. *)
Definition pairs_unique (w : World) : Prop :=
  NoDup (map (fun e => (AssessmentTracker.user_id e,
                        AssessmentTracker.assessment_id e))
             (tracker_rows w)).

(** Nothing is pending: the session sees what is stored. *)
Definition session_clean (w : World) : Prop :=
  Session.committed (db w) = Session.pending (db w).

(** A row of [rows] carries the commit [c]. *)
Definition commit_carried (c : string) (rows : list AssessmentTracker.t) : bool :=
  existsb (fun r => String.eqb (AssessmentTracker.latest_commit r) c) rows.

(** The store refuses to give [entry] the commit [c]: it is not the commit
    the entry carries, and a stored row carries it. *)
Definition update_refused (c : string) (entry : AssessmentTracker.t) (w : World)
  : bool :=
  negb (String.eqb (AssessmentTracker.latest_commit entry) c) &&
  commit_carried c (tracker_rows w).

(** The world after [row] has been written back and the commit refused, the
    clock having been read [n] more times: the session holds the row,
    nothing is durable. *)
Definition world_write_refused (row : AssessmentTracker.t) (n : nat) (w : World)
  : World :=
  mkWorld
    (Session.write
       (fun tb => Tables.set_assessment_tracker
                    (merge_row row (Tables.assessment_tracker tb)) tb)
       (db w))
    (n + ticks w) (draws w).

(** The same for a row that was to be inserted. *)
Definition world_insert_refused (row : AssessmentTracker.t) (n : nat) (w : World)
  : World :=
  mkWorld
    (Session.write
       (fun tb => Tables.set_assessment_tracker
                    (Tables.assessment_tracker tb ++ [row]) tb)
       (db w))
    (n + ticks w) (draws w).

(** ** More rows the operations write *)

Section MoreWrittenRows.
Context {P : Platform}.

(** The row [init_assessment_tracker] creates under the key [pk], the clock
    having been read [n] times before. *)
Definition initiated_row (n : nat) (pk : Z) (init_request : InitRequest.t)
    (user_id assessment_id : Z) : AssessmentTracker.t :=
  AssessmentTracker.mk pk user_id assessment_id
    (InitRequest.latest_commit init_request) (utcnow_at n) "Initiated" None
    [[("status", JStr "Initiated");
      ("timestamp", JStr (datetime_str (utcnow_at (S n))));
      ("commit", JStr (InitRequest.latest_commit init_request))]].

(** The world after [row] has been inserted and committed, the clock having
    been read [n] more times. *)
Definition world_after_insert (row : AssessmentTracker.t) (n : nat) (w : World)
  : World :=
  mkWorld
    (Session.commit
       (Session.write
          (fun tb => Tables.set_assessment_tracker
                       (Tables.assessment_tracker tb ++ [row]) tb)
          (db w)))
    (n + ticks w) (draws w).

(** The log record of a commit update stamped [now]. *)
Definition update_record (now : datetime.t) (latest_commit : string)
    (update_logs : Dict.t json) : Dict.t json :=
  Dict.set "timestamp" (JStr (datetime_str now))
    (Dict.set "commit" (JStr latest_commit) update_logs).

(** The row of [entry] after [update_assessment_log], the clock having been
    read [n] times before. *)
Definition updated_row (n : nat) (latest_commit : string)
    (update_logs : Dict.t json) (entry : AssessmentTracker.t)
  : AssessmentTracker.t :=
  AssessmentTracker.mk
    (AssessmentTracker.id entry) (AssessmentTracker.user_id entry)
    (AssessmentTracker.assessment_id entry) latest_commit (utcnow_at n)
    (AssessmentTracker.status entry) (AssessmentTracker.reviewer_id entry)
    (AssessmentTracker.log entry ++
       [update_record (utcnow_at n) latest_commit update_logs]).

(** The row of [entry] after [assign_reviewer], the clock having been read
    [n] times before: the second reading stamps the row and its record. *)
Definition assigned_row (n : nat) (reviewer_info : ReviewerInfo.t)
    (entry : AssessmentTracker.t) : AssessmentTracker.t :=
  AssessmentTracker.mk
    (AssessmentTracker.id entry) (AssessmentTracker.user_id entry)
    (AssessmentTracker.assessment_id entry)
    (AssessmentTracker.latest_commit entry) (utcnow_at (S n))
    "Under review" (Some (ReviewerInfo.reviewer_id reviewer_info))
    (AssessmentTracker.log entry ++
       [update_record (utcnow_at (S n)) (AssessmentTracker.latest_commit entry)
          (ReviewerInfo.to_dict reviewer_info)]).

End MoreWrittenRows.

(** ** The candidates of a selection *)

(** The two lists [select_reviewer] builds: the ids of the reviewer rows of
    the trainee's own user, and the ids of the reviewer rows outside it. *)
Definition excluded_ids (entry : AssessmentTracker.t) (w : World) : list Z :=
  map Reviewers.id
    (filter (fun r => Z.eqb (Reviewers.user_id r)
                            (AssessmentTracker.user_id entry))
            (Tables.reviewers (Session.pending (db w)))).

Definition eligible_ids (entry : AssessmentTracker.t) (w : World) : list Z :=
  map Reviewers.id
    (filter (fun r => negb (existsb (Z.eqb (Reviewers.id r))
                                    (excluded_ids entry w)))
            (Tables.reviewers (Session.pending (db w)))).

(** The failure of a selection without candidates. *)
Definition NoReviewerAvailable : exn :=
  ValueError "No reviewer available. Please contact the administrator.".

(** Two states of the tables that differ at most in the badges. *)
Definition same_but_badges (tb tb' : Tables.t) : Prop :=
  Tables.users tb' = Tables.users tb /\
  Tables.reviewers tb' = Tables.reviewers tb /\
  Tables.assessments tb' = Tables.assessments tb /\
  Tables.assessment_tracker tb' = Tables.assessment_tracker tb.

(** ** Records and rows of the catalogue *)

Section CatalogueRows.
Context {P : Platform}.

(** The row made from the record is found again under the record's name:
    the reparsing has left the name as text. *)
Definition name_kept (badge : Dict.t PyVal) : bool :=
  match Dict.get "name" badge with
  | Some name => name_is name (badge_fields badge)
  | None => false
  end.

(** A record that is accepted and found again under its name. *)
Definition record_stable (badge : Dict.t PyVal) : bool :=
  record_accepted badge && name_kept badge.

(** The row carries the record's name. *)
Definition record_names (badge : Dict.t PyVal) (row : Badges.t) : bool :=
  match Dict.get "name" badge with
  | Some name => name_is name row
  | None => false
  end.

(** What the bulk update of a record does to one row. *)
Definition row_update (badge : Dict.t PyVal) (row : Badges.t) : Badges.t :=
  if record_names badge row then Dict.update row (badge_fields badge) else row.

(** The bulk updates of a whole catalogue on one row, in order. *)
Definition rows_update (catalog : list (Dict.t PyVal)) (row : Badges.t)
  : Badges.t :=
  fold_left (fun r badge => row_update badge r) catalog row.

(** The fields the records carrying the row's name set, in order. *)
Definition matching_fields (catalog : list (Dict.t PyVal)) (row : Badges.t)
  : Dict.t value :=
  flat_map (fun badge => if record_names badge row then badge_fields badge
                         else []) catalog.

End CatalogueRows.

(** ** Assertions

    [add_assertion] resolves the badge an assertion names by its external
    id, refreshing the catalogue once when the badge is not stored, and
    stores the wrangled assertion.  [utils.wrangle_assertion] and the
    [Assertions] mapped class are not part of the sources at hand and are
    fields of the [Wrangler] class.  [add_assertion] is the only writer of
    the assertions table and commits or rolls back its one write at once,
    so the table is kept as the list of its committed rows. *)

(** The exceptions of [add_assertion]: those above, and the
    [AttributeError] of reading [.name] on [None]. *)
Inductive exn_ext : Type :=
| Builtin (e : exn)
| AttributeError (msg : string).

Inductive outcome (A : Type) : Type :=
| Done (a : A)
| Failed (e : exn_ext).
Arguments Done {A} a.
Arguments Failed {A} e.

Class Wrangler {P : Platform} : Type := {
  (** the type of the field values of an assertion row *)
  AssertionVal : Type;
  (** an integer as such a value *)
  of_int : Z -> AssertionVal;
  (** [utils.wrangle_assertion(assertion=a, badge_name=n)] *)
  wrangle_assertion : Dict.t PyVal -> option value -> Dict.t AssertionVal;
  (** the column names of the [Assertions] mapped class *)
  Assertions_columns : list string
}.

Section Assertions.
Context {P : Platform} {W : Wrangler}.

Record AssertionWorld : Type := mkAssertionWorld {
  base : World;
  assertions : list (Dict.t AssertionVal)
}.

(** [db.query(models.Badges).filter_by(entityId=x).first()]. *)
Definition badge_by_entityId (x : PyVal) (w : World) : option Badges.t :=
  find (entityId_is x) (badge_rows w).

(** The fields handed to the [Assertions] constructor. *)
Definition assertion_fields (entry_id : Z) (assertion : Dict.t PyVal)
    (badge : Badges.t) : Dict.t AssertionVal :=
  let badge_name := Dict.get "name" badge in
  let fields := wrangle_assertion assertion badge_name in
  Dict.set "assessment_tracker_id" (of_int entry_id) fields.

Definition unknown_assertion_column (fields : Dict.t AssertionVal)
  : option string :=
  find (fun k => negb (existsb (String.eqb k) Assertions_columns))
       (Dict.keys fields).

Definition add_assertion (fetched : result (list (Dict.t PyVal)))
    (entry_id : Z) (assertion : Dict.t PyVal) (aw : AssertionWorld)
  : outcome bool * AssertionWorld :=
  match Dict.get "badgeclass" assertion with
  | None => (Failed (Builtin (KeyError "badgeclass")), aw)
  | Some badgeclass =>
      let resolved :=
        match badge_by_entityId badgeclass (base aw) with
        | Some badge => (Ok (Some badge), base aw)
        | None =>
            match sync_badges fetched (base aw) with
            | (Ok _, w1) => (Ok (badge_by_entityId badgeclass w1), w1)
            | (Raise e, w1) => (Raise e, w1)
            end
        end in
      match resolved with
      | (Raise e, w1) =>
          (Failed (Builtin e), mkAssertionWorld w1 (assertions aw))
      | (Ok None, w1) =>
          (Failed (AttributeError "'NoneType' object has no attribute 'name'"),
           mkAssertionWorld w1 (assertions aw))
      | (Ok (Some badge), w1) =>
          let fields := assertion_fields entry_id assertion badge in
          match unknown_assertion_column fields with
          | Some k =>
              (Failed (Builtin (TypeError
                 ("'" ++ k ++ "' is an invalid keyword argument for Assertions")%string)),
               mkAssertionWorld
                 (mkWorld (Session.rollback (db w1)) (ticks w1) (draws w1))
                 (assertions aw))
          | None =>
              (Done true,
               mkAssertionWorld
                 (mkWorld (Session.commit (db w1)) (ticks w1) (draws w1))
                 (assertions aw ++ [fields]))
          end
      end
  end.

End Assertions.

(** ** Records found by their external id *)

Section EntityIds.
Context {P : Platform}.

(** The text of the record's name. *)
Definition record_name_text (badge : Dict.t PyVal) : option string :=
  option_map py_str (Dict.get "name" badge).

(** The row made from the record is found under the external id [x]: the
    record has that id and the reparsing has left it as text. *)
Definition record_has_entityId (x : PyVal) (badge : Dict.t PyVal) : bool :=
  entityId_is x (badge_fields badge).

End EntityIds.

(** A wrangler for the concrete platform: it keeps the badge name and the
    recipient of the assertion. *)
Definition demo_wrangler : @Wrangler Demo.platform :=
  @Build_Wrangler Demo.platform (Z + string)%type inl
    (fun (assertion : Dict.t (@PyVal Demo.platform)) badge_name =>
       [("badge_name",
         inr (match badge_name with Some (VStr s) => s | _ => EmptyString end));
        ("recipient",
         inr (match Dict.get "recipient" assertion with
              | Some s => (s : string)
              | None => EmptyString
              end));
        ("assessment_tracker_id", inl 0)])
    ["badge_name"; "recipient"; "assessment_tracker_id"].

Definition demo_assertion : Dict.t string :=
  [("badgeclass", "e1"); ("recipient", "alice@example.org")].

(** * Properties *)

(** ** Dictionaries *)

Section DictFacts.
Context {V : Type}.
Implicit Types (d : Dict.t V) (k : string) (v : V).

Lemma dict_get_set_same d k v : Dict.get k (Dict.set k v d) = Some v.
Proof.
  induction d as [|[k' v'] d IH]; simpl.
  - now rewrite String.eqb_refl.
  - destruct (String.eqb k' k) eqn:E; simpl; rewrite E; auto.
Qed.

Lemma dict_get_set_other d k k' v :
  k' <> k -> Dict.get k' (Dict.set k v d) = Dict.get k' d.
Proof.
  intros Hne. induction d as [|[k0 v0] d IH]; simpl.
  - destruct (String.eqb_spec k k'); congruence.
  - destruct (String.eqb_spec k0 k) as [->|]; simpl.
    + destruct (String.eqb_spec k k'); congruence.
    + now rewrite IH.
Qed.

Lemma dict_keys_set d k v :
  Dict.keys (Dict.set k v d) =
  if existsb (String.eqb k) (Dict.keys d) then Dict.keys d
  else Dict.keys d ++ [k].
Proof.
  unfold Dict.keys. induction d as [|[k0 v0] d IH]; simpl; auto.
  rewrite (String.eqb_sym k k0).
  destruct (String.eqb k0 k); simpl; auto.
  rewrite IH. now destruct (existsb _ _).
Qed.

Lemma dict_keys_set_NoDup d k v :
  NoDup (Dict.keys d) -> NoDup (Dict.keys (Dict.set k v d)).
Proof.
  intros Hd. rewrite dict_keys_set.
  destruct (existsb (String.eqb k) (Dict.keys d)) eqn:E; auto.
  apply NoDup_app; auto.
  - repeat constructor. intros [].
  - intros x Hx [Hk|[]]. subst x.
    assert (existsb (String.eqb k) (Dict.keys d) = true); [|congruence].
    apply existsb_exists. exists k. now rewrite String.eqb_refl.
Qed.

Lemma dict_update_NoDup d other :
  NoDup (Dict.keys d) -> NoDup (Dict.keys (Dict.update d other)).
Proof.
  unfold Dict.update. revert d.
  induction other as [|[k v] other IH]; simpl; intros d Hd; auto.
  apply IH, dict_keys_set_NoDup, Hd.
Qed.

Lemma dict_get_None_keys d k : Dict.get k d = None <-> ~ In k (Dict.keys d).
Proof.
  unfold Dict.keys. induction d as [|[k0 v0] d IH]; simpl.
  - tauto.
  - destruct (String.eqb_spec k0 k); split; intros H; try discriminate.
    + exfalso; apply H; auto.
    + intros [?|?]; [congruence | now apply IH].
    + apply IH. tauto.
Qed.

Lemma dict_get_head_NoDup d k v :
  NoDup (Dict.keys ((k, v) :: d)) -> Dict.get k d = None.
Proof.
  simpl. intros H. inversion H; subst. now apply dict_get_None_keys.
Qed.

End DictFacts.

(** ** The monad and the lookups *)

Ltac run :=
  unfold bind, ret, raise, raise_if, query, try_except, try_except_ValueError,
    db_add, db_add_new, db_write, db_commit, db_rollback, utcnow;
  simpl.

Section LookupFacts.
Context {P : Platform}.

Lemma get_assessment_tracker_entry_by_id_Ok entry_id w e w' :
  get_assessment_tracker_entry_by_id entry_id w = (Ok e, w') ->
  find (fun r => Z.eqb (AssessmentTracker.id r) entry_id) (tracker_rows w)
    = Some e /\ w' = w.
Proof.
  unfold get_assessment_tracker_entry_by_id, tracker_rows. run.
  destruct (find _ _); intros H; inversion H; auto.
Qed.

Lemma get_assessment_tracker_entry_by_id_find entry_id w e :
  find (fun r => Z.eqb (AssessmentTracker.id r) entry_id) (tracker_rows w)
    = Some e ->
  get_assessment_tracker_entry_by_id entry_id w = (Ok e, w).
Proof.
  unfold get_assessment_tracker_entry_by_id, tracker_rows. run.
  now intros ->.
Qed.

Lemma get_assessment_tracker_entry_cases user_id assessment_id w :
  (exists e, get_assessment_tracker_entry user_id assessment_id w = (Ok e, w) /\
             In e (tracker_rows w) /\
             AssessmentTracker.user_id e = user_id /\
             AssessmentTracker.assessment_id e = assessment_id) \/
  get_assessment_tracker_entry user_id assessment_id w = (Raise NotFound, w).
Proof.
  unfold get_assessment_tracker_entry, tracker_rows. run.
  destruct (find _ _) eqn:E; [left | now right].
  eexists; split; [reflexivity|].
  apply find_some in E as [Hin He]. apply filter_In in Hin as [Hin Hu].
  repeat split; auto; lia.
Qed.

Lemma get_reviewer_by_id_cases reviewer_id w :
  (exists r, get_reviewer_by_id reviewer_id w = (Ok r, w) /\
             In r (Tables.reviewers (Session.pending (db w))) /\
             Reviewers.id r = reviewer_id) \/
  get_reviewer_by_id reviewer_id w
    = (Raise (ValueError "Reviewer does not exist"), w).
Proof.
  unfold get_reviewer_by_id. run.
  destruct (find _ _) eqn:E; [left | now right].
  eexists; split; [reflexivity|].
  apply find_some in E as [Hin He]. split; auto; lia.
Qed.

Lemma get_user_by_id_cases user_id w :
  (exists u, get_user_by_id user_id w = (Ok u, w)) \/
  get_user_by_id user_id w = (Raise (ValueError "User ID does not exist"), w).
Proof.
  unfold get_user_by_id. run.
  destruct (find _ _); [left; eauto | now right].
Qed.

Lemma get_assessment_by_name_cases name w :
  (exists a, get_assessment_by_name name w = (Ok a, w)) \/
  get_assessment_by_name name w
    = (Raise (ValueError "Assessment does not exist"), w).
Proof.
  unfold get_assessment_by_name. run.
  destruct (find _ _); [left; eauto | now right].
Qed.

(** *** Rewriting a row by its key *)

Lemma merge_row_found e' rows e :
  find (fun r => Z.eqb (AssessmentTracker.id r) (AssessmentTracker.id e')) rows
    = Some e ->
  exists pre post,
    rows = pre ++ e :: post /\
    merge_row e' rows = pre ++ e' :: post /\
    Forall (fun r => AssessmentTracker.id r <> AssessmentTracker.id e') pre.
Proof.
  induction rows as [|r rows IH]; simpl; [discriminate|].
  destruct (Z.eqb_spec (AssessmentTracker.id r) (AssessmentTracker.id e')).
  - intros [= ->]. exists [], rows. auto.
  - intros H. destruct (IH H) as (pre & post & -> & -> & Hpre).
    exists (r :: pre), post. auto.
Qed.

Lemma merge_row_lookup e' rows :
  find (fun r => Z.eqb (AssessmentTracker.id r) (AssessmentTracker.id e'))
       (merge_row e' rows) = Some e'.
Proof.
  induction rows as [|r rows IH]; simpl.
  - now rewrite Z.eqb_refl.
  - destruct (Z.eqb_spec (AssessmentTracker.id r) (AssessmentTracker.id e'));
      simpl.
    + now rewrite Z.eqb_refl.
    + destruct (Z.eqb_spec (AssessmentTracker.id r) (AssessmentTracker.id e'));
        [contradiction | apply IH].
Qed.

End LookupFacts.

(** ** The uniqueness of commits *)

Section CommitUnique.

Lemma filter_length_existsb {A} (p : A -> bool) (l : list A) :
  Nat.ltb 0 (List.length (filter p l)) = existsb p l.
Proof.
  induction l as [|a l IH]; simpl; auto.
  destruct (p a); simpl; auto.
Qed.

Lemma commit_carried_app c rows rows' :
  commit_carried c (rows ++ rows')
    = commit_carried c rows || commit_carried c rows'.
Proof. apply existsb_app. Qed.

Lemma commit_carried_false c rows :
  commit_carried c rows = false <->
  forall r, In r rows -> AssessmentTracker.latest_commit r <> c.
Proof.
  unfold commit_carried. split.
  - intros H r Hin Heq.
    assert (existsb (fun r => String.eqb (AssessmentTracker.latest_commit r) c)
                    rows = true); [|congruence].
    apply existsb_exists. exists r. split; auto. now apply String.eqb_eq.
  - intros H. destruct (existsb _ rows) eqn:E; auto.
    apply existsb_exists in E as (r & Hin & Heq).
    apply String.eqb_eq in Heq. now apply H in Hin.
Qed.

Lemma commit_carried_true c rows :
  commit_carried c rows = true <->
  exists r, In r rows /\ AssessmentTracker.latest_commit r = c.
Proof.
  unfold commit_carried. rewrite existsb_exists.
  split; intros (r & Hin & H); exists r; split; auto; now apply String.eqb_eq.
Qed.

(** An inserted row with the commit [c] makes [c] taken exactly when a row
    carried it before. *)
Lemma commit_taken_insert c rows e :
  AssessmentTracker.latest_commit e = c ->
  commit_taken c (rows ++ [e]) = commit_carried c rows.
Proof.
  intros He. unfold commit_taken, commit_carried.
  rewrite filter_app, length_app. cbn [filter].
  rewrite He, String.eqb_refl. cbn [List.length].
  rewrite <- filter_length_existsb.
  destruct (List.length (filter _ rows)) as [|n]; [reflexivity|].
  now rewrite Nat.add_1_r.
Qed.

(** A row that takes the commit [c] in place of another commit makes [c]
    taken exactly when a row carried it before. *)
Lemma commit_taken_replace c pre e e' post :
  AssessmentTracker.latest_commit e <> c ->
  AssessmentTracker.latest_commit e' = c ->
  commit_taken c (pre ++ e' :: post) = commit_carried c (pre ++ e :: post).
Proof.
  intros He He'. unfold commit_taken, commit_carried.
  rewrite filter_app, length_app, existsb_app. cbn [filter existsb].
  rewrite He', String.eqb_refl.
  destruct (String.eqb_spec (AssessmentTracker.latest_commit e) c);
    [contradiction|].
  cbn [List.length orb]. rewrite <- !filter_length_existsb.
  destruct (List.length (filter _ pre)) as [|a];
    destruct (List.length (filter _ post)) as [|b]; try reflexivity;
    now rewrite !Nat.add_succ_r.
Qed.

End CommitUnique.

(** ** Commit updates *)

Section UpdateCommit.
Context {P : Platform}.

(** What [update_assessment_log] does for the [entry] it finds: the row is
    written back, and committed unless the store refuses the new commit. *)
Lemma update_assessment_log_run w entry_id latest_commit update_logs entry :
  find (fun r => Z.eqb (AssessmentTracker.id r) entry_id) (tracker_rows w)
    = Some entry ->
  update_assessment_log entry_id latest_commit update_logs w =
    if update_refused latest_commit entry w
    then (Raise IntegrityError,
          world_write_refused
            (updated_row (ticks w) latest_commit update_logs entry) 1 w)
    else (Ok true,
          world_after_write
            (updated_row (ticks w) latest_commit update_logs entry) 1 w).
Proof.
  intros Hfind. unfold update_assessment_log, get_assessment_tracker_entry_by_id.
  unfold update_refused. unfold tracker_rows in *.
  unfold bind at 1, query at 1. unfold bind at 1. rewrite Hfind.
  unfold ret at 1. unfold bind at 1, utcnow at 1.
  cbn [AssessmentTracker.latest_commit AssessmentTracker.set_last_updated].
  destruct (String.eqb_spec (AssessmentTracker.latest_commit entry) latest_commit)
    as [Heq|Hne]; cbn [negb andb].
  - run. reflexivity.
  - unfold bind at 1, db_add, db_write. unfold bind at 1, db_commit_unique.
    cbn [db Session.write Session.pending Tables.assessment_tracker
         Tables.set_assessment_tracker].
    match goal with
    | |- context [merge_row ?x _] =>
        change x with (updated_row (ticks w) latest_commit update_logs entry)
    end.
    set (e' := updated_row (ticks w) latest_commit update_logs entry).
    assert (Hfind' : find (fun r => Z.eqb (AssessmentTracker.id r)
                                      (AssessmentTracker.id e'))
                          (Tables.assessment_tracker (Session.pending (db w)))
                     = Some entry).
    { apply find_some in Hfind as Hf. destruct Hf as [_ Hf].
      apply Z.eqb_eq in Hf.
      change (AssessmentTracker.id e') with (AssessmentTracker.id entry).
      now rewrite Hf. }
    destruct (merge_row_found e' _ _ Hfind') as (pre & post & Hrows & Hmerge & _).
    rewrite Hmerge, (commit_taken_replace latest_commit pre entry e' post Hne eq_refl).
    rewrite <- Hrows.
    destruct (commit_carried latest_commit _) eqn:E; reflexivity.
Qed.

(** A commit update that is not refused. *)
Lemma update_assessment_log_eq w entry_id latest_commit update_logs entry :
  find (fun r => Z.eqb (AssessmentTracker.id r) entry_id) (tracker_rows w)
    = Some entry ->
  update_refused latest_commit entry w = false ->
  update_assessment_log entry_id latest_commit update_logs w =
    (Ok true,
     world_after_write (updated_row (ticks w) latest_commit update_logs entry) 1 w).
Proof.
  intros Hfind Hfree.
  now rewrite (update_assessment_log_run _ _ _ _ _ Hfind), Hfree.
Qed.

(** Writing the commit an entry already carries is never refused. *)
Lemma update_refused_same entry w :
  update_refused (AssessmentTracker.latest_commit entry) entry w = false.
Proof. unfold update_refused. now rewrite String.eqb_refl. Qed.

End UpdateCommit.

(** ** Initiation *)

Section Initiate.
Context {P : Platform}.

Lemma find_app_None {A} (p : A -> bool) (l l' : list A) :
  find p l = None -> find p (l ++ l') = find p l'.
Proof.
  induction l as [|a l IH]; simpl; auto.
  destruct (p a); [discriminate | exact IH].
Qed.

Lemma next_id_above rows r :
  In r rows -> AssessmentTracker.id r < next_id rows.
Proof.
  unfold next_id. induction rows as [|a rows IH]; [intros []|].
  cbn [map fold_right]. intros [->|Hin]; [lia | specialize (IH Hin); lia].
Qed.

Lemma next_id_fresh rows :
  ~ In (next_id rows) (map AssessmentTracker.id rows).
Proof.
  intros Hin. apply in_map_iff in Hin as (r & Hid & Hin).
  apply next_id_above in Hin. lia.
Qed.

Lemma init_assessment_tracker_exists w init_request user_id assessment entry :
  get_assessment_by_name (InitRequest.assessment_name init_request) w
    = (Ok assessment, w) ->
  get_assessment_tracker_entry user_id (Assessments.id assessment) w
    = (Ok entry, w) ->
  init_assessment_tracker init_request user_id w = (Raise AlreadyExists, w).
Proof.
  intros Ha He. unfold init_assessment_tracker, bind at 1. rewrite Ha.
  unfold try_except_ValueError, bind. rewrite He. reflexivity.
Qed.

(** An initiation for a pair without entry: the row is inserted, and
    committed unless a stored row carries the request's commit. *)
Lemma init_assessment_tracker_fresh w init_request user_id assessment :
  get_assessment_by_name (InitRequest.assessment_name init_request) w
    = (Ok assessment, w) ->
  get_assessment_tracker_entry user_id (Assessments.id assessment) w
    = (Raise NotFound, w) ->
  let row := initiated_row (ticks w) (next_id (tracker_rows w)) init_request
               user_id (Assessments.id assessment) in
  init_assessment_tracker init_request user_id w =
    if commit_carried (InitRequest.latest_commit init_request) (tracker_rows w)
    then (Raise IntegrityError, world_insert_refused row 2 w)
    else (Ok true, world_after_insert row 2 w).
Proof.
  intros Ha He row. unfold init_assessment_tracker, bind at 1. rewrite Ha.
  unfold try_except_ValueError, bind at 1. rewrite He.
  unfold NotFound. cbv beta iota.
  change (negb (String.eqb "Assessment tracker entry unavailable."
                           "Assessment tracker entry unavailable."))
    with false.
  cbv beta iota.
  unfold bind at 1, utcnow at 1. unfold bind at 1, utcnow at 1.
  unfold bind at 1, db_add_new, db_write. unfold bind at 1, db_commit_unique.
  cbn [db ticks draws Session.write Session.pending Tables.assessment_tracker
       Tables.set_assessment_tracker].
  fold (tracker_rows w).
  change (AssessmentTracker.mk (next_id (tracker_rows w)) user_id
            (Assessments.id assessment) (InitRequest.latest_commit init_request)
            (utcnow_at (ticks w)) "Initiated" None
            [[("status", JStr "Initiated");
              ("timestamp", JStr (datetime_str (utcnow_at (S (ticks w)))));
              ("commit", JStr (InitRequest.latest_commit init_request))]])
    with row.
  rewrite (commit_taken_insert (InitRequest.latest_commit init_request)
             (tracker_rows w) row eq_refl).
  destruct (commit_carried _ _); reflexivity.
Qed.

(** The row an initiation inserts makes every later initiation for the pair
    fail. *)
Lemma init_assessment_tracker_again w init_request user_id assessment row again :
  get_assessment_by_name (InitRequest.assessment_name init_request) w
    = (Ok assessment, w) ->
  get_assessment_tracker_entry user_id (Assessments.id assessment) w
    = (Raise NotFound, w) ->
  AssessmentTracker.user_id row = user_id ->
  AssessmentTracker.assessment_id row = Assessments.id assessment ->
  InitRequest.assessment_name again = InitRequest.assessment_name init_request ->
  init_assessment_tracker again user_id (world_after_insert row 2 w)
    = (Raise AlreadyExists, world_after_insert row 2 w).
Proof.
  intros Ha He Hu Has Hname.
  assert (Hnone :
    find (fun e => Z.eqb (AssessmentTracker.assessment_id e)
                         (Assessments.id assessment))
         (filter (fun e => Z.eqb (AssessmentTracker.user_id e) user_id)
                 (tracker_rows w)) = None).
  { revert He. unfold get_assessment_tracker_entry, tracker_rows.
    run. destruct (find _ _); [discriminate | reflexivity]. }
  assert (Hafind :
    find (fun a => String.eqb (Assessments.name a)
                     (InitRequest.assessment_name init_request))
         (Tables.assessments (Session.pending (db w))) = Some assessment).
  { clear Hnone He. revert Ha. unfold get_assessment_by_name. run.
    destruct (find _ _); intros H; inversion H; reflexivity. }
  eapply init_assessment_tracker_exists with (assessment := assessment)
                                             (entry := row).
  - rewrite Hname. unfold get_assessment_by_name. run.
    rewrite Hafind. reflexivity.
  - unfold get_assessment_tracker_entry. run.
    unfold tracker_rows in Hnone.
    rewrite filter_app, (find_app_None _ _ _ Hnone). simpl.
    rewrite Hu, Z.eqb_refl. simpl. rewrite Has, Z.eqb_refl. reflexivity.
Qed.

(** C4, as the code has it: for a user and an assessment that resolves by
    name, [init_assessment_tracker] fails with [AlreadyExists] and changes
    nothing when an entry for the pair exists.  When none exists and a
    stored entry carries the request's commit, the store refuses the commit
    with [IntegrityError] and nothing is made durable.  When none exists
    and no stored entry carries the commit, the call appends one row with a
    fresh key, status [Initiated], no reviewer, the request's commit and a
    log of exactly one record [{status, timestamp, commit}], commits it,
    and every later call for the same pair fails with [AlreadyExists]. *)
Theorem init_assessment_tracker_once
    (w : World) (init_request : InitRequest.t) (user_id : Z)
    (assessment : Assessments.t) :
  get_assessment_by_name (InitRequest.assessment_name init_request) w
    = (Ok assessment, w) ->
  (forall entry,
     get_assessment_tracker_entry user_id (Assessments.id assessment) w
       = (Ok entry, w) ->
     init_assessment_tracker init_request user_id w = (Raise AlreadyExists, w))
  /\
  (get_assessment_tracker_entry user_id (Assessments.id assessment) w
     = (Raise NotFound, w) ->
   (commit_carried (InitRequest.latest_commit init_request) (tracker_rows w)
      = true ->
    exists w',
      init_assessment_tracker init_request user_id w
        = (Raise IntegrityError, w') /\
      Session.committed (db w') = Session.committed (db w)) /\
   (commit_carried (InitRequest.latest_commit init_request) (tracker_rows w)
      = false ->
    exists entry w',
      init_assessment_tracker init_request user_id w = (Ok true, w') /\
      tracker_rows w' = tracker_rows w ++ [entry] /\
      Session.committed (db w') = Session.pending (db w') /\
      ~ In (AssessmentTracker.id entry)
           (map AssessmentTracker.id (tracker_rows w)) /\
      AssessmentTracker.user_id entry = user_id /\
      AssessmentTracker.assessment_id entry = Assessments.id assessment /\
      AssessmentTracker.status entry = "Initiated" /\
      AssessmentTracker.reviewer_id entry = None /\
      AssessmentTracker.latest_commit entry
        = InitRequest.latest_commit init_request /\
      AssessmentTracker.last_updated entry = utcnow_at (ticks w) /\
      AssessmentTracker.log entry =
        [[("status", JStr "Initiated");
          ("timestamp", JStr (datetime_str (utcnow_at (S (ticks w)))));
          ("commit", JStr (InitRequest.latest_commit init_request))]] /\
      forall again,
        InitRequest.assessment_name again
          = InitRequest.assessment_name init_request ->
        init_assessment_tracker again user_id w' = (Raise AlreadyExists, w'))).
Proof.
  intros Ha. split.
  - intros entry He. eapply init_assessment_tracker_exists; eauto.
  - intros He.
    pose proof (init_assessment_tracker_fresh w init_request user_id assessment
                  Ha He) as Hrun. cbv zeta in Hrun.
    split; intros Hc; rewrite Hc in Hrun.
    + eexists. split; [exact Hrun | reflexivity].
    + eexists. eexists. split; [exact Hrun|].
      split; [reflexivity|]. split; [reflexivity|].
      split; [apply next_id_fresh|].
      repeat split.
      intros again Hname.
      now apply (init_assessment_tracker_again w init_request user_id assessment).
Qed.

End Initiate.

(** Initiation at a concrete store: the first call creates the entry, the
    second is refused. *)
Lemma init_assessment_tracker_once_witness :
  exists entry w',
    init_assessment_tracker (P := Demo.platform) Demo.request 42
        Demo.empty_world = (Ok true, w') /\
    tracker_rows w' = [entry] /\
    AssessmentTracker.status entry = "Initiated" /\
    List.length (AssessmentTracker.log entry) = 1%nat /\
    init_assessment_tracker (P := Demo.platform) Demo.request 42 w'
      = (Raise AlreadyExists, w').
Proof.
  destruct (init_assessment_tracker_once (P := Demo.platform)
              Demo.empty_world Demo.request 42 Demo.python1 eq_refl)
    as [_ Hnew].
  destruct (Hnew eq_refl) as [_ Hfree].
  destruct (Hfree eq_refl)
    as (entry & w' & H1 & H2 & _ & _ & _ & _ & H3 & _ & _ & _ & H4 & H5).
  exists entry, w'. repeat split; auto.
  rewrite H4. reflexivity.
Defined.

(** C4 as stated fails: no entry exists for the pair of user 42 and the
    assessment, yet the call creates none, because the entry of another user
    carries the request's commit: the store refuses the commit and the
    stored entries are as before. *)
Lemma init_assessment_tracker_commit_refused :
  fst (get_assessment_tracker_entry 42 1
         (Demo.world_of [Demo.entry_of_bob "abc123"] []))
    = Raise NotFound /\
  fst (init_assessment_tracker (P := Demo.platform) Demo.request 42
         (Demo.world_of [Demo.entry_of_bob "abc123"] []))
    = Raise IntegrityError /\
  Tables.assessment_tracker
    (Session.committed
       (db (snd (init_assessment_tracker (P := Demo.platform) Demo.request 42
                   (Demo.world_of [Demo.entry_of_bob "abc123"] [])))))
    = [Demo.entry_of_bob "abc123"].
Proof. repeat split. Qed.

(** ** Approval *)

Section Approve.
Context {P : Platform}.

(** The checks of [approve_assessment], in the order they are made. *)
Lemma approve_assessment_unfold w trainee reviewer reviewer_username assessment :
  approve_assessment trainee reviewer reviewer_username assessment w =
  if Z.eqb (Reviewers.user_id reviewer) (Users.id trainee)
  then (Raise SelfReview, w)
  else
    match get_assessment_tracker_entry (Users.id trainee)
            (Assessments.id assessment) w with
    | (Raise e, w1) => (Raise e, w1)
    | (Ok entry, w1) =>
        match AssessmentTracker.reviewer_id entry with
        | None => (Raise NoReviewerAssigned, w1)
        | Some assigned_id =>
            if negb (String.eqb (AssessmentTracker.status entry) "Under review")
            then (Raise NotUnderReview, w1)
            else if negb (verify_check entry)
            then (Raise ChecksFailed, w1)
            else
              match get_reviewer_by_id assigned_id w1 with
              | (Raise e, w2) => (Raise e, w2)
              | (Ok reviewer_real, w2) =>
                  match get_user_by_id (Reviewers.user_id reviewer_real) w2 with
                  | (Raise e, w3) => (Raise e, w3)
                  | (Ok reviewer_real_user, w3) =>
                      if negb (String.eqb (Users.username reviewer_real_user)
                                          reviewer_username)
                      then (Raise ReviewerMismatch, w3)
                      else (Ok true,
                            world_after_write
                              (approved_row (ticks w3) reviewer entry) 2 w3)
                  end
              end
        end
    end.
Proof.
  unfold approve_assessment, bind at 1, raise_if.
  destruct (Z.eqb _ _); [reflexivity|]. unfold ret at 1.
  unfold bind at 1.
  destruct (get_assessment_tracker_entry _ _ w) as [[entry|e] w1]; [|reflexivity].
  destruct (AssessmentTracker.reviewer_id entry) as [assigned_id|]; [|reflexivity].
  unfold bind at 1.
  destruct (negb (String.eqb _ _)); [reflexivity|]. unfold ret at 1.
  unfold bind at 1.
  destruct (negb (verify_check entry)); [reflexivity|]. unfold ret at 1.
  unfold bind at 1.
  destruct (get_reviewer_by_id assigned_id w1) as [[rr|e] w2]; [|reflexivity].
  unfold bind at 1.
  destruct (get_user_by_id _ w2) as [[ru|e] w3]; [|reflexivity].
  unfold bind at 1.
  destruct (negb (String.eqb _ _)); [reflexivity|].
  reflexivity.
Qed.

(** A mismatching username is refused and nothing is written. *)
Lemma approve_assessment_mismatch
    w trainee reviewer reviewer_username assessment entry assigned_id
    reviewer_real reviewer_real_user :
  Reviewers.user_id reviewer <> Users.id trainee ->
  get_assessment_tracker_entry (Users.id trainee) (Assessments.id assessment) w
    = (Ok entry, w) ->
  AssessmentTracker.reviewer_id entry = Some assigned_id ->
  AssessmentTracker.status entry = "Under review" ->
  verify_check entry = true ->
  get_reviewer_by_id assigned_id w = (Ok reviewer_real, w) ->
  get_user_by_id (Reviewers.user_id reviewer_real) w
    = (Ok reviewer_real_user, w) ->
  Users.username reviewer_real_user <> reviewer_username ->
  approve_assessment trainee reviewer reviewer_username assessment w
    = (Raise ReviewerMismatch, w).
Proof.
  intros Hself He Hrid Hst Hvc Hrr Hru Hname.
  rewrite approve_assessment_unfold.
  destruct (Z.eqb_spec (Reviewers.user_id reviewer) (Users.id trainee));
    [contradiction|].
  rewrite He, Hrid, Hst, Hvc, Hrr, Hru. simpl.
  destruct (String.eqb_spec (Users.username reviewer_real_user)
                            reviewer_username); [contradiction|reflexivity].
Qed.

(** C5: [approve_assessment] refuses a self-review before it looks at the
    store, and otherwise reports the first failing check in the order
    missing entry, no reviewer assigned, not under review, checks failed,
    reviewer mismatch; every refusal leaves the world as it was. *)
Theorem approve_assessment_check_order
    (w : World) (trainee : Users.t) (reviewer : Reviewers.t)
    (reviewer_username : string) (assessment : Assessments.t) :
  let outcome :=
    approve_assessment trainee reviewer reviewer_username assessment w in
  let lookup :=
    get_assessment_tracker_entry (Users.id trainee) (Assessments.id assessment) w in
  (Reviewers.user_id reviewer = Users.id trainee ->
   outcome = (Raise SelfReview, w)) /\
  (Reviewers.user_id reviewer <> Users.id trainee ->
   (lookup = (Raise NotFound, w) -> outcome = (Raise NotFound, w)) /\
   (forall entry, lookup = (Ok entry, w) ->
      (AssessmentTracker.reviewer_id entry = None ->
       outcome = (Raise NoReviewerAssigned, w)) /\
      (forall assigned_id,
         AssessmentTracker.reviewer_id entry = Some assigned_id ->
         (AssessmentTracker.status entry <> "Under review" ->
          outcome = (Raise NotUnderReview, w)) /\
         (AssessmentTracker.status entry = "Under review" ->
          (verify_check entry = false -> outcome = (Raise ChecksFailed, w)) /\
          (verify_check entry = true ->
           forall reviewer_real reviewer_real_user,
             get_reviewer_by_id assigned_id w = (Ok reviewer_real, w) ->
             get_user_by_id (Reviewers.user_id reviewer_real) w
               = (Ok reviewer_real_user, w) ->
             Users.username reviewer_real_user <> reviewer_username ->
             outcome = (Raise ReviewerMismatch, w)))))).
Proof.
  intros outcome lookup. subst outcome lookup. split.
  - intros Hself. rewrite approve_assessment_unfold.
    rewrite Hself, Z.eqb_refl. reflexivity.
  - intros Hself. split.
    + intros He. rewrite approve_assessment_unfold.
      destruct (Z.eqb_spec (Reviewers.user_id reviewer) (Users.id trainee));
        [contradiction|]. now rewrite He.
    + intros entry He. split.
      * intros Hrid. rewrite approve_assessment_unfold.
        destruct (Z.eqb_spec (Reviewers.user_id reviewer) (Users.id trainee));
          [contradiction|]. now rewrite He, Hrid.
      * intros assigned_id Hrid. split.
        -- intros Hst. rewrite approve_assessment_unfold.
           destruct (Z.eqb_spec (Reviewers.user_id reviewer) (Users.id trainee));
             [contradiction|]. rewrite He, Hrid.
           destruct (String.eqb_spec (AssessmentTracker.status entry)
                                     "Under review"); [contradiction|reflexivity].
        -- intros Hst. split.
           ++ intros Hvc. rewrite approve_assessment_unfold.
              destruct (Z.eqb_spec (Reviewers.user_id reviewer) (Users.id trainee));
                [contradiction|]. now rewrite He, Hrid, Hst, Hvc.
           ++ intros Hvc rr ru Hrr Hru Hname.
              eapply approve_assessment_mismatch; eauto.
Qed.

(** C6: when every earlier check passes and the recorded reviewer's
    username differs from [reviewer_username], [approve_assessment] fails
    with [ReviewerMismatch] in an unchanged world: the entry still resolves
    to the same row, with status [Under review] and the same log, reviewer,
    commit and timestamp. *)
Theorem approve_assessment_mismatch_no_mutation
    (w : World) (trainee : Users.t) (reviewer : Reviewers.t)
    (reviewer_username : string) (assessment : Assessments.t)
    (entry : AssessmentTracker.t) (assigned_id : Z)
    (reviewer_real : Reviewers.t) (reviewer_real_user : Users.t) :
  Reviewers.user_id reviewer <> Users.id trainee ->
  get_assessment_tracker_entry (Users.id trainee) (Assessments.id assessment) w
    = (Ok entry, w) ->
  AssessmentTracker.reviewer_id entry = Some assigned_id ->
  AssessmentTracker.status entry = "Under review" ->
  verify_check entry = true ->
  get_reviewer_by_id assigned_id w = (Ok reviewer_real, w) ->
  get_user_by_id (Reviewers.user_id reviewer_real) w
    = (Ok reviewer_real_user, w) ->
  Users.username reviewer_real_user <> reviewer_username ->
  exists w',
    approve_assessment trainee reviewer reviewer_username assessment w
      = (Raise ReviewerMismatch, w') /\
    w' = w /\
    get_assessment_tracker_entry (Users.id trainee) (Assessments.id assessment) w'
      = (Ok entry, w') /\
    AssessmentTracker.status entry = "Under review".
Proof.
  intros Hself He Hrid Hst Hvc Hrr Hru Hname. exists w.
  repeat split; auto.
  eapply approve_assessment_mismatch; eauto.
Qed.

End Approve.

(** The order of the checks at a concrete store: a reviewer who is the
    trainee is refused, and so is a username other than the assigned
    reviewer's. *)
Lemma approve_assessment_check_order_witness :
  approve_assessment (P := Demo.platform) Demo.alice Demo.rev_alice "alice"
      Demo.python1 Demo.under_review
    = (Raise SelfReview, Demo.under_review) /\
  approve_assessment (P := Demo.platform) Demo.alice Demo.rev_carol "carol"
      Demo.python1 Demo.under_review
    = (Raise ReviewerMismatch, Demo.under_review) /\
  approve_assessment (P := Demo.platform) Demo.alice Demo.rev_bob "bob"
      Demo.python1 Demo.empty_world
    = (Raise NotFound, Demo.empty_world).
Proof.
  split; [|split].
  - apply (proj1 (approve_assessment_check_order (P := Demo.platform)
             Demo.under_review Demo.alice Demo.rev_alice "alice" Demo.python1)).
    reflexivity.
  - pose proof (proj2 (approve_assessment_check_order (P := Demo.platform)
        Demo.under_review Demo.alice Demo.rev_carol "carol" Demo.python1)) as H.
    cbv zeta in H.
    assert (Hne : Reviewers.user_id Demo.rev_carol <> Users.id Demo.alice)
      by discriminate.
    destruct (H Hne) as [_ Hentry].
    destruct (Hentry (Demo.entry_with "Under review" (Some 7)) eq_refl)
      as [_ Hassigned].
    destruct (Hassigned 7 eq_refl) as [_ Hreview].
    destruct (Hreview eq_refl) as [_ Hchecked].
    apply (Hchecked eq_refl Demo.rev_bob Demo.bob eq_refl eq_refl).
    discriminate.
  - pose proof (proj2 (approve_assessment_check_order (P := Demo.platform)
        Demo.empty_world Demo.alice Demo.rev_bob "bob" Demo.python1)) as H.
    cbv zeta in H.
    assert (Hne : Reviewers.user_id Demo.rev_bob <> Users.id Demo.alice)
      by discriminate.
    destruct (H Hne) as [Hmissing _]. apply Hmissing. reflexivity.
Defined.

(** A refused approval at a concrete store leaves the entry under review. *)
Lemma approve_assessment_mismatch_no_mutation_witness :
  exists w',
    approve_assessment (P := Demo.platform) Demo.alice Demo.rev_carol "carol"
        Demo.python1 Demo.under_review = (Raise ReviewerMismatch, w') /\
    w' = Demo.under_review /\
    get_assessment_tracker_entry 42 1 w'
      = (Ok (Demo.entry_with "Under review" (Some 7)), w') /\
    AssessmentTracker.status (Demo.entry_with "Under review" (Some 7))
      = "Under review".
Proof.
  apply (approve_assessment_mismatch_no_mutation (P := Demo.platform)
           Demo.under_review Demo.alice Demo.rev_carol "carol" Demo.python1
           (Demo.entry_with "Under review" (Some 7)) 7 Demo.rev_bob Demo.bob).
  - discriminate.
  - reflexivity.
  - reflexivity.
  - reflexivity.
  - reflexivity.
  - reflexivity.
  - reflexivity.
  - discriminate.
Defined.

Section ApproveSuccess.
Context {P : Platform}.

(** A successful approval passed every check and wrote the approved row. *)
Lemma approve_assessment_Ok
    w trainee reviewer reviewer_username assessment b w' :
  approve_assessment trainee reviewer reviewer_username assessment w
    = (Ok b, w') ->
  exists entry,
    get_assessment_tracker_entry (Users.id trainee) (Assessments.id assessment) w
      = (Ok entry, w) /\
    In entry (tracker_rows w) /\
    AssessmentTracker.status entry = "Under review" /\
    b = true /\
    w' = world_after_write (approved_row (ticks w) reviewer entry) 2 w.
Proof.
  rewrite approve_assessment_unfold.
  destruct (Z.eqb _ _); [discriminate|].
  destruct (get_assessment_tracker_entry_cases (Users.id trainee)
              (Assessments.id assessment) w)
    as [(entry & -> & Hin & _) | ->]; [|discriminate].
  destruct (AssessmentTracker.reviewer_id entry) as [assigned_id|];
    [|discriminate].
  destruct (String.eqb_spec (AssessmentTracker.status entry) "Under review")
    as [Hst|]; [|discriminate]. simpl.
  destruct (verify_check entry); [|discriminate]. simpl.
  destruct (get_reviewer_by_id_cases assigned_id w) as [(rr & -> & _) | ->];
    [|discriminate].
  destruct (get_user_by_id_cases (Reviewers.user_id rr) w) as [(ru & ->) | ->];
    [|discriminate].
  destruct (negb _); [discriminate|].
  intros H. inversion H. exists entry. auto.
Qed.

End ApproveSuccess.

(** C10: after a successful [approve_assessment] the entry's log is the old
    log followed by one record whose ["Reviewer"] field is the id of the
    reviewer passed to the call; and there is a successful call in which
    that id differs from the [reviewer_id] recorded on the entry, since only
    the recorded reviewer's username is compared with [reviewer_username]. *)
Theorem approve_assessment_logs_passed_reviewer :
  (forall (P : Platform) (w : World) (trainee : Users.t)
          (reviewer : Reviewers.t) (reviewer_username : string)
          (assessment : Assessments.t) (b : bool) (w' : World),
     approve_assessment trainee reviewer reviewer_username assessment w
       = (Ok b, w') ->
     exists entry entry' record,
       get_assessment_tracker_entry (Users.id trainee)
           (Assessments.id assessment) w = (Ok entry, w) /\
       get_assessment_tracker_entry_by_id (AssessmentTracker.id entry) w'
         = (Ok entry', w') /\
       AssessmentTracker.log entry' = AssessmentTracker.log entry ++ [record] /\
       Dict.get "Reviewer" record = Some (JInt (Reviewers.id reviewer)))
  /\
  (exists (P : Platform) (w : World) (trainee : Users.t)
          (reviewer : Reviewers.t) (reviewer_username : string)
          (assessment : Assessments.t) (w' : World)
          (entry : AssessmentTracker.t),
     approve_assessment trainee reviewer reviewer_username assessment w
       = (Ok true, w') /\
     get_assessment_tracker_entry (Users.id trainee)
         (Assessments.id assessment) w = (Ok entry, w) /\
     AssessmentTracker.reviewer_id entry <> Some (Reviewers.id reviewer)).
Proof.
  split.
  - intros P w trainee reviewer reviewer_username assessment b w' H.
    apply approve_assessment_Ok in H as (entry & He & _ & _ & _ & ->).
    exists entry, (approved_row (ticks w) reviewer entry).
    eexists. split; [exact He|]. split; [|split].
    + apply get_assessment_tracker_entry_by_id_find.
      unfold tracker_rows, world_after_write. simpl.
      apply (merge_row_lookup (approved_row (ticks w) reviewer entry)).
    + reflexivity.
    + reflexivity.
  - exists Demo.platform, Demo.under_review, Demo.alice, Demo.rev_carol, "bob",
      Demo.python1.
    exists (snd (approve_assessment (P := Demo.platform) Demo.alice
                   Demo.rev_carol "bob" Demo.python1 Demo.under_review)).
    exists (Demo.entry_with "Under review" (Some 7)).
    split; [vm_compute; reflexivity|]. split; [reflexivity|]. discriminate.
Qed.

(** The approval log at a concrete store: carol approves under bob's name
    and the record carries carol's reviewer id. *)
Lemma approve_assessment_logs_passed_reviewer_witness :
  exists entry entry' record,
    get_assessment_tracker_entry 42 1 Demo.under_review
      = (Ok entry, Demo.under_review) /\
    AssessmentTracker.log entry' = AssessmentTracker.log entry ++ [record] /\
    Dict.get "Reviewer" record = Some (JInt 8).
Proof.
  destruct (proj1 approve_assessment_logs_passed_reviewer Demo.platform
              Demo.under_review Demo.alice Demo.rev_carol "bob" Demo.python1
              true _ eq_refl)
    as (entry & entry' & record & H1 & _ & H3 & H4).
  exists entry, entry', record. auto.
Defined.

(** ** Reviewer selection *)

Section SelectReviewer.
Context {P : Platform}.

Lemma py_index_In {A} (l : list A) i w x w' :
  py_index l i w = (Ok x, w') -> In x l /\ w' = w.
Proof.
  unfold py_index.
  destruct (_ || _); [discriminate|].
  destruct (nth_error l _) eqn:E; [|discriminate].
  intros Hret. inversion Hret; subst. split; auto.
  eapply nth_error_In; eauto.
Qed.

Lemma randint_range a b w i w' :
  randint a b w = (Ok i, w') ->
  a <= i <= b /\ w' = mkWorld (db w) (ticks w) (S (draws w)).
Proof.
  unfold randint. destruct (Z.ltb_spec b a) as [Hlt|Hle]; [discriminate|].
  intros Hret. inversion Hret; subst. split; auto.
  pose proof (Z.mod_pos_bound (random_at (draws w)) (b - a + 1)). lia.
Qed.

(** The ids a draw can come from: those of the reviewers that are not
    reviewer records of the trainee. *)
Lemma eligible_not_excluded (all : list Reviewers.t) trainee_id x :
  In x (map Reviewers.id
          (filter (fun r =>
                     negb (existsb (Z.eqb (Reviewers.id r))
                             (map Reviewers.id
                                (filter (fun r' => Z.eqb (Reviewers.user_id r')
                                                         trainee_id) all))))
                  all)) ->
  In x (map Reviewers.id all) /\
  ~ In x (map Reviewers.id
            (filter (fun r' => Z.eqb (Reviewers.user_id r') trainee_id) all)).
Proof.
  intros Hin. apply in_map_iff in Hin as (r & <- & Hr).
  apply filter_In in Hr as [Hr Hnot]. split.
  - now apply in_map.
  - intros Hex. apply negb_true_iff in Hnot.
    assert (existsb (Z.eqb (Reviewers.id r))
              (map Reviewers.id
                 (filter (fun r' => Z.eqb (Reviewers.user_id r') trainee_id) all))
            = true); [|congruence].
    apply existsb_exists. exists (Reviewers.id r). split; auto.
    apply Z.eqb_refl.
Qed.

(** C7: a reviewer returned by [select_reviewer] is a row of the reviewers
    table whose [user_id] differs from the trainee's, and whose id lies in
    the set of all reviewer ids minus the ids of the reviewer rows of the
    trainee's own user. *)
Theorem select_reviewer_excludes_trainee
    (w : World) (entry : AssessmentTracker.t) (r : Reviewers.t) (w' : World) :
  select_reviewer entry w = (Ok r, w') ->
  let all := Tables.reviewers (Session.pending (db w)) in
  let excluded :=
    map Reviewers.id
      (filter (fun x => Z.eqb (Reviewers.user_id x)
                              (AssessmentTracker.user_id entry)) all) in
  Reviewers.user_id r <> AssessmentTracker.user_id entry /\
  In r all /\
  In (Reviewers.id r) (map Reviewers.id all) /\
  ~ In (Reviewers.id r) excluded.
Proof.
  intros Hsel all excluded. subst all excluded.
  unfold select_reviewer in Hsel.
  unfold bind at 1, query at 1 in Hsel.
  unfold bind at 1, query at 1 in Hsel.
  unfold bind at 1, try_except at 1 in Hsel.
  set (all := Tables.reviewers (Session.pending (db w))) in *.
  match type of Hsel with
  | context [py_index ?v] => set (valid := v) in *
  end.
  destruct (bind (randint 0 (Z.of_nat (List.length valid) - 1))
                 (fun i => py_index valid i) w) as [[random_id|e] w1] eqn:Epick;
    [|discriminate].
  assert (Hvalid : In random_id valid /\ db w1 = db w).
  { revert Epick. unfold bind.
    destruct (randint _ _ w) as [[i|e] w0] eqn:Er; [|discriminate].
    apply randint_range in Er as [_ ->].
    intros H. apply py_index_In in H as [Hin ->]. auto. }
  destruct Hvalid as [Hvalid Hdb].
  unfold try_except in Hsel.
  destruct (get_reviewer_by_id_cases random_id w1)
    as [(r0 & Hr0 & Hin & Hid) | Hr0]; rewrite Hr0 in Hsel; [|discriminate].
  inversion Hsel; subst r0 w'. rewrite Hdb in Hin. fold all in Hin.
  destruct (eligible_not_excluded all (AssessmentTracker.user_id entry)
              random_id Hvalid) as [Hall Hnot].
  rewrite Hid. repeat split; auto.
  intros Huser. apply Hnot. rewrite <- Hid.
  apply in_map, filter_In. split; auto. now apply Z.eqb_eq.
Qed.

(** Selection succeeds as soon as one reviewer id is eligible. *)
Lemma select_reviewer_returns (w : World) (entry : AssessmentTracker.t) :
  let all := Tables.reviewers (Session.pending (db w)) in
  let excluded :=
    map Reviewers.id
      (filter (fun x => Z.eqb (Reviewers.user_id x)
                              (AssessmentTracker.user_id entry)) all) in
  (exists x, In x all /\ ~ In (Reviewers.id x) excluded) ->
  exists r w', select_reviewer entry w = (Ok r, w').
Proof.
  intros all excluded (x & Hx & Hnot).
  set (valid := map Reviewers.id
         (filter (fun r => negb (existsb (Z.eqb (Reviewers.id r)) excluded)) all)).
  assert (Hlen : (0 < List.length valid)%nat).
  { assert (Hin : In (Reviewers.id x) valid).
    { apply in_map, filter_In. split; auto. apply negb_true_iff.
      destruct (existsb _ excluded) eqn:E; auto.
      apply existsb_exists in E as (y & Hy & Heq).
      apply Z.eqb_eq in Heq. congruence. }
    destruct valid; [destruct Hin | simpl; lia]. }
  unfold select_reviewer.
  unfold bind at 1, query at 1. unfold bind at 1, query at 1.
  fold all. fold excluded. fold valid.
  unfold bind at 1, try_except at 1, bind at 1, randint.
  destruct (Z.ltb_spec (Z.of_nat (List.length valid) - 1) 0) as [Hlt|Hle];
    [lia|].
  set (i := 0 + random_at (draws w) mod (Z.of_nat (List.length valid) - 1 - 0 + 1)).
  assert (Hi : 0 <= i < Z.of_nat (List.length valid)).
  { subst i.
    pose proof (Z.mod_pos_bound (random_at (draws w))
                  (Z.of_nat (List.length valid) - 1 - 0 + 1)). lia. }
  unfold py_index.
  destruct (Z.ltb_spec i 0) as [Hneg|_]; [lia|].
  destruct (Z.ltb_spec i 0) as [Hneg|_]; [lia|].
  destruct (Z.leb_spec (Z.of_nat (List.length valid)) i) as [Hbig|_]; [lia|].
  simpl.
  destruct (nth_error valid (Z.to_nat i)) as [random_id|] eqn:Enth.
  - unfold ret at 1. unfold try_except.
    set (w1 := mkWorld (db w) (ticks w) (S (draws w))).
    destruct (get_reviewer_by_id_cases random_id w1)
      as [(r & Hr & _) | Hr].
    + rewrite Hr. eauto.
    + exfalso. apply nth_error_In in Enth.
      apply in_map_iff in Enth as (y & Hid & Hy).
      apply filter_In in Hy as [Hy _].
      revert Hr. unfold get_reviewer_by_id. run. fold all.
      destruct (find _ all) eqn:Efind; [discriminate|].
      intros _. apply (find_none _ _ Efind) in Hy.
      apply Z.eqb_neq in Hy. congruence.
  - exfalso. apply nth_error_None in Enth. lia.
Qed.

End SelectReviewer.

(** Selection at a concrete store: the trainee alice is a reviewer herself
    and is not drawn. *)
Lemma select_reviewer_excludes_trainee_witness :
  select_reviewer (P := Demo.platform) (Demo.entry_with "Initiated" None)
      Demo.empty_world
    = (Ok Demo.rev_bob,
       mkWorld (db Demo.empty_world) 0 1) /\
  Reviewers.user_id Demo.rev_bob <> 42 /\
  ~ In (Reviewers.id Demo.rev_bob) [9].
Proof.
  assert (Hrun : select_reviewer (P := Demo.platform)
                   (Demo.entry_with "Initiated" None) Demo.empty_world
                 = (Ok Demo.rev_bob, mkWorld (db Demo.empty_world) 0 1))
    by reflexivity.
  destruct (select_reviewer_excludes_trainee (P := Demo.platform)
              Demo.empty_world (Demo.entry_with "Initiated" None)
              Demo.rev_bob _ Hrun) as (Hne & _ & _ & Hnot).
  split; [exact Hrun|]. split; [exact Hne | exact Hnot].
Defined.

(** ** The direction of status changes *)

Section StatusOrder.
Context {P : Platform}.

Lemma status_forward_refl s : status_forward s s = true.
Proof. unfold status_forward. now rewrite String.eqb_refl. Qed.

Lemma never_backward_refl rows : never_backward rows rows.
Proof.
  exists rows, []. split; [now rewrite app_nil_r|].
  induction rows; constructor; auto using status_forward_refl.
Qed.

Lemma never_backward_append rows added : never_backward rows (rows ++ added).
Proof.
  destruct (never_backward_refl rows) as (kept & nil' & Heq & HF).
  exists rows, added. split; auto.
  clear. induction rows; constructor; auto using status_forward_refl.
Qed.

Lemma never_backward_replace pre e e' post :
  AssessmentTracker.id e' = AssessmentTracker.id e ->
  status_forward (AssessmentTracker.status e) (AssessmentTracker.status e') = true ->
  never_backward (pre ++ e :: post) (pre ++ e' :: post).
Proof.
  intros Hid Hst. exists (pre ++ e' :: post), []. split; [now rewrite app_nil_r|].
  apply Forall2_app; [|constructor; auto].
  - induction pre; constructor; auto using status_forward_refl.
  - induction post; constructor; auto using status_forward_refl.
Qed.

Lemma find_by_unique_id rows e :
  NoDup (map AssessmentTracker.id rows) -> In e rows ->
  find (fun r => Z.eqb (AssessmentTracker.id r) (AssessmentTracker.id e)) rows
    = Some e.
Proof.
  induction rows as [|r rows IH]; simpl; [tauto|].
  intros Hnd [->|Hin].
  - now rewrite Z.eqb_refl.
  - inversion Hnd; subst.
    destruct (Z.eqb_spec (AssessmentTracker.id r) (AssessmentTracker.id e))
      as [Heq|]; auto.
    exfalso. match goal with H : ~ In _ _ |- _ => apply H end.
    rewrite Heq. now apply in_map.
Qed.

Lemma get_assessment_tracker_entry_by_id_cases entry_id w :
  (exists e, find (fun r => Z.eqb (AssessmentTracker.id r) entry_id)
                  (tracker_rows w) = Some e) \/
  get_assessment_tracker_entry_by_id entry_id w = (Raise NotFound, w).
Proof.
  unfold get_assessment_tracker_entry_by_id, tracker_rows. run.
  destruct (find _ _); [left; eauto | now right].
Qed.

End StatusOrder.

(** ** The badge catalogue *)

Section Catalogue.
Context {P : Platform}.

(** *** Reparsing *)

Lemma reparse_get acc k0 v0 k :
  Dict.get k (reparse acc (k0, v0)) =
  if String.eqb k0 k then
    match v0 with
    | VStr s =>
        match strptime s FMT_FRACTION with
        | Some d => Some (VDatetime d)
        | None =>
            match strptime s FMT_SECONDS with
            | Some d => Some (VDatetime d)
            | None => Dict.get k acc
            end
        end
    | VDatetime _ => Dict.get k acc
    end
  else Dict.get k acc.
Proof.
  unfold reparse. simpl.
  destruct (String.eqb_spec k0 k) as [->|Hne].
  - destruct v0 as [s|d]; auto.
    destruct (strptime s FMT_FRACTION); [apply dict_get_set_same|].
    destruct (strptime s FMT_SECONDS); [apply dict_get_set_same|auto].
  - destruct v0 as [s|d]; auto.
    destruct (strptime s FMT_FRACTION);
      [apply dict_get_set_other; congruence|].
    destruct (strptime s FMT_SECONDS);
      [apply dict_get_set_other; congruence|auto].
Qed.

Lemma reparse_fold_get (items acc : Dict.t value) k :
  NoDup (Dict.keys items) ->
  Dict.get k (fold_left reparse items acc) =
  match Dict.get k items with
  | Some (VStr s) =>
      match strptime s FMT_FRACTION with
      | Some d => Some (VDatetime d)
      | None =>
          match strptime s FMT_SECONDS with
          | Some d => Some (VDatetime d)
          | None => Dict.get k acc
          end
      end
  | _ => Dict.get k acc
  end.
Proof.
  revert acc. induction items as [|[k0 v0] items IH]; intros acc Hnd; auto.
  pose proof (dict_get_head_NoDup _ _ _ Hnd) as Hhead.
  cbn [fold_left]. rewrite IH by (inversion Hnd; assumption).
  cbn [Dict.get]. rewrite reparse_get.
  destruct (String.eqb_spec k0 k) as [->|Hne].
  - rewrite Hhead. reflexivity.
  - destruct (Dict.get k items) as [[s|d]|]; reflexivity.
Qed.

Lemma reparse_keys (acc : Dict.t value) kv :
  In (fst kv) (Dict.keys acc) -> Dict.keys (reparse acc kv) = Dict.keys acc.
Proof.
  intros Hin. unfold reparse.
  assert (Hset : forall v, Dict.keys (Dict.set (fst kv) v acc) = Dict.keys acc).
  { intros v. rewrite dict_keys_set.
    destruct (existsb _ _) eqn:E; auto.
    assert (existsb (String.eqb (fst kv)) (Dict.keys acc) = true); [|congruence].
    apply existsb_exists. exists (fst kv). split; auto. apply String.eqb_refl. }
  destruct (snd kv) as [s|d]; auto.
  destruct (strptime s FMT_FRACTION); auto.
  destruct (strptime s FMT_SECONDS); auto.
Qed.

Lemma reparse_fold_keys (items acc : Dict.t value) :
  (forall kv, In kv items -> In (fst kv) (Dict.keys acc)) ->
  Dict.keys (fold_left reparse items acc) = Dict.keys acc.
Proof.
  revert acc. induction items as [|kv items IH]; intros acc Hsub; auto.
  cbn [fold_left]. rewrite IH.
  - apply reparse_keys, Hsub. now left.
  - intros kv' Hin. rewrite reparse_keys by (apply Hsub; now left).
    apply Hsub. now right.
Qed.

Lemma coerced_fields_NoDup badge : NoDup (Dict.keys (coerced_fields badge)).
Proof. apply dict_update_NoDup. constructor. Qed.

Lemma badge_fields_keys badge :
  Dict.keys (badge_fields badge) = Dict.keys (coerced_fields badge).
Proof.
  unfold badge_fields. fold (coerced_fields badge).
  apply reparse_fold_keys. intros kv Hin. unfold Dict.keys, Dict.items.
  now apply in_map.
Qed.

Lemma unknown_column_badge_fields badge :
  unknown_column (badge_fields badge) = unknown_column (coerced_fields badge).
Proof. unfold unknown_column. now rewrite badge_fields_keys. Qed.

Lemma dict_set_values (Q : value -> Prop) (d : Dict.t value) k v :
  Q v -> Forall (fun kv => Q (snd kv)) d ->
  Forall (fun kv => Q (snd kv)) (Dict.set k v d).
Proof.
  intros Hv Hd. induction Hd as [|[k0 v0] d H0 Hd IH]; simpl.
  - repeat constructor. exact Hv.
  - destruct (String.eqb k0 k); constructor; auto.
Qed.

Lemma coerced_fields_text badge k v :
  Dict.get k (coerced_fields badge) = Some v -> exists s, v = VStr s.
Proof.
  assert (Hall : Forall (fun kv => exists s, snd kv = VStr s)
                        (coerced_fields badge)).
  { unfold coerced_fields, Dict.update, Dict.items.
    generalize (@nil (string * value)) (Forall_nil
      (fun kv : string * value => exists s, snd kv = VStr s)).
    induction badge as [|[k0 v0] badge IH]; intros acc Hacc; auto.
    cbn [map fold_left fst snd]. apply IH.
    apply (dict_set_values (fun v => exists s, v = VStr s)); eauto. }
  intros Hget. induction Hall as [|[k0 v0] d H0 Hd IH]; [discriminate|].
  simpl in Hget. destruct (String.eqb k0 k); [|auto].
  inversion Hget; subst. exact H0.
Qed.

(** *** One record *)

Lemma hd_error_filter_existsb {A} (p : A -> bool) (l : list A) :
  hd_error (filter p l) = None <-> existsb p l = false.
Proof.
  induction l as [|a l IH]; simpl; [tauto|].
  destruct (p a); simpl; [split; discriminate | exact IH].
Qed.

Lemma sync_badge_accepted w badge :
  record_accepted badge = true ->
  sync_badge badge w = (Ok tt, world_after_upsert w badge).
Proof.
  unfold record_accepted, sync_badge, world_after_upsert, upsert_by_name, getitem.
  destruct (Dict.get "name" badge) as [name|]; [|discriminate].
  rewrite <- unknown_column_badge_fields.
  destruct (unknown_column (badge_fields badge)) eqn:Ecol; [discriminate|].
  intros _. unfold bind at 1, ret at 1. unfold bind at 1, query at 1.
  unfold bind, db_write, db_commit, Session.commit, Session.write.
  cbn [db Session.pending Session.committed].
  remember (Tables.badges (Session.pending (db w))) as rows eqn:Erows.
  pose proof (hd_error_filter_existsb (name_is name) rows) as Hhd.
  destruct (existsb (name_is name) rows) eqn:Eex.
  - destruct (hd_error (filter (name_is name) rows)) eqn:Efirst.
    + rewrite <- Erows. reflexivity.
    + destruct Hhd as [Hhd _]. specialize (Hhd eq_refl). discriminate.
  - destruct Hhd as [_ Hhd]. rewrite (Hhd eq_refl), <- Erows. reflexivity.
Qed.

Lemma sync_badge_Raise w badge e w' :
  sync_badge badge w = (Raise e, w') -> w' = w.
Proof.
  unfold sync_badge, getitem. run.
  destruct (Dict.get "name" badge) as [name|]; [|now intros [= _ <-]].
  destruct (hd_error _);
    destruct (unknown_column _); try discriminate; now intros [= _ <-].
Qed.

Lemma sync_badge_Ok w badge w' :
  sync_badge badge w = (Ok tt, w') ->
  Session.committed (db w') = Session.pending (db w').
Proof.
  unfold sync_badge, getitem. run.
  destruct (Dict.get "name" badge) as [name|]; [|discriminate].
  destruct (hd_error _);
    destruct (unknown_column _); try discriminate; now intros [= <-].
Qed.

(** *** The loop *)

Lemma for_each_app {A} (xs ys : list A) (body : A -> M unit) w :
  for_each (xs ++ ys) body w =
  match for_each xs body w with
  | (Ok _, w1) => for_each ys body w1
  | (Raise e, w1) => (Raise e, w1)
  end.
Proof.
  revert w. induction xs as [|x xs IH]; intros w; simpl; auto.
  unfold bind. destruct (body x w) as [[[]|e] w0]; auto.
Qed.

Lemma sync_badges_Ok_loop catalog w u w1 :
  sync_badges (Ok catalog) w = (Ok u, w1) ->
  for_each catalog sync_badge w = (Ok tt, w1).
Proof.
  unfold sync_badges. run.
  destruct (for_each catalog sync_badge w) as [[[]|e] w0]; [|discriminate].
  destruct u. auto.
Qed.

Lemma for_each_sync_accepted catalog w :
  forallb record_accepted catalog = true ->
  for_each catalog sync_badge w
    = (Ok tt, fold_left world_after_upsert catalog w).
Proof.
  revert w. induction catalog as [|badge catalog IH]; intros w Hall; auto.
  simpl in Hall. apply andb_true_iff in Hall as [Hb Hall].
  cbn [for_each fold_left]. unfold bind.
  rewrite (sync_badge_accepted w badge Hb). now apply IH.
Qed.

Lemma fold_world_after_upsert_rows catalog w :
  badge_rows (fold_left world_after_upsert catalog w)
    = fold_left upsert_by_name catalog (badge_rows w).
Proof.
  revert w. induction catalog as [|badge catalog IH]; intros w; auto.
  cbn [fold_left]. rewrite IH. reflexivity.
Qed.

Lemma fold_world_after_upsert_stored catalog w :
  catalog <> [] ->
  stored_badges (fold_left world_after_upsert catalog w)
    = badge_rows (fold_left world_after_upsert catalog w).
Proof.
  intros Hne. destruct (exists_last Hne) as (front & last & ->).
  rewrite fold_left_app. reflexivity.
Qed.

(** *** The chain on one field *)

Lemma badge_fields_get_text badge k s :
  Dict.get k (coerced_fields badge) = Some (VStr s) ->
  Dict.get k (badge_fields badge) = Some (parse_chain s).
Proof.
  intros Hget. unfold badge_fields. fold (coerced_fields badge).
  unfold Dict.items.
  rewrite reparse_fold_get by apply coerced_fields_NoDup.
  rewrite Hget. unfold parse_chain.
  destruct (strptime s FMT_FRACTION); auto.
  destruct (strptime s FMT_SECONDS); auto.
Qed.

Lemma badge_fields_get_none badge k :
  Dict.get k (coerced_fields badge) = None ->
  Dict.get k (badge_fields badge) = None.
Proof.
  intros Hget. unfold badge_fields. fold (coerced_fields badge).
  unfold Dict.items.
  rewrite reparse_fold_get by apply coerced_fields_NoDup.
  now rewrite Hget.
Qed.

End Catalogue.

Section CatalogueClaims.
Context {P : Platform}.

(** C3, as the code has it: [sync_badges] upserts by the record's name, not
    by its external id.  When the fetched records all carry a name and known
    columns, the call succeeds, the badge rows are those obtained by
    upserting the records by name one after the other, and they are
    committed; upserting a record means that the rows with the record's
    name take its fields in place, no row being added, and that a record
    whose name no row carries becomes a new last row. *)
Theorem sync_badges_upserts_by_name
    (w : World) (catalog : list (Dict.t PyVal)) :
  forallb record_accepted catalog = true ->
  (exists w',
     sync_badges (Ok catalog) w = (Ok tt, w') /\
     badge_rows w' = fold_left upsert_by_name catalog (badge_rows w) /\
     (catalog <> [] -> stored_badges w' = badge_rows w')) /\
  (forall record rows,
     In record catalog ->
     exists name,
       Dict.get "name" record = Some name /\
       (existsb (name_is name) rows = true ->
        List.length (upsert_by_name rows record) = List.length rows /\
        forall i row,
          nth_error rows i = Some row ->
          nth_error (upsert_by_name rows record) i
            = Some (if name_is name row
                    then Dict.update row (badge_fields record) else row)) /\
       (existsb (name_is name) rows = false ->
        upsert_by_name rows record = rows ++ [badge_fields record])).
Proof.
  intros Hall. split.
  - exists (fold_left world_after_upsert catalog w).
    split; [|split].
    + unfold sync_badges. unfold bind at 1, try_except at 1, ret at 1.
      unfold try_except. now rewrite for_each_sync_accepted.
    + apply fold_world_after_upsert_rows.
    + apply fold_world_after_upsert_stored.
  - intros record rows Hin.
    rewrite forallb_forall in Hall. specialize (Hall record Hin).
    unfold record_accepted in Hall. unfold upsert_by_name.
    destruct (Dict.get "name" record) as [name|]; [|discriminate].
    exists name. split; [reflexivity|]. split; intros Hex; rewrite Hex.
    + split; [apply length_map|].
      intros i row Hrow. now rewrite nth_error_map, Hrow.
    + reflexivity.
Qed.

(** X29: every record is committed on its own, so when [sync_badges] fails
    on a record it re-raises the error and rolls back only what was not yet
    committed: the stored tables are those a successful synchronisation of
    the records before the failing one leaves (the tables from before the
    call when no record precedes the failing one), and the session sees
    what is stored. *)
Theorem sync_badges_failure_keeps_earlier_records
    (w : World) (earlier later : list (Dict.t PyVal)) (failing : Dict.t PyVal)
    (w1 : World) (e : exn) :
  sync_badges (Ok earlier) w = (Ok tt, w1) ->
  fst (sync_badge failing w1) = Raise e ->
  exists w',
    sync_badges (Ok (earlier ++ failing :: later)) w = (Raise e, w') /\
    Session.committed (db w') = Session.committed (db w1) /\
    Session.pending (db w') = Session.committed (db w1) /\
    (earlier = [] -> Session.committed (db w') = Session.committed (db w)).
Proof.
  intros Hearlier Hfail.
  apply sync_badges_Ok_loop in Hearlier.
  destruct (sync_badge failing w1) as [[u|e'] w2] eqn:Hbad;
    simpl in Hfail; [discriminate|]. inversion Hfail; subst e'.
  apply sync_badge_Raise in Hbad as Hw2. subst w2.
  exists (mkWorld (Session.rollback (db w1)) (ticks w1) (draws w1)).
  split; [|split; [|split]]; try reflexivity.
  - unfold sync_badges. unfold bind at 1, try_except at 1, ret at 1.
    unfold try_except. rewrite for_each_app, Hearlier.
    cbn [for_each]. unfold bind at 1. rewrite Hbad. reflexivity.
  - intros ->. simpl in Hearlier. inversion Hearlier. reflexivity.
Qed.

End CatalogueClaims.

(** Synchronising a concrete catalogue twice: the second record finds the
    row of the first by its name and rewrites it. *)
Lemma sync_badges_upserts_by_name_witness :
  exists w',
    sync_badges (P := Demo.platform)
        (Ok [Demo.badge_a; Demo.badge_a_renumbered]) Demo.empty_world
      = (Ok tt, w') /\
    badge_rows w' =
      [[("entityId", VStr "e2"); ("name", VStr "A");
        ("createdAt", VDatetime (datetime.mk 2022 5 4 3 2 1 0))]].
Proof.
  destruct (sync_badges_upserts_by_name (P := Demo.platform) Demo.empty_world
              [Demo.badge_a; Demo.badge_a_renumbered] eq_refl)
    as [(w' & Hrun & Hrows & _) _].
  exists w'. split; [exact Hrun|]. rewrite Hrows. reflexivity.
Defined.

(** C3 as stated fails: a fetched record whose external id is unknown
    locally but whose name is known does not become a new row; the row with
    that name, which carries another external id, is overwritten. *)
Lemma sync_badges_not_keyed_by_entityId :
  badge_rows (Demo.world_of [] [Demo.row_a]) = [Demo.row_a] /\
  existsb (entityId_is (P := Demo.platform) "e2") [Demo.row_a] = false /\
  fst (sync_badges (P := Demo.platform) (Ok [Demo.badge_a_renumbered])
         (Demo.world_of [] [Demo.row_a])) = Ok tt /\
  badge_rows
    (snd (sync_badges (P := Demo.platform) (Ok [Demo.badge_a_renumbered])
            (Demo.world_of [] [Demo.row_a])))
    = [[("entityId", VStr "e2"); ("name", VStr "A");
        ("createdAt", VDatetime (datetime.mk 2022 5 4 3 2 1 0))]] /\
  upsert_by_entityId (P := Demo.platform) [Demo.row_a] Demo.badge_a_renumbered
    = [Demo.row_a; [("entityId", VStr "e2"); ("name", VStr "A")]] /\
  badge_rows
    (snd (sync_badges (P := Demo.platform) (Ok [Demo.badge_a_renumbered])
            (Demo.world_of [] [Demo.row_a])))
    <> upsert_by_entityId (P := Demo.platform) [Demo.row_a]
         Demo.badge_a_renumbered.
Proof.
  repeat split; try reflexivity.
  vm_compute. discriminate.
Qed.

(** Failure after one record at a concrete catalogue. *)
Lemma sync_badges_failure_keeps_earlier_records_witness :
  exists w',
    sync_badges (P := Demo.platform) (Ok [Demo.badge_a; Demo.badge_nameless])
        Demo.empty_world = (Raise (KeyError "name"), w') /\
    Tables.badges (Session.committed (db w')) = [Demo.row_a].
Proof.
  destruct (sync_badges_failure_keeps_earlier_records (P := Demo.platform)
              Demo.empty_world [Demo.badge_a] [] Demo.badge_nameless
              (snd (sync_badges (P := Demo.platform) (Ok [Demo.badge_a])
                      Demo.empty_world))
              (KeyError "name") eq_refl eq_refl)
    as (w' & Hrun & Hstored & _).
  exists w'. split; [exact Hrun|]. rewrite Hstored. reflexivity.
Defined.

(** C2 at the failing input: the second record has no name, the call
    raises, and the first record's badge stays stored although the store
    was empty before the call. *)
Lemma sync_badges_partial_catalogue_persisted :
  stored_badges Demo.empty_world = [] /\
  fst (sync_badges (P := Demo.platform)
         (Ok [Demo.badge_a; Demo.badge_nameless]) Demo.empty_world)
    = Raise (KeyError "name") /\
  stored_badges
    (snd (sync_badges (P := Demo.platform)
            (Ok [Demo.badge_a; Demo.badge_nameless]) Demo.empty_world))
    = [Demo.row_a] /\
  stored_badges
    (snd (sync_badges (P := Demo.platform)
            (Ok [Demo.badge_a; Demo.badge_nameless]) Demo.empty_world))
    <> stored_badges Demo.empty_world.
Proof.
  repeat split; try reflexivity.
  vm_compute. discriminate.
Qed.

(** ** The life of one entry *)

(** Initiation, assignment of reviewer 7 and approval under the name of
    reviewer 7's user: the statuses and the lengths of the log along the
    way, and the fields of the last record. *)
Example lifecycle_scenario :
  let w1 := snd (init_assessment_tracker (P := Demo.platform) Demo.request 42
                   Demo.empty_world) in
  let e1 := hd (Demo.entry_with "" None) (tracker_rows w1) in
  let w2 := snd (assign_reviewer (P := Demo.platform) e1
                   (ReviewerInfo.mk 7 "bob") w1) in
  let e2 := hd e1 (tracker_rows w2) in
  let run3 := approve_assessment (P := Demo.platform) Demo.alice Demo.rev_bob
                "bob" Demo.python1 w2 in
  let e3 := hd e2 (tracker_rows (snd run3)) in
  (AssessmentTracker.status e1, List.length (AssessmentTracker.log e1))
    = ("Initiated", 1%nat) /\
  (AssessmentTracker.status e2, List.length (AssessmentTracker.log e2))
    = ("Under review", 2%nat) /\
  fst run3 = Ok true /\
  (AssessmentTracker.status e3, List.length (AssessmentTracker.log e3))
    = ("Approved", 3%nat) /\
  option_map (Dict.get "commit") (nth_error (AssessmentTracker.log e3) 2)
    = Some (Some (JStr "abc123")) /\
  option_map (Dict.get "Reviewer") (nth_error (AssessmentTracker.log e3) 2)
    = Some (Some (JInt 7)).
Proof. vm_compute. repeat split. Qed.

(** * Further properties of the operations *)

(** ** The operations as equations *)

Section Equations.
Context {P : Platform}.

Lemma find_filter {A} (p q : A -> bool) (l : list A) :
  find p (filter q l) = find (fun x => q x && p x) l.
Proof.
  induction l as [|a l IH]; simpl; auto.
  destruct (q a); simpl; auto. destruct (p a); auto.
Qed.

Lemma find_ext_in {A} (p q : A -> bool) (l : list A) :
  (forall x, In x l -> p x = q x) -> find p l = find q l.
Proof.
  induction l as [|a l IH]; simpl; intros H; auto.
  rewrite (H a) by auto. destruct (q a); auto.
Qed.

Lemma find_unique_key {A K} (key : A -> K) (eqb : K -> K -> bool)
    (l : list A) (e : A) :
  (forall x y, eqb x y = true <-> x = y) ->
  NoDup (map key l) -> In e l ->
  find (fun r => eqb (key r) (key e)) l = Some e.
Proof.
  intros Heqb. induction l as [|r l IH]; simpl; [tauto|].
  intros Hnd [->|Hin].
  - now rewrite (proj2 (Heqb _ _) eq_refl).
  - inversion Hnd as [|? ? Hnotin Hnd']; subst.
    destruct (eqb (key r) (key e)) eqn:E; auto.
    apply Heqb in E. exfalso. apply Hnotin. rewrite E. now apply in_map.
Qed.

Lemma get_assessment_tracker_entry_find user_id assessment_id w :
  get_assessment_tracker_entry user_id assessment_id w =
  match find (fun e => Z.eqb (AssessmentTracker.user_id e) user_id &&
                       Z.eqb (AssessmentTracker.assessment_id e) assessment_id)
             (tracker_rows w) with
  | Some e => (Ok e, w)
  | None => (Raise NotFound, w)
  end.
Proof.
  unfold get_assessment_tracker_entry, tracker_rows. run.
  rewrite find_filter. now destruct (find _ _).
Qed.

Lemma get_assessment_tracker_entry_by_id_find_eq entry_id w :
  get_assessment_tracker_entry_by_id entry_id w =
  match find (fun e => Z.eqb (AssessmentTracker.id e) entry_id)
             (tracker_rows w) with
  | Some e => (Ok e, w)
  | None => (Raise NotFound, w)
  end.
Proof.
  unfold get_assessment_tracker_entry_by_id, tracker_rows. run.
  now destruct (find _ _).
Qed.

Lemma get_assessment_tracker_entry_by_commit_find commit w :
  get_assessment_tracker_entry_by_commit commit w =
  match find (fun e => String.eqb (AssessmentTracker.latest_commit e) commit)
             (tracker_rows w) with
  | Some e => (Ok e, w)
  | None => (Raise NotFound, w)
  end.
Proof.
  unfold get_assessment_tracker_entry_by_commit, tracker_rows. run.
  now destruct (find _ _).
Qed.

(** The four outcomes of an initiation. *)
Lemma init_assessment_tracker_cases w init_request user_id :
  (get_assessment_by_name (InitRequest.assessment_name init_request) w
     = (Raise (ValueError "Assessment does not exist"), w) /\
   init_assessment_tracker init_request user_id w
     = (Raise (ValueError "Assessment does not exist"), w)) \/
  (exists assessment entry,
     get_assessment_by_name (InitRequest.assessment_name init_request) w
       = (Ok assessment, w) /\
     get_assessment_tracker_entry user_id (Assessments.id assessment) w
       = (Ok entry, w) /\
     init_assessment_tracker init_request user_id w
       = (Raise AlreadyExists, w)) \/
  (exists assessment,
     get_assessment_by_name (InitRequest.assessment_name init_request) w
       = (Ok assessment, w) /\
     get_assessment_tracker_entry user_id (Assessments.id assessment) w
       = (Raise NotFound, w) /\
     commit_carried (InitRequest.latest_commit init_request) (tracker_rows w)
       = true /\
     init_assessment_tracker init_request user_id w
       = (Raise IntegrityError,
          world_insert_refused
            (initiated_row (ticks w) (next_id (tracker_rows w)) init_request
               user_id (Assessments.id assessment)) 2 w)) \/
  (exists assessment,
     get_assessment_by_name (InitRequest.assessment_name init_request) w
       = (Ok assessment, w) /\
     get_assessment_tracker_entry user_id (Assessments.id assessment) w
       = (Raise NotFound, w) /\
     commit_carried (InitRequest.latest_commit init_request) (tracker_rows w)
       = false /\
     init_assessment_tracker init_request user_id w
       = (Ok true,
          world_after_insert
            (initiated_row (ticks w) (next_id (tracker_rows w)) init_request
               user_id (Assessments.id assessment)) 2 w)).
Proof.
  destruct (get_assessment_by_name_cases
              (InitRequest.assessment_name init_request) w) as [[a Ha]|Ha].
  - destruct (get_assessment_tracker_entry_cases user_id (Assessments.id a) w)
      as [(e & He & _)|He].
    + right; left. exists a, e. repeat split; auto.
      eapply init_assessment_tracker_exists; eauto.
    + pose proof (init_assessment_tracker_fresh w init_request user_id a Ha He)
        as Hrun. cbv zeta in Hrun.
      destruct (commit_carried _ _) eqn:Hc.
      * right; right; left. exists a. repeat split; auto.
      * right; right; right. exists a. repeat split; auto.
  - left. split; auto.
    unfold init_assessment_tracker, bind at 1. now rewrite Ha.
Qed.

Lemma update_assessment_log_missing w entry_id latest_commit update_logs :
  find (fun r => Z.eqb (AssessmentTracker.id r) entry_id) (tracker_rows w)
    = None ->
  update_assessment_log entry_id latest_commit update_logs w
    = (Raise NotFound, w).
Proof.
  intros Hfind. unfold update_assessment_log, bind at 1.
  rewrite get_assessment_tracker_entry_by_id_find_eq, Hfind. reflexivity.
Qed.

(** The rows the session sees after a commit update of a stored entry,
    accepted or refused. *)
Lemma update_assessment_log_rows w entry_id latest_commit update_logs entry :
  find (fun r => Z.eqb (AssessmentTracker.id r) entry_id) (tracker_rows w)
    = Some entry ->
  tracker_rows (snd (update_assessment_log entry_id latest_commit update_logs w))
    = merge_row (updated_row (ticks w) latest_commit update_logs entry)
        (tracker_rows w).
Proof.
  intros Hfind. rewrite (update_assessment_log_run _ _ _ _ _ Hfind).
  now destruct (update_refused _ _ _).
Qed.

(** The rows the session sees after an initiation: those from before, and
    behind them the new row when the pair had no entry. *)
Lemma init_assessment_tracker_rows w init_request user_id :
  snd (init_assessment_tracker init_request user_id w) = w \/
  exists assessment,
    get_assessment_tracker_entry user_id (Assessments.id assessment) w
      = (Raise NotFound, w) /\
    tracker_rows (snd (init_assessment_tracker init_request user_id w))
      = tracker_rows w ++
          [initiated_row (ticks w) (next_id (tracker_rows w)) init_request
             user_id (Assessments.id assessment)].
Proof.
  destruct (init_assessment_tracker_cases w init_request user_id)
    as [[_ ->] | [(a & entry & _ & _ & ->)
                 | [(a & _ & He & _ & ->) | (a & _ & He & _ & ->)]]];
    [now left | now left | right; exists a; auto | right; exists a; auto].
Qed.

Lemma merge_row_twice e1 e2 rows :
  AssessmentTracker.id e1 = AssessmentTracker.id e2 ->
  merge_row e2 (merge_row e1 rows) = merge_row e2 rows.
Proof.
  intros Hid. induction rows as [|r rows IH]; simpl.
  - rewrite Hid, Z.eqb_refl. reflexivity.
  - destruct (Z.eqb_spec (AssessmentTracker.id r) (AssessmentTracker.id e1))
      as [H1|H1]; simpl.
    + rewrite Hid, Z.eqb_refl, H1, Hid, Z.eqb_refl. reflexivity.
    + destruct (Z.eqb_spec (AssessmentTracker.id r) (AssessmentTracker.id e2))
        as [H2|H2]; [congruence|]. now rewrite IH.
Qed.

(** [assign_reviewer] as one write. *)
Lemma assign_reviewer_eq w entry reviewer_info :
  assign_reviewer entry reviewer_info w =
    (Ok true,
     world_after_write (assigned_row (ticks w) reviewer_info entry) 2 w).
Proof.
  unfold assign_reviewer.
  set (e1 := AssessmentTracker.set_last_updated (utcnow_at (ticks w))
               (AssessmentTracker.set_status "Under review"
                  (AssessmentTracker.set_reviewer_id
                     (Some (ReviewerInfo.reviewer_id reviewer_info)) entry))).
  set (w1 := mkWorld
               (Session.commit
                  (Session.write
                     (fun tb => Tables.set_assessment_tracker
                                  (merge_row e1 (Tables.assessment_tracker tb)) tb)
                     (db w)))
               (S (ticks w)) (draws w)).
  assert (Hfind : find (fun r => Z.eqb (AssessmentTracker.id r)
                                   (AssessmentTracker.id e1))
                       (tracker_rows w1) = Some e1)
    by apply merge_row_lookup.
  pose proof (update_assessment_log_eq w1 (AssessmentTracker.id e1)
                (AssessmentTracker.latest_commit e1)
                (ReviewerInfo.to_dict reviewer_info) _ Hfind
                (update_refused_same e1 w1)) as Hlog.
  unfold bind at 1, utcnow at 1. unfold bind at 1, db_add, db_write.
  unfold bind at 1, db_commit. unfold bind at 1.
  change (update_assessment_log _ _ _ _)
    with (update_assessment_log (AssessmentTracker.id e1)
            (AssessmentTracker.latest_commit e1)
            (ReviewerInfo.to_dict reviewer_info) w1).
  rewrite Hlog. unfold ret. f_equal.
  unfold world_after_write, w1, Session.commit, Session.write.
  cbn [db ticks draws Session.pending Session.committed
       Tables.assessment_tracker Tables.set_assessment_tracker].
  rewrite (merge_row_twice e1) by reflexivity.
  reflexivity.
Qed.

End Equations.

(** ** Lookups *)

Section Lookups.
Context {P : Platform}.

(** X1: [get_reviewer_by_username] joins the two tables: a returned reviewer
    is a stored reviewer row of a stored user with that username; a failure
    is ["User name does not exist"] exactly when no user has the name, and
    ["Reviewer does not exist"] otherwise; the world is never changed; and
    when usernames are unique every user who has a reviewer row is found by
    their name. *)
Theorem get_reviewer_by_username_joins (w : World) (username : string) :
  let users := Tables.users (Session.pending (db w)) in
  let reviewers := Tables.reviewers (Session.pending (db w)) in
  (forall r w', get_reviewer_by_username username w = (Ok r, w') ->
     w' = w /\ In r reviewers /\
     exists u, In u users /\ Users.username u = username /\
               Reviewers.user_id r = Users.id u) /\
  (forall e w', get_reviewer_by_username username w = (Raise e, w') ->
     w' = w /\
     ((e = ValueError "User name does not exist" /\
       forall u, In u users -> Users.username u <> username) \/
      (e = ValueError "Reviewer does not exist" /\
       exists u, In u users /\ Users.username u = username))) /\
  (NoDup (map Users.username users) ->
   forall u r, In u users -> Users.username u = username ->
               In r reviewers -> Reviewers.user_id r = Users.id u ->
     exists r', get_reviewer_by_username username w = (Ok r', w) /\
                Reviewers.user_id r' = Users.id u).
Proof.
  intros users reviewers.
  assert (Hrun : get_reviewer_by_username username w =
    match find (fun u => String.eqb (Users.username u) username) users with
    | None => (Raise (ValueError "User name does not exist"), w)
    | Some u =>
        match find (fun r => Z.eqb (Reviewers.user_id r) (Users.id u))
                   reviewers with
        | None => (Raise (ValueError "Reviewer does not exist"), w)
        | Some r => (Ok r, w)
        end
    end).
  { unfold get_reviewer_by_username, get_user_by_username. run.
    fold users. destruct (find _ users); simpl; auto.
    fold reviewers. destruct (find _ reviewers); auto. }
  rewrite Hrun. split; [|split].
  - intros r w'.
    destruct (find _ users) as [u|] eqn:Eu; [|discriminate].
    destruct (find _ reviewers) as [r0|] eqn:Er; [|discriminate].
    intros [= <- <-]. apply find_some in Eu as [Hu Hname].
    apply find_some in Er as [Hr Hid].
    apply String.eqb_eq in Hname. apply Z.eqb_eq in Hid.
    repeat split; auto. exists u. auto.
  - intros e w'.
    destruct (find _ users) as [u|] eqn:Eu.
    + destruct (find _ reviewers) as [r0|] eqn:Er; [discriminate|].
      intros [= <- <-]. split; auto. right. split; auto.
      apply find_some in Eu as [Hu Hname]. apply String.eqb_eq in Hname.
      exists u. auto.
    + intros [= <- <-]. split; auto. left. split; auto.
      intros u Hu Hname. apply (find_none _ _ Eu) in Hu.
      apply String.eqb_neq in Hu. contradiction.
  - intros Hnd u r Hu Hname Hr Hid.
    pose proof (find_unique_key Users.username String.eqb users u
                  String.eqb_eq Hnd Hu) as Hfind.
    rewrite Hname in Hfind. rewrite Hfind.
    destruct (find _ reviewers) as [r0|] eqn:Er.
    + exists r0. split; auto. apply find_some in Er as [_ Er]. lia.
    + apply (find_none _ _ Er) in Hr. apply Z.eqb_neq in Hr. contradiction.
Qed.

(** X2: under the uniqueness constraints of the schema every stored tracker
    entry is returned by the lookup on its own key: by [id], by
    [(user_id, assessment_id)] and by [latest_commit]. *)
Theorem stored_entry_retrievable (w : World) (e : AssessmentTracker.t) :
  In e (tracker_rows w) ->
  (primary_keys_unique w ->
   get_assessment_tracker_entry_by_id (AssessmentTracker.id e) w = (Ok e, w)) /\
  (pairs_unique w ->
   get_assessment_tracker_entry (AssessmentTracker.user_id e)
     (AssessmentTracker.assessment_id e) w = (Ok e, w)) /\
  (NoDup (map AssessmentTracker.latest_commit (tracker_rows w)) ->
   get_assessment_tracker_entry_by_commit (AssessmentTracker.latest_commit e) w
     = (Ok e, w)).
Proof.
  intros Hin. split; [|split].
  - intros Hk. rewrite get_assessment_tracker_entry_by_id_find_eq.
    now rewrite (find_unique_key AssessmentTracker.id Z.eqb (tracker_rows w) e
                   Z.eqb_eq Hk Hin).
  - intros Hp. rewrite get_assessment_tracker_entry_find.
    pose proof (find_unique_key
                  (fun r => (AssessmentTracker.user_id r,
                             AssessmentTracker.assessment_id r))
                  (fun p q => Z.eqb (fst p) (fst q) && Z.eqb (snd p) (snd q))
                  (tracker_rows w) e) as Hfind.
    cbn [fst snd] in Hfind. rewrite Hfind; auto.
    intros [a b] [c d]; cbn [fst snd]. rewrite andb_true_iff, !Z.eqb_eq.
    split; [intros []; congruence | intros [= -> ->]; auto].
  - intros Hc. rewrite get_assessment_tracker_entry_by_commit_find.
    now rewrite (find_unique_key AssessmentTracker.latest_commit String.eqb
                   (tracker_rows w) e String.eqb_eq Hc Hin).
Qed.

(** X3: a tracker lookup that succeeds returns a stored row that carries the
    key asked for and leaves the world alone; it raises [NotFound] exactly
    when no stored row carries the key. *)
Theorem tracker_lookups_exact (w : World) :
  (forall user_id assessment_id,
     (forall e w', get_assessment_tracker_entry user_id assessment_id w
                     = (Ok e, w') ->
        w' = w /\ In e (tracker_rows w) /\
        AssessmentTracker.user_id e = user_id /\
        AssessmentTracker.assessment_id e = assessment_id) /\
     (get_assessment_tracker_entry user_id assessment_id w = (Raise NotFound, w)
      <-> forall e, In e (tracker_rows w) ->
            ~ (AssessmentTracker.user_id e = user_id /\
               AssessmentTracker.assessment_id e = assessment_id))) /\
  (forall entry_id,
     (forall e w', get_assessment_tracker_entry_by_id entry_id w = (Ok e, w') ->
        w' = w /\ In e (tracker_rows w) /\ AssessmentTracker.id e = entry_id) /\
     (get_assessment_tracker_entry_by_id entry_id w = (Raise NotFound, w)
      <-> forall e, In e (tracker_rows w) -> AssessmentTracker.id e <> entry_id)) /\
  (forall commit,
     (forall e w', get_assessment_tracker_entry_by_commit commit w = (Ok e, w') ->
        w' = w /\ In e (tracker_rows w) /\
        AssessmentTracker.latest_commit e = commit) /\
     (get_assessment_tracker_entry_by_commit commit w = (Raise NotFound, w)
      <-> forall e, In e (tracker_rows w) ->
            AssessmentTracker.latest_commit e <> commit)).
Proof.
  assert (Hgen : forall (p : AssessmentTracker.t -> bool) (Q : AssessmentTracker.t -> Prop),
    (forall e, p e = true <-> Q e) ->
    (forall e w', match find p (tracker_rows w) with
                  | Some e0 => (Ok e0, w)
                  | None => (Raise NotFound, w)
                  end = (Ok e, w') ->
       w' = w /\ In e (tracker_rows w) /\ Q e) /\
    (match find p (tracker_rows w) with
     | Some e0 => (Ok e0, w)
     | None => (@Raise AssessmentTracker.t NotFound, w)
     end = (Raise NotFound, w)
     <-> forall e, In e (tracker_rows w) -> ~ Q e)).
  { intros p Q Hp. destruct (find p (tracker_rows w)) as [e0|] eqn:E; split.
    - intros e w' [= <- <-]. apply find_some in E as [Hin He].
      apply Hp in He. auto.
    - split; [discriminate|]. intros H. apply find_some in E as [Hin He].
      apply Hp in He. exfalso. eapply H; eauto.
    - discriminate.
    - split; auto. intros _ e Hin HQ. apply Hp in HQ.
      rewrite (find_none _ _ E e Hin) in HQ. discriminate. }
  split; [|split].
  - intros user_id assessment_id. rewrite get_assessment_tracker_entry_find.
    apply (Hgen _ (fun e => AssessmentTracker.user_id e = user_id /\
                            AssessmentTracker.assessment_id e = assessment_id)).
    intros e. now rewrite andb_true_iff, !Z.eqb_eq.
  - intros entry_id. rewrite get_assessment_tracker_entry_by_id_find_eq.
    destruct (Hgen (fun e => Z.eqb (AssessmentTracker.id e) entry_id)
                (fun e => AssessmentTracker.id e = entry_id)) as [H1 H2].
    { intros e. apply Z.eqb_eq. }
    split; [exact H1 | exact H2].
  - intros commit. rewrite get_assessment_tracker_entry_by_commit_find.
    destruct (Hgen (fun e => String.eqb (AssessmentTracker.latest_commit e) commit)
                (fun e => AssessmentTracker.latest_commit e = commit)) as [H1 H2].
    { intros e. apply String.eqb_eq. }
    split; [exact H1 | exact H2].
Qed.

End Lookups.

(** Bob is a user with a reviewer row and is found by his name. *)
Lemma get_reviewer_by_username_joins_witness :
  exists r', get_reviewer_by_username "bob" Demo.empty_world
               = (Ok r', Demo.empty_world) /\
             Reviewers.user_id r' = 50.
Proof.
  destruct (get_reviewer_by_username_joins Demo.empty_world "bob")
    as (_ & _ & Hfound).
  apply (Hfound ltac:(simpl; repeat constructor; simpl; intuition discriminate)
           Demo.bob Demo.rev_bob); simpl; auto.
Defined.

(** The entry under review is returned by the lookups on its keys. *)
Lemma stored_entry_retrievable_witness :
  get_assessment_tracker_entry_by_id 1 Demo.under_review
    = (Ok (Demo.entry_with "Under review" (Some 7)), Demo.under_review) /\
  get_assessment_tracker_entry 42 1 Demo.under_review
    = (Ok (Demo.entry_with "Under review" (Some 7)), Demo.under_review).
Proof.
  destruct (stored_entry_retrievable Demo.under_review
              (Demo.entry_with "Under review" (Some 7)) (or_introl eq_refl))
    as (Hid & Hpair & _).
  split.
  - apply Hid. unfold primary_keys_unique. simpl. repeat constructor. intros [].
  - apply Hpair. unfold pairs_unique. simpl. repeat constructor. intros [].
Defined.

(** No entry is stored in the empty store, so the lookup by id fails. *)
Lemma tracker_lookups_exact_witness :
  get_assessment_tracker_entry_by_id 1 Demo.empty_world
    = (Raise NotFound, Demo.empty_world).
Proof.
  destruct (tracker_lookups_exact Demo.empty_world) as (_ & Hid & _).
  destruct (Hid 1) as [_ Hnone]. apply Hnone. intros e [].
Defined.

(** ** Initiation, further *)

Section InitiateMore.
Context {P : Platform}.

(** X4: [init_assessment_tracker] raises only ["Assessment does not exist"]
    (the name resolves to no assessment), [AlreadyExists] (an entry for the
    pair is stored), in both cases leaving the world, clock included,
    exactly as it was, or the store's [IntegrityError] (the assessment
    resolves, the pair has no entry, and a stored entry carries the
    request's commit), after the two clock readings.  Whatever is raised,
    the committed tables are those from before the call. *)
Theorem init_assessment_tracker_failure_atomic
    (w : World) (init_request : InitRequest.t) (user_id : Z)
    (e : exn) (w' : World) :
  init_assessment_tracker init_request user_id w = (Raise e, w') ->
  Session.committed (db w') = Session.committed (db w) /\
  ((e = ValueError "Assessment does not exist" /\ w' = w /\
    forall a, In a (Tables.assessments (Session.pending (db w))) ->
              Assessments.name a <> InitRequest.assessment_name init_request) \/
   (e = AlreadyExists /\ w' = w /\
    exists entry, In entry (tracker_rows w) /\
                  AssessmentTracker.user_id entry = user_id) \/
   (e = IntegrityError /\ ticks w' = S (S (ticks w)) /\
    (exists assessment,
       get_assessment_by_name (InitRequest.assessment_name init_request) w
         = (Ok assessment, w) /\
       get_assessment_tracker_entry user_id (Assessments.id assessment) w
         = (Raise NotFound, w)) /\
    exists other, In other (tracker_rows w) /\
                  AssessmentTracker.latest_commit other
                    = InitRequest.latest_commit init_request)).
Proof.
  destruct (init_assessment_tracker_cases w init_request user_id)
    as [[Ha ->] | [(a & entry & Ha & He & ->)
                  | [(a & Ha & He & Hc & ->) | (a & Ha & He & Hc & ->)]]];
    intros [= <- <-]; split; auto.
  - left. repeat split; auto. intros a Hin Hname. revert Ha.
    unfold get_assessment_by_name. run.
    destruct (find _ _) eqn:E; [discriminate|].
    apply (find_none _ _ E) in Hin. apply String.eqb_neq in Hin. contradiction.
  - right; left. repeat split; auto. exists entry.
    destruct (get_assessment_tracker_entry_cases user_id (Assessments.id a) w)
      as [(e0 & He0 & Hin & Hu & _) | He0]; rewrite He0 in He;
      inversion He; subst. auto.
  - right; right. repeat split; eauto.
    now apply commit_carried_true.
Qed.

(** X5: after a successful [init_assessment_tracker] the new entry is the
    last row, it is returned by the lookup on the pair and by the lookup on
    its fresh id, and by the lookup on its commit when no earlier entry
    carries that commit; the rows stored before are untouched. *)
Theorem init_assessment_tracker_round_trip
    (w : World) (init_request : InitRequest.t) (user_id : Z)
    (b : bool) (w' : World) :
  init_assessment_tracker init_request user_id w = (Ok b, w') ->
  exists assessment entry,
    get_assessment_by_name (InitRequest.assessment_name init_request) w
      = (Ok assessment, w) /\
    tracker_rows w' = tracker_rows w ++ [entry] /\
    get_assessment_tracker_entry user_id (Assessments.id assessment) w'
      = (Ok entry, w') /\
    get_assessment_tracker_entry_by_id (AssessmentTracker.id entry) w'
      = (Ok entry, w') /\
    ((forall e, In e (tracker_rows w) ->
                AssessmentTracker.latest_commit e
                  <> InitRequest.latest_commit init_request) ->
     get_assessment_tracker_entry_by_commit
       (InitRequest.latest_commit init_request) w' = (Ok entry, w')).
Proof.
  destruct (init_assessment_tracker_cases w init_request user_id)
    as [[Ha ->] | [(a & entry & Ha & He & ->)
                  | [(a & Ha & He & Hfree & ->) | (a & Ha & He & Hfree & ->)]]];
    intros [= <- <-].
  set (entry := initiated_row (ticks w) (next_id (tracker_rows w)) init_request
                  user_id (Assessments.id a)).
  exists a, entry. split; [exact Ha|]. split; [reflexivity|].
  rewrite get_assessment_tracker_entry_find in He.
  destruct (find _ (tracker_rows w)) eqn:Epair; [discriminate|].
  assert (Hrows : tracker_rows (world_after_insert entry 2 w)
                  = tracker_rows w ++ [entry]) by reflexivity.
  split; [|split].
  - rewrite get_assessment_tracker_entry_find, Hrows.
    rewrite (find_app_None _ _ _ Epair). simpl. now rewrite !Z.eqb_refl.
  - assert (Hnone : find (fun r => Z.eqb (AssessmentTracker.id r)
                                      (AssessmentTracker.id entry))
                         (tracker_rows w) = None).
    { destruct (find (fun r => Z.eqb (AssessmentTracker.id r)
                                 (AssessmentTracker.id entry))
                     (tracker_rows w)) as [r|] eqn:Eid; auto.
      apply find_some in Eid as [Hin Hid]. apply Z.eqb_eq in Hid.
      apply next_id_above in Hin. simpl in Hid. lia. }
    rewrite get_assessment_tracker_entry_by_id_find_eq, Hrows.
    rewrite (find_app_None _ _ _ Hnone). simpl. now rewrite Z.eqb_refl.
  - intros Hfresh.
    assert (Hnone : find (fun r => String.eqb (AssessmentTracker.latest_commit r)
                                     (InitRequest.latest_commit init_request))
                         (tracker_rows w) = None).
    { destruct (find (fun r => String.eqb (AssessmentTracker.latest_commit r)
                                 (InitRequest.latest_commit init_request))
                     (tracker_rows w)) as [r|] eqn:Ec; auto.
      apply find_some in Ec as [Hin Hc]. apply String.eqb_eq in Hc.
      exfalso. eapply Hfresh; eauto. }
    rewrite get_assessment_tracker_entry_by_commit_find, Hrows.
    rewrite (find_app_None _ _ _ Hnone). simpl. now rewrite String.eqb_refl.
Qed.

End InitiateMore.

(** An unknown assessment name leaves the store as it is; a commit that
    another entry carries is refused after two clock readings. *)
Lemma init_assessment_tracker_failure_atomic_witness :
  Session.committed
    (db (snd (init_assessment_tracker (P := Demo.platform)
                (InitRequest.mk "alice" "Cobol I" "abc123") 42
                Demo.empty_world)))
    = Session.committed (db Demo.empty_world) /\
  Session.committed
    (db (snd (init_assessment_tracker (P := Demo.platform) Demo.request 42
                (Demo.world_of [Demo.entry_of_bob "abc123"] []))))
    = Session.committed (db (Demo.world_of [Demo.entry_of_bob "abc123"] [])).
Proof.
  split.
  - apply (init_assessment_tracker_failure_atomic (P := Demo.platform)
             Demo.empty_world (InitRequest.mk "alice" "Cobol I" "abc123") 42
             (ValueError "Assessment does not exist") _ eq_refl).
  - apply (init_assessment_tracker_failure_atomic (P := Demo.platform)
             (Demo.world_of [Demo.entry_of_bob "abc123"] []) Demo.request 42
             IntegrityError _ eq_refl).
Defined.

(** The entry initiated at a concrete store is found under its keys. *)
Lemma init_assessment_tracker_round_trip_witness :
  exists entry w',
    tracker_rows w' = [entry] /\
    get_assessment_tracker_entry 42 1 w' = (Ok entry, w') /\
    get_assessment_tracker_entry_by_commit "abc123" w' = (Ok entry, w').
Proof.
  destruct (init_assessment_tracker_round_trip (P := Demo.platform)
              Demo.empty_world Demo.request 42 true _ eq_refl)
    as (a & entry & Ha & Hrows & Hpair & _ & Hcommit).
  inversion Ha; subst a.
  exists entry. eexists. split; [exact Hrows|]. split; [exact Hpair|].
  apply Hcommit. intros e [].
Defined.

(** ** Written rows *)

Section Written.
Context {P : Platform}.

Lemma world_after_write_rows row n w :
  tracker_rows (world_after_write row n w) = merge_row row (tracker_rows w).
Proof. reflexivity. Qed.

Lemma world_after_write_lookup row n w :
  get_assessment_tracker_entry_by_id (AssessmentTracker.id row)
    (world_after_write row n w) = (Ok row, world_after_write row n w).
Proof.
  rewrite get_assessment_tracker_entry_by_id_find_eq, world_after_write_rows.
  now rewrite merge_row_lookup.
Qed.

Lemma merge_row_ids row rows :
  map AssessmentTracker.id (merge_row row rows) =
  if existsb (Z.eqb (AssessmentTracker.id row)) (map AssessmentTracker.id rows)
  then map AssessmentTracker.id rows
  else map AssessmentTracker.id rows ++ [AssessmentTracker.id row].
Proof.
  induction rows as [|r rows IH]; simpl; auto.
  rewrite (Z.eqb_sym (AssessmentTracker.id row)).
  destruct (Z.eqb_spec (AssessmentTracker.id r) (AssessmentTracker.id row))
    as [Heq|Hne]; simpl.
  - now rewrite Heq.
  - rewrite IH. now destruct (existsb _ _).
Qed.

Lemma merge_row_keys_unique row rows :
  NoDup (map AssessmentTracker.id rows) ->
  NoDup (map AssessmentTracker.id (merge_row row rows)).
Proof.
  intros Hnd. rewrite merge_row_ids.
  destruct (existsb _ _) eqn:E; auto.
  apply NoDup_app; auto.
  - repeat constructor. intros [].
  - intros x Hx [Hk|[]]. subst x.
    assert (existsb (Z.eqb (AssessmentTracker.id row))
              (map AssessmentTracker.id rows) = true); [|congruence].
    apply existsb_exists. exists (AssessmentTracker.id row).
    split; auto. apply Z.eqb_refl.
Qed.

(** Rewriting a stored row, under unique keys, touches that row only. *)
Lemma merge_row_stored row rows e :
  NoDup (map AssessmentTracker.id rows) -> In e rows ->
  AssessmentTracker.id row = AssessmentTracker.id e ->
  exists pre post,
    rows = pre ++ e :: post /\ merge_row row rows = pre ++ row :: post.
Proof.
  intros Hnd Hin Hid.
  pose proof (find_unique_key AssessmentTracker.id Z.eqb rows e Z.eqb_eq Hnd Hin)
    as Hfind.
  rewrite <- Hid in Hfind.
  destruct (merge_row_found row rows e Hfind) as (pre & post & H1 & H2 & _).
  eauto.
Qed.

End Written.

(** ** Commit updates, further *)

Section UpdateMore.
Context {P : Platform}.

(** C9, as the code has it: for an existing tracker entry,
    [update_assessment_log] rewrites that entry's row in place with the new
    [latest_commit], the clock reading as [last_updated] and the old log
    followed by exactly one record, which carries the new commit under
    ["commit"], the text of the new [last_updated] under ["timestamp"] and
    the caller's value under every other key; [id], [user_id],
    [assessment_id], [status] and [reviewer_id] of the entry, every other
    row and every other table stay as they were, and the update is
    committed.  That is so unless the new commit differs from the entry's
    and a stored entry carries it: then the store refuses the commit with
    [IntegrityError] and nothing is made durable. *)
Theorem update_assessment_log_frame
    (w : World) (entry_id : Z) (latest_commit : string)
    (update_logs : Dict.t json) (entry : AssessmentTracker.t) :
  get_assessment_tracker_entry_by_id entry_id w = (Ok entry, w) ->
  (update_refused latest_commit entry w = true ->
   exists w',
     update_assessment_log entry_id latest_commit update_logs w
       = (Raise IntegrityError, w') /\
     Session.committed (db w') = Session.committed (db w)) /\
  (update_refused latest_commit entry w = false ->
   exists pre post entry' record w',
     update_assessment_log entry_id latest_commit update_logs w = (Ok true, w') /\
     tracker_rows w = pre ++ entry :: post /\
     tracker_rows w' = pre ++ entry' :: post /\
     Session.committed (db w') = Session.pending (db w') /\
     AssessmentTracker.latest_commit entry' = latest_commit /\
     AssessmentTracker.last_updated entry' = utcnow_at (ticks w) /\
     AssessmentTracker.log entry' = AssessmentTracker.log entry ++ [record] /\
     Dict.get "commit" record = Some (JStr latest_commit) /\
     Dict.get "timestamp" record
       = Some (JStr (datetime_str (AssessmentTracker.last_updated entry'))) /\
     (forall k, k <> "commit" -> k <> "timestamp" ->
                Dict.get k record = Dict.get k update_logs) /\
     AssessmentTracker.id entry' = AssessmentTracker.id entry /\
     AssessmentTracker.user_id entry' = AssessmentTracker.user_id entry /\
     AssessmentTracker.assessment_id entry'
       = AssessmentTracker.assessment_id entry /\
     AssessmentTracker.status entry' = AssessmentTracker.status entry /\
     AssessmentTracker.reviewer_id entry' = AssessmentTracker.reviewer_id entry /\
     Tables.users (Session.pending (db w')) = Tables.users (Session.pending (db w)) /\
     Tables.reviewers (Session.pending (db w'))
       = Tables.reviewers (Session.pending (db w)) /\
     Tables.assessments (Session.pending (db w'))
       = Tables.assessments (Session.pending (db w)) /\
     Tables.badges (Session.pending (db w'))
       = Tables.badges (Session.pending (db w))).
Proof.
  intros Hget. apply get_assessment_tracker_entry_by_id_Ok in Hget as [Hfind _].
  pose proof (update_assessment_log_run w entry_id latest_commit update_logs _
                Hfind) as Hrun.
  split; intros Hc; rewrite Hc in Hrun.
  - eexists. split; [exact Hrun | reflexivity].
  - set (entry' := updated_row (ticks w) latest_commit update_logs entry) in *.
    assert (Hfind' : find (fun r => Z.eqb (AssessmentTracker.id r)
                                      (AssessmentTracker.id entry'))
                          (tracker_rows w) = Some entry).
    { apply find_some in Hfind as Hf. destruct Hf as [_ Hf].
      apply Z.eqb_eq in Hf.
      change (AssessmentTracker.id entry') with (AssessmentTracker.id entry).
      now rewrite Hf. }
    destruct (merge_row_found entry' _ _ Hfind')
      as (pre & post & Hrows & Hmerge & _).
    exists pre, post, entry'.
    exists (update_record (utcnow_at (ticks w)) latest_commit update_logs).
    eexists. split; [exact Hrun|].
    split; [exact Hrows|].
    split; [rewrite world_after_write_rows; exact Hmerge|].
    split; [reflexivity|]. split; [reflexivity|]. split; [reflexivity|].
    split; [reflexivity|].
    split; [unfold update_record; rewrite dict_get_set_other by discriminate;
            apply dict_get_set_same|].
    split; [unfold update_record; apply dict_get_set_same|].
    split; [intros k Hk Ht; unfold update_record;
            rewrite !dict_get_set_other by congruence; reflexivity|].
    repeat split.
Qed.

(** X6: the two failures of [update_assessment_log].  It raises [NotFound],
    leaving the world as it was, exactly when no stored entry has the id;
    it raises the store's [IntegrityError], after one clock reading,
    exactly when the entry it finds carries another commit than the new one
    and a stored entry carries the new one; it raises nothing else, and
    whatever it raises, the committed tables are those from before. *)
Theorem update_assessment_log_failures
    (w : World) (entry_id : Z) (latest_commit : string)
    (update_logs : Dict.t json) :
  ((forall r, In r (tracker_rows w) -> AssessmentTracker.id r <> entry_id) <->
   update_assessment_log entry_id latest_commit update_logs w
     = (Raise NotFound, w)) /\
  ((exists entry,
      get_assessment_tracker_entry_by_id entry_id w = (Ok entry, w) /\
      AssessmentTracker.latest_commit entry <> latest_commit /\
      exists other, In other (tracker_rows w) /\
                    AssessmentTracker.latest_commit other = latest_commit) <->
   fst (update_assessment_log entry_id latest_commit update_logs w)
     = Raise IntegrityError) /\
  (forall e w',
     update_assessment_log entry_id latest_commit update_logs w = (Raise e, w') ->
     Session.committed (db w') = Session.committed (db w) /\
     ((e = NotFound /\ w' = w) \/
      (e = IntegrityError /\ ticks w' = S (ticks w)))).
Proof.
  assert (Hrefused : forall entry,
    update_refused latest_commit entry w = true <->
    AssessmentTracker.latest_commit entry <> latest_commit /\
    exists other, In other (tracker_rows w) /\
                  AssessmentTracker.latest_commit other = latest_commit).
  { intros entry. unfold update_refused.
    rewrite andb_true_iff, negb_true_iff, String.eqb_neq, commit_carried_true.
    tauto. }
  destruct (find (fun r => Z.eqb (AssessmentTracker.id r) entry_id)
                 (tracker_rows w)) as [entry|] eqn:E.
  - pose proof (update_assessment_log_run w entry_id latest_commit update_logs
                  _ E) as Hrun.
    assert (Hget : get_assessment_tracker_entry_by_id entry_id w = (Ok entry, w))
      by now apply get_assessment_tracker_entry_by_id_find.
    apply find_some in E as [Hin Hid]. apply Z.eqb_eq in Hid.
    split; [|split].
    + split.
      * intros Hnone. exfalso. eapply Hnone; eauto.
      * rewrite Hrun. destruct (update_refused _ _ _); discriminate.
    + rewrite Hrun. split.
      * intros (entry0 & Hget0 & Hne & Hother).
        rewrite Hget in Hget0. inversion Hget0; subst entry0.
        now rewrite (proj2 (Hrefused entry) (conj Hne Hother)).
      * destruct (update_refused latest_commit entry w) eqn:Hc;
          [|discriminate].
        intros _. exists entry. split; [exact Hget|]. now apply Hrefused.
    + intros e w'. rewrite Hrun.
      destruct (update_refused latest_commit entry w); [|discriminate].
      intros [= <- <-]. split; [reflexivity|]. right. split; reflexivity.
  - pose proof (update_assessment_log_missing w entry_id latest_commit
                  update_logs E) as Hrun.
    split; [|split].
    + split; [intros _; exact Hrun|].
      intros _ r Hin Hid. apply (find_none _ _ E) in Hin.
      apply Z.eqb_neq in Hin. contradiction.
    + rewrite Hrun. split; [|discriminate].
      intros (entry0 & Hget0 & _).
      rewrite get_assessment_tracker_entry_by_id_find_eq, E in Hget0.
      discriminate.
    + intros e w'. rewrite Hrun. intros [= <- <-].
      split; [reflexivity|]. left. split; reflexivity.
Qed.

(** X7: after a commit update that the store accepts, the lookup by id
    returns the rewritten entry, and the record the update appended to its
    log carries the new commit under ["commit"] and the text of the row's
    new [last_updated] under ["timestamp"], also when the caller's fields
    had those keys, and every other key of the caller's fields with the
    caller's value. *)
Theorem update_assessment_log_record
    (w : World) (entry_id : Z) (latest_commit : string)
    (update_logs : Dict.t json) (entry : AssessmentTracker.t) :
  get_assessment_tracker_entry_by_id entry_id w = (Ok entry, w) ->
  update_refused latest_commit entry w = false ->
  exists entry' w' record,
    update_assessment_log entry_id latest_commit update_logs w = (Ok true, w') /\
    get_assessment_tracker_entry_by_id entry_id w' = (Ok entry', w') /\
    AssessmentTracker.log entry' = AssessmentTracker.log entry ++ [record] /\
    Dict.get "commit" record = Some (JStr latest_commit) /\
    Dict.get "timestamp" record
      = Some (JStr (datetime_str (AssessmentTracker.last_updated entry'))) /\
    (forall k, k <> "commit" -> k <> "timestamp" ->
               Dict.get k record = Dict.get k update_logs).
Proof.
  intros Hget Hfree.
  apply get_assessment_tracker_entry_by_id_Ok in Hget as [Hfind _].
  assert (Hid : AssessmentTracker.id entry = entry_id).
  { apply find_some in Hfind as [_ H]. lia. }
  exists (updated_row (ticks w) latest_commit update_logs entry).
  eexists. exists (update_record (utcnow_at (ticks w)) latest_commit update_logs).
  split; [apply (update_assessment_log_eq _ _ _ _ entry); assumption|].
  split; [|split; [reflexivity|split; [|split]]].
  - rewrite <- Hid at 1.
    apply (world_after_write_lookup
             (updated_row (ticks w) latest_commit update_logs entry)).
  - unfold update_record.
    rewrite dict_get_set_other by discriminate. apply dict_get_set_same.
  - unfold update_record. apply dict_get_set_same.
  - intros k Hc Ht. unfold update_record.
    rewrite !dict_get_set_other by congruence. reflexivity.
Qed.

(** What a row carries after a row with another commit has been written. *)
Lemma commit_carried_merge_row c row rows :
  AssessmentTracker.latest_commit row <> c ->
  commit_carried c rows = false ->
  commit_carried c (merge_row row rows) = false.
Proof.
  intros Hrow. induction rows as [|r rows IH]; simpl.
  - intros _. destruct (String.eqb_spec (AssessmentTracker.latest_commit row) c);
      [contradiction | reflexivity].
  - intros H. apply orb_false_iff in H as [Hr Hrest].
    destruct (Z.eqb (AssessmentTracker.id r) (AssessmentTracker.id row)); simpl.
    + destruct (String.eqb_spec (AssessmentTracker.latest_commit row) c);
        [contradiction | exact Hrest].
    + rewrite Hr. now apply IH.
Qed.

(** X8: two commit updates of a stored entry that the store accepts (the
    first commit is the entry's own or carried by no stored entry, the
    second is the first or carried by no stored entry) append their two
    records in the order of the calls, and the entry ends with the second
    commit; its status and reviewer are those it had, and no row is
    added. *)
Theorem update_assessment_log_twice
    (w : World) (entry_id : Z) (commit1 commit2 : string)
    (logs1 logs2 : Dict.t json) (entry : AssessmentTracker.t) :
  get_assessment_tracker_entry_by_id entry_id w = (Ok entry, w) ->
  update_refused commit1 entry w = false ->
  commit2 = commit1 \/ commit_carried commit2 (tracker_rows w) = false ->
  exists w1 w2 entry2,
    update_assessment_log entry_id commit1 logs1 w = (Ok true, w1) /\
    update_assessment_log entry_id commit2 logs2 w1 = (Ok true, w2) /\
    get_assessment_tracker_entry_by_id entry_id w2 = (Ok entry2, w2) /\
    AssessmentTracker.log entry2 =
      AssessmentTracker.log entry ++
        [update_record (utcnow_at (ticks w)) commit1 logs1;
         update_record (utcnow_at (S (ticks w))) commit2 logs2] /\
    AssessmentTracker.latest_commit entry2 = commit2 /\
    AssessmentTracker.status entry2 = AssessmentTracker.status entry /\
    AssessmentTracker.reviewer_id entry2 = AssessmentTracker.reviewer_id entry /\
    List.length (tracker_rows w2) = List.length (tracker_rows w).
Proof.
  intros Hget Hfree1 Hfree2.
  apply get_assessment_tracker_entry_by_id_Ok in Hget as [Hfind _].
  assert (Hid : AssessmentTracker.id entry = entry_id).
  { apply find_some in Hfind as [_ H]. lia. }
  set (e1 := updated_row (ticks w) commit1 logs1 entry).
  set (w1 := world_after_write e1 1 w).
  assert (Hfind1 : find (fun r => Z.eqb (AssessmentTracker.id r) entry_id)
                        (tracker_rows w1) = Some e1).
  { rewrite <- Hid. apply (merge_row_lookup e1). }
  assert (Hfree : update_refused commit2 e1 w1 = false).
  { unfold update_refused. change (AssessmentTracker.latest_commit e1) with commit1.
    destruct (String.eqb_spec commit1 commit2) as [Heq|Hne]; [reflexivity|].
    destruct Hfree2 as [Heq|Hfree2]; [congruence|].
    cbn [negb andb]. unfold w1. rewrite world_after_write_rows.
    now apply commit_carried_merge_row. }
  set (e2 := updated_row (ticks w1) commit2 logs2 e1).
  exists w1, (world_after_write e2 1 w1), e2.
  split; [apply (update_assessment_log_eq _ _ _ _ entry); assumption|].
  split; [apply (update_assessment_log_eq _ _ _ _ e1); assumption|].
  split; [|split; [|repeat split]].
  - rewrite <- Hid. apply (world_after_write_lookup e2).
  - simpl. rewrite <- app_assoc. reflexivity.
  - rewrite world_after_write_rows.
    assert (Hlen : forall row rows r,
              find (fun x => Z.eqb (AssessmentTracker.id x) (AssessmentTracker.id row))
                   rows = Some r ->
              List.length (merge_row row rows) = List.length rows).
    { intros row rows r Hf.
      destruct (merge_row_found row rows r Hf) as (pre & post & -> & -> & _).
      rewrite !length_app. reflexivity. }
    rewrite (Hlen e2 (tracker_rows w1) e1).
    + unfold w1. rewrite world_after_write_rows.
      apply (Hlen e1 _ entry). simpl. now rewrite Hid.
    + simpl. now rewrite Hid.
Qed.

End UpdateMore.

(** The frame property at a concrete store. *)
Lemma update_assessment_log_frame_witness :
  exists pre post entry' w',
    update_assessment_log (P := Demo.platform) 1 "def456"
        [("note", JStr "pushed")] Demo.under_review = (Ok true, w') /\
    tracker_rows Demo.under_review
      = pre ++ Demo.entry_with "Under review" (Some 7) :: post /\
    tracker_rows w' = pre ++ entry' :: post /\
    AssessmentTracker.status entry' = "Under review" /\
    AssessmentTracker.reviewer_id entry' = Some 7.
Proof.
  destruct (update_assessment_log_frame (P := Demo.platform)
              Demo.under_review 1 "def456" [("note", JStr "pushed")]
              (Demo.entry_with "Under review" (Some 7)) eq_refl)
    as [_ Hfree].
  destruct (Hfree eq_refl)
    as (pre & post & entry' & record & w' & H1 & H2 & H3 & _ & _ & _ & _ & _
        & _ & _ & _ & _ & _ & H4 & H5 & _).
  exists pre, post, entry', w'. repeat split; assumption.
Defined.

(** C9 as stated fails: entry 1 exists, but an update to the commit that
    entry 2 carries does not update it: the store refuses the commit, and
    the stored entry 1 keeps its commit and its log. *)
Lemma update_assessment_log_commit_refused :
  fst (get_assessment_tracker_entry_by_id 1
         (Demo.world_of [Demo.entry_with "Under review" (Some 7);
                         Demo.entry_of_bob "def456"] []))
    = Ok (Demo.entry_with "Under review" (Some 7)) /\
  fst (update_assessment_log (P := Demo.platform) 1 "def456" []
         (Demo.world_of [Demo.entry_with "Under review" (Some 7);
                         Demo.entry_of_bob "def456"] []))
    = Raise IntegrityError /\
  Tables.assessment_tracker
    (Session.committed
       (db (snd (update_assessment_log (P := Demo.platform) 1 "def456" []
                   (Demo.world_of [Demo.entry_with "Under review" (Some 7);
                                   Demo.entry_of_bob "def456"] [])))))
    = [Demo.entry_with "Under review" (Some 7); Demo.entry_of_bob "def456"].
Proof. repeat split. Qed.

(** Updating an id that is not stored, at a concrete store. *)
Lemma update_assessment_log_failures_witness :
  update_assessment_log (P := Demo.platform) 5 "def456" [] Demo.under_review
    = (Raise NotFound, Demo.under_review).
Proof.
  apply (proj1 (proj1 (update_assessment_log_failures (P := Demo.platform)
                         Demo.under_review 5 "def456" []))).
  intros r [<-|[]]. discriminate.
Defined.

(** A caller who supplies its own ["commit"] field sees it replaced. *)
Lemma update_assessment_log_record_witness :
  exists record,
    Dict.get "commit" record = Some (JStr "def456") /\
    Dict.get "note" record
      = Dict.get "note" [("commit", JStr "forged"); ("note", JStr "pushed")].
Proof.
  destruct (update_assessment_log_record (P := Demo.platform)
              Demo.under_review 1 "def456"
              [("commit", JStr "forged"); ("note", JStr "pushed")]
              (Demo.entry_with "Under review" (Some 7)) eq_refl eq_refl)
    as (entry' & w' & record & _ & _ & _ & Hc & _ & Hother).
  exists record. split; [exact Hc|]. apply Hother; discriminate.
Defined.

(** Two updates at a concrete store leave a log of three records. *)
Lemma update_assessment_log_twice_witness :
  exists w2 entry2,
    get_assessment_tracker_entry_by_id 1 w2 = (Ok entry2, w2) /\
    List.length (AssessmentTracker.log entry2) = 3%nat /\
    AssessmentTracker.latest_commit entry2 = "c2".
Proof.
  destruct (update_assessment_log_twice (P := Demo.platform)
              Demo.under_review 1 "c1" "c2" [] []
              (Demo.entry_with "Under review" (Some 7)) eq_refl eq_refl
              (or_intror eq_refl))
    as (w1 & w2 & entry2 & _ & _ & Hget & Hlog & Hc & _).
  exists w2, entry2. split; [exact Hget|]. split; [|exact Hc].
  rewrite Hlog. reflexivity.
Defined.

(** ** Assignment *)

Section AssignMore.
Context {P : Platform}.

(** X9: for a stored entry, under unique primary keys, [assign_reviewer]
    succeeds and rewrites that entry's row only: the reviewer is set, the
    status is [Under review], [last_updated] is the second of the two clock
    readings the call makes, the log gains one record carrying the reviewer
    id, the reviewer username, the unchanged commit and that timestamp; the
    other rows and tables are untouched and everything is committed. *)
Theorem assign_reviewer_frame
    (w : World) (entry : AssessmentTracker.t) (reviewer_info : ReviewerInfo.t) :
  primary_keys_unique w ->
  In entry (tracker_rows w) ->
  exists pre post entry' record w',
    assign_reviewer entry reviewer_info w = (Ok true, w') /\
    tracker_rows w = pre ++ entry :: post /\
    tracker_rows w' = pre ++ entry' :: post /\
    ticks w' = S (S (ticks w)) /\
    session_clean w' /\
    AssessmentTracker.reviewer_id entry'
      = Some (ReviewerInfo.reviewer_id reviewer_info) /\
    AssessmentTracker.status entry' = "Under review" /\
    AssessmentTracker.last_updated entry' = utcnow_at (S (ticks w)) /\
    AssessmentTracker.latest_commit entry'
      = AssessmentTracker.latest_commit entry /\
    AssessmentTracker.id entry' = AssessmentTracker.id entry /\
    AssessmentTracker.user_id entry' = AssessmentTracker.user_id entry /\
    AssessmentTracker.assessment_id entry'
      = AssessmentTracker.assessment_id entry /\
    AssessmentTracker.log entry' = AssessmentTracker.log entry ++ [record] /\
    Dict.get "reviewer_id" record
      = Some (JInt (ReviewerInfo.reviewer_id reviewer_info)) /\
    Dict.get "reviewer_username" record
      = Some (JStr (ReviewerInfo.reviewer_username reviewer_info)) /\
    Dict.get "commit" record
      = Some (JStr (AssessmentTracker.latest_commit entry)) /\
    Dict.get "timestamp" record
      = Some (JStr (datetime_str (utcnow_at (S (ticks w))))) /\
    Tables.users (Session.pending (db w')) = Tables.users (Session.pending (db w)) /\
    Tables.reviewers (Session.pending (db w'))
      = Tables.reviewers (Session.pending (db w)) /\
    Tables.assessments (Session.pending (db w'))
      = Tables.assessments (Session.pending (db w)) /\
    Tables.badges (Session.pending (db w')) = Tables.badges (Session.pending (db w)).
Proof.
  intros Hkeys Hin.
  destruct (merge_row_stored (assigned_row (ticks w) reviewer_info entry)
              (tracker_rows w) entry Hkeys Hin eq_refl)
    as (pre & post & Hrows & Hmerge).
  exists pre, post, (assigned_row (ticks w) reviewer_info entry).
  exists (update_record (utcnow_at (S (ticks w)))
            (AssessmentTracker.latest_commit entry)
            (ReviewerInfo.to_dict reviewer_info)).
  eexists. split; [apply assign_reviewer_eq|].
  split; [exact Hrows|]. split; [rewrite world_after_write_rows; exact Hmerge|].
  repeat split.
Qed.

(** X10: assigning a second reviewer to an entry that already has one is
    not refused: the second reviewer replaces the first on the row, and the
    log keeps the records of both assignments in order. *)
Theorem assign_reviewer_again_overwrites
    (w : World) (entry : AssessmentTracker.t) (first second : ReviewerInfo.t) :
  exists w1 entry1 w2 entry2,
    assign_reviewer entry first w = (Ok true, w1) /\
    get_assessment_tracker_entry_by_id (AssessmentTracker.id entry) w1
      = (Ok entry1, w1) /\
    assign_reviewer entry1 second w1 = (Ok true, w2) /\
    get_assessment_tracker_entry_by_id (AssessmentTracker.id entry) w2
      = (Ok entry2, w2) /\
    AssessmentTracker.reviewer_id entry1
      = Some (ReviewerInfo.reviewer_id first) /\
    AssessmentTracker.reviewer_id entry2
      = Some (ReviewerInfo.reviewer_id second) /\
    AssessmentTracker.status entry2 = "Under review" /\
    AssessmentTracker.log entry2 =
      AssessmentTracker.log entry ++
        [update_record (utcnow_at (S (ticks w)))
           (AssessmentTracker.latest_commit entry) (ReviewerInfo.to_dict first);
         update_record (utcnow_at (S (S (S (ticks w)))))
           (AssessmentTracker.latest_commit entry) (ReviewerInfo.to_dict second)].
Proof.
  set (e1 := assigned_row (ticks w) first entry).
  set (w1 := world_after_write e1 2 w).
  set (e2 := assigned_row (ticks w1) second e1).
  exists w1, e1, (world_after_write e2 2 w1), e2.
  split; [apply assign_reviewer_eq|].
  split; [apply (world_after_write_lookup e1)|].
  split; [apply assign_reviewer_eq|].
  split; [apply (world_after_write_lookup e2)|].
  repeat split. simpl. rewrite <- app_assoc. reflexivity.
Qed.

End AssignMore.

(** Assignment at a concrete store. *)
Lemma assign_reviewer_frame_witness :
  exists entry' w',
    assign_reviewer (P := Demo.platform) (Demo.entry_with "Under review" (Some 7))
        (ReviewerInfo.mk 8 "carol") Demo.under_review = (Ok true, w') /\
    tracker_rows w' = [entry'] /\
    AssessmentTracker.reviewer_id entry' = Some 8 /\
    List.length (AssessmentTracker.log entry') = 2%nat.
Proof.
  destruct (assign_reviewer_frame (P := Demo.platform) Demo.under_review
              (Demo.entry_with "Under review" (Some 7))
              (ReviewerInfo.mk 8 "carol"))
    as (pre & post & entry' & record & w' & Hrun & Hrows & Hrows' & _ & _
        & Hrid & _ & _ & _ & _ & _ & _ & Hlog & _).
  - unfold primary_keys_unique. simpl. repeat constructor. intros [].
  - now left.
  - destruct pre as [|x pre]; [|destruct pre; discriminate].
    inversion Hrows; subst post.
    exists entry', w'. repeat split; auto. rewrite Hlog. reflexivity.
Defined.

(** ** Approval, further *)

Section ApproveMore.
Context {P : Platform}.

Lemma find_merge_row (p : AssessmentTracker.t -> bool) row rows e :
  NoDup (map AssessmentTracker.id rows) ->
  find p rows = Some e ->
  AssessmentTracker.id row = AssessmentTracker.id e ->
  p row = true ->
  find p (merge_row row rows) = Some row.
Proof.
  intros Hnd Hfind Hid Hp. induction rows as [|r rows IH]; [discriminate|].
  simpl in Hfind. inversion Hnd as [|? ? Hnotin Hnd']; subst. simpl.
  destruct (p r) eqn:Epr.
  - inversion Hfind; subst r. rewrite Hid, Z.eqb_refl. simpl. now rewrite Hp.
  - destruct (Z.eqb_spec (AssessmentTracker.id r) (AssessmentTracker.id row))
      as [Heq|Hne].
    + exfalso. apply Hnotin. rewrite Heq, Hid.
      apply find_some in Hfind as [Hin _]. now apply in_map.
    + simpl. rewrite Epr. now apply IH.
Qed.

(** A successful approval, as an equation. *)
Lemma approve_assessment_succeeds
    w trainee reviewer reviewer_username assessment entry assigned_id
    reviewer_real reviewer_real_user :
  Reviewers.user_id reviewer <> Users.id trainee ->
  get_assessment_tracker_entry (Users.id trainee) (Assessments.id assessment) w
    = (Ok entry, w) ->
  AssessmentTracker.reviewer_id entry = Some assigned_id ->
  AssessmentTracker.status entry = "Under review" ->
  verify_check entry = true ->
  get_reviewer_by_id assigned_id w = (Ok reviewer_real, w) ->
  get_user_by_id (Reviewers.user_id reviewer_real) w
    = (Ok reviewer_real_user, w) ->
  Users.username reviewer_real_user = reviewer_username ->
  approve_assessment trainee reviewer reviewer_username assessment w
    = (Ok true, world_after_write (approved_row (ticks w) reviewer entry) 2 w).
Proof.
  intros Hself He Hrid Hst Hvc Hrr Hru Hname.
  rewrite approve_assessment_unfold.
  destruct (Z.eqb_spec (Reviewers.user_id reviewer) (Users.id trainee));
    [contradiction|].
  rewrite He, Hrid, Hst, Hvc, Hrr, Hru, Hname, !String.eqb_refl. reflexivity.
Qed.

(** The failures of an approval. *)
Lemma approve_assessment_Raise
    w trainee reviewer reviewer_username assessment e w' :
  approve_assessment trainee reviewer reviewer_username assessment w
    = (Raise e, w') ->
  w' = w /\
  In e [SelfReview; NotFound; NoReviewerAssigned; NotUnderReview; ChecksFailed;
        ValueError "Reviewer does not exist"; ValueError "User ID does not exist";
        ReviewerMismatch].
Proof.
  rewrite approve_assessment_unfold.
  destruct (Z.eqb _ _); [intros [= <- <-]; split; [reflexivity | simpl; tauto]|].
  destruct (get_assessment_tracker_entry_cases (Users.id trainee)
              (Assessments.id assessment) w) as [(entry & -> & _)| ->];
    [|intros [= <- <-]; split; [reflexivity | simpl; tauto]].
  destruct (AssessmentTracker.reviewer_id entry) as [rid|];
    [|intros [= <- <-]; split; [reflexivity | simpl; tauto]].
  destruct (negb (String.eqb _ _)); [intros [= <- <-]; split; [reflexivity | simpl; tauto]|].
  destruct (negb (verify_check entry)); [intros [= <- <-]; split; [reflexivity | simpl; tauto]|].
  destruct (get_reviewer_by_id_cases rid w) as [(rr & -> & _)| ->];
    [|intros [= <- <-]; split; [reflexivity | simpl; tauto]].
  destruct (get_user_by_id_cases (Reviewers.user_id rr) w) as [(ru & ->)| ->];
    [|intros [= <- <-]; split; [reflexivity | simpl; tauto]].
  destruct (negb (String.eqb _ _)); [intros [= <- <-]; split; [reflexivity | simpl; tauto]|discriminate].
Qed.

(** X11: when every check passes, [approve_assessment] succeeds and, under
    unique primary keys, rewrites the entry's row only: status [Approved],
    [last_updated] the first of two clock readings, one more log record;
    the recorded reviewer, the commit and the keys of the row stay, and so
    do the other rows. *)
Theorem approve_assessment_success_frame
    (w : World) (trainee : Users.t) (reviewer : Reviewers.t)
    (reviewer_username : string) (assessment : Assessments.t)
    (entry : AssessmentTracker.t) (assigned_id : Z)
    (reviewer_real : Reviewers.t) (reviewer_real_user : Users.t) :
  primary_keys_unique w ->
  Reviewers.user_id reviewer <> Users.id trainee ->
  get_assessment_tracker_entry (Users.id trainee) (Assessments.id assessment) w
    = (Ok entry, w) ->
  AssessmentTracker.reviewer_id entry = Some assigned_id ->
  AssessmentTracker.status entry = "Under review" ->
  verify_check entry = true ->
  get_reviewer_by_id assigned_id w = (Ok reviewer_real, w) ->
  get_user_by_id (Reviewers.user_id reviewer_real) w
    = (Ok reviewer_real_user, w) ->
  Users.username reviewer_real_user = reviewer_username ->
  exists pre post entry' w',
    approve_assessment trainee reviewer reviewer_username assessment w
      = (Ok true, w') /\
    tracker_rows w = pre ++ entry :: post /\
    tracker_rows w' = pre ++ entry' :: post /\
    get_assessment_tracker_entry (Users.id trainee) (Assessments.id assessment) w'
      = (Ok entry', w') /\
    session_clean w' /\
    ticks w' = S (S (ticks w)) /\
    AssessmentTracker.status entry' = "Approved" /\
    AssessmentTracker.last_updated entry' = utcnow_at (ticks w) /\
    AssessmentTracker.reviewer_id entry' = Some assigned_id /\
    AssessmentTracker.latest_commit entry'
      = AssessmentTracker.latest_commit entry /\
    AssessmentTracker.log entry' =
      AssessmentTracker.log entry ++
        [approval_record (utcnow_at (S (ticks w)))
           (AssessmentTracker.latest_commit entry) reviewer].
Proof.
  intros Hkeys Hself He Hrid Hst Hvc Hrr Hru Hname.
  assert (Hin : In entry (tracker_rows w)).
  { destruct (get_assessment_tracker_entry_cases (Users.id trainee)
                (Assessments.id assessment) w) as [(e0 & He0 & Hin & _)|He0];
      rewrite He0 in He; inversion He; subst; auto. }
  set (entry' := approved_row (ticks w) reviewer entry).
  destruct (merge_row_stored entry' (tracker_rows w) entry Hkeys Hin eq_refl)
    as (pre & post & Hrows & Hmerge).
  exists pre, post, entry', (world_after_write entry' 2 w).
  split; [eapply approve_assessment_succeeds; eauto|].
  split; [exact Hrows|]. split; [rewrite world_after_write_rows; exact Hmerge|].
  split; [|repeat split; auto].
  rewrite get_assessment_tracker_entry_find in He |- *.
  rewrite world_after_write_rows.
  destruct (find _ (tracker_rows w)) as [e0|] eqn:Efind; [|discriminate].
  inversion He; subst e0.
  rewrite (find_merge_row _ entry' (tracker_rows w) entry Hkeys Efind eq_refl).
  - reflexivity.
  - apply find_some in Efind as [_ Hp]. exact Hp.
Qed.

(** The two lookups of the recorded reviewer fail exactly when the row is
    missing. *)
Lemma get_reviewer_by_id_missing reviewer_id w :
  (forall r, In r (Tables.reviewers (Session.pending (db w))) ->
             Reviewers.id r <> reviewer_id) <->
  get_reviewer_by_id reviewer_id w
    = (Raise (ValueError "Reviewer does not exist"), w).
Proof.
  unfold get_reviewer_by_id. run.
  destruct (find _ _) as [r|] eqn:E; split.
  - intros Hnone. apply find_some in E as [Hin Hid]. apply Z.eqb_eq in Hid.
    exfalso. eapply Hnone; eauto.
  - discriminate.
  - reflexivity.
  - intros _ r Hin Hid. apply (find_none _ _ E) in Hin.
    apply Z.eqb_neq in Hin. contradiction.
Qed.

Lemma get_user_by_id_missing user_id w :
  (forall u, In u (Tables.users (Session.pending (db w))) ->
             Users.id u <> user_id) <->
  get_user_by_id user_id w = (Raise (ValueError "User ID does not exist"), w).
Proof.
  unfold get_user_by_id. run.
  destruct (find _ _) as [u|] eqn:E; split.
  - intros Hnone. apply find_some in E as [Hin Hid]. apply Z.eqb_eq in Hid.
    exfalso. eapply Hnone; eauto.
  - discriminate.
  - reflexivity.
  - intros _ u Hin Hid. apply (find_none _ _ E) in Hin.
    apply Z.eqb_neq in Hin. contradiction.
Qed.

(** X12: an [approve_assessment] that raises has changed nothing, clock
    included, and raises one of eight errors: the six of the precondition
    chain, or one of the two errors of the lookups of the recorded reviewer.
    ["Reviewer does not exist"] is raised exactly when the earlier checks
    pass and no reviewer row has the id recorded on the entry;
    ["User ID does not exist"] exactly when the earlier checks pass, the
    recorded reviewer is found and no user row has that reviewer's
    [user_id]. *)
Theorem approve_assessment_failure_atomic
    (w : World) (trainee : Users.t) (reviewer : Reviewers.t)
    (reviewer_username : string) (assessment : Assessments.t) :
  (forall e w',
     approve_assessment trainee reviewer reviewer_username assessment w
       = (Raise e, w') ->
     w' = w /\
     In e [SelfReview; NotFound; NoReviewerAssigned; NotUnderReview;
           ChecksFailed; ValueError "Reviewer does not exist";
           ValueError "User ID does not exist"; ReviewerMismatch]) /\
  (approve_assessment trainee reviewer reviewer_username assessment w
     = (Raise (ValueError "Reviewer does not exist"), w) <->
   Reviewers.user_id reviewer <> Users.id trainee /\
   exists entry assigned_id,
     get_assessment_tracker_entry (Users.id trainee) (Assessments.id assessment)
       w = (Ok entry, w) /\
     AssessmentTracker.reviewer_id entry = Some assigned_id /\
     AssessmentTracker.status entry = "Under review" /\
     verify_check entry = true /\
     forall r, In r (Tables.reviewers (Session.pending (db w))) ->
               Reviewers.id r <> assigned_id) /\
  (approve_assessment trainee reviewer reviewer_username assessment w
     = (Raise (ValueError "User ID does not exist"), w) <->
   Reviewers.user_id reviewer <> Users.id trainee /\
   exists entry assigned_id reviewer_real,
     get_assessment_tracker_entry (Users.id trainee) (Assessments.id assessment)
       w = (Ok entry, w) /\
     AssessmentTracker.reviewer_id entry = Some assigned_id /\
     AssessmentTracker.status entry = "Under review" /\
     verify_check entry = true /\
     get_reviewer_by_id assigned_id w = (Ok reviewer_real, w) /\
     forall u, In u (Tables.users (Session.pending (db w))) ->
               Users.id u <> Reviewers.user_id reviewer_real).
Proof.
  split; [intros e w'; apply approve_assessment_Raise|].
  rewrite approve_assessment_unfold.
  unfold SelfReview, NotFound, NoReviewerAssigned, NotUnderReview, ChecksFailed,
    ReviewerMismatch.
  destruct (Z.eqb_spec (Reviewers.user_id reviewer) (Users.id trainee))
    as [Hself|Hself].
  { split; (split; [discriminate | intros [H _]; contradiction]). }
  destruct (get_assessment_tracker_entry_cases (Users.id trainee)
              (Assessments.id assessment) w) as [(entry & He & _) | He];
    rewrite He.
  2:{ unfold NotFound.
      split; (split; [discriminate|]).
      - intros (_ & entry & rid & H & _). discriminate.
      - intros (_ & entry & rid & rr & H & _). discriminate. }
  destruct (AssessmentTracker.reviewer_id entry) as [rid|] eqn:Hrid.
  2:{ split; (split; [discriminate|]).
      - intros (_ & entry0 & rid & H & Hr & _).
        inversion H; subst entry0. congruence.
      - intros (_ & entry0 & rid & rr & H & Hr & _).
        inversion H; subst entry0. congruence. }
  destruct (String.eqb_spec (AssessmentTracker.status entry) "Under review")
    as [Hst|Hst]; cbn [negb].
  2:{ split; (split; [discriminate|]).
      - intros (_ & entry0 & rid0 & H & _ & Hs & _).
        inversion H; subst entry0. contradiction.
      - intros (_ & entry0 & rid0 & rr & H & _ & Hs & _).
        inversion H; subst entry0. contradiction. }
  destruct (verify_check entry) eqn:Hvc; cbn [negb].
  2:{ split; (split; [discriminate|]).
      - intros (_ & entry0 & rid0 & H & _ & _ & Hv & _).
        inversion H; subst entry0. congruence.
      - intros (_ & entry0 & rid0 & rr & H & _ & _ & Hv & _).
        inversion H; subst entry0. congruence. }
  destruct (get_reviewer_by_id_cases rid w) as [(rr & Hrr & _) | Hrr];
    rewrite Hrr.
  2:{ split; split.
      - intros _. split; [exact Hself|]. exists entry, rid.
        repeat split; auto. now apply get_reviewer_by_id_missing.
      - reflexivity.
      - discriminate.
      - intros (_ & entry0 & rid0 & rr & H & Hr & _ & _ & Hg & _).
        inversion H; subst entry0. rewrite Hrid in Hr. inversion Hr; subst rid0.
        rewrite Hrr in Hg. discriminate. }
  assert (Hfound : ~ (forall r, In r (Tables.reviewers (Session.pending (db w))) ->
                                Reviewers.id r <> rid)).
  { intros Hnone. apply get_reviewer_by_id_missing in Hnone.
    rewrite Hrr in Hnone. discriminate. }
  destruct (get_user_by_id_cases (Reviewers.user_id rr) w) as [(ru & Hru) | Hru];
    rewrite Hru.
  - split; split.
    + destruct (negb _); discriminate.
    + intros (_ & entry0 & rid0 & H & Hr & _ & _ & Hnone).
      inversion H; subst entry0. rewrite Hrid in Hr. inversion Hr; subst rid0.
      contradiction.
    + destruct (negb _); discriminate.
    + intros (_ & entry0 & rid0 & rr0 & H & Hr & _ & _ & Hg & Hnone).
      inversion H; subst entry0. rewrite Hrid in Hr. inversion Hr; subst rid0.
      rewrite Hrr in Hg. inversion Hg; subst rr0.
      apply get_user_by_id_missing in Hnone. rewrite Hru in Hnone.
      discriminate.
  - split; split.
    + discriminate.
    + intros (_ & entry0 & rid0 & H & Hr & _ & _ & Hnone).
      inversion H; subst entry0. rewrite Hrid in Hr. inversion Hr; subst rid0.
      contradiction.
    + intros _. split; [exact Hself|]. exists entry, rid, rr.
      repeat split; auto. now apply get_user_by_id_missing.
    + reflexivity.
Qed.

(** X13: an approved entry cannot be approved again: after a successful
    [approve_assessment] every further call for the same trainee and
    assessment by a reviewer other than the trainee fails with
    [NotUnderReview] and changes nothing. *)
Theorem approve_assessment_twice_refused
    (w : World) (trainee : Users.t) (reviewer : Reviewers.t)
    (reviewer_username : string) (assessment : Assessments.t)
    (b : bool) (w' : World) :
  primary_keys_unique w ->
  approve_assessment trainee reviewer reviewer_username assessment w
    = (Ok b, w') ->
  forall (reviewer2 : Reviewers.t) (reviewer_username2 : string),
    Reviewers.user_id reviewer2 <> Users.id trainee ->
    approve_assessment trainee reviewer2 reviewer_username2 assessment w'
      = (Raise NotUnderReview, w').
Proof.
  intros Hkeys Hrun reviewer2 reviewer_username2 Hself.
  pose proof Hrun as Hrun'. rewrite approve_assessment_unfold in Hrun'.
  destruct (Z.eqb _ _); [discriminate|].
  rewrite get_assessment_tracker_entry_find in Hrun'.
  destruct (find _ (tracker_rows w)) as [entry|] eqn:Efind; [|discriminate].
  destruct (AssessmentTracker.reviewer_id entry) as [rid|] eqn:Erid;
    [|discriminate].
  apply approve_assessment_Ok in Hrun as (entry0 & He0 & _ & _ & _ & ->).
  rewrite get_assessment_tracker_entry_find, Efind in He0.
  inversion He0; subst entry0. clear Hrun'.
  set (entry' := approved_row (ticks w) reviewer entry).
  rewrite approve_assessment_unfold.
  destruct (Z.eqb_spec (Reviewers.user_id reviewer2) (Users.id trainee));
    [contradiction|].
  rewrite get_assessment_tracker_entry_find, world_after_write_rows.
  rewrite (find_merge_row _ entry' (tracker_rows w) entry Hkeys Efind eq_refl).
  - simpl. rewrite Erid. reflexivity.
  - apply find_some in Efind as [_ Hp]. exact Hp.
Qed.

(** X14: a freshly initiated entry has no reviewer: an approval attempted
    right after [init_assessment_tracker], by a reviewer other than the
    trainee, fails with [NoReviewerAssigned] and changes nothing. *)
Theorem approve_assessment_after_init_refused
    (w : World) (init_request : InitRequest.t) (trainee : Users.t)
    (assessment : Assessments.t) (b : bool) (w' : World) :
  get_assessment_by_name (InitRequest.assessment_name init_request) w
    = (Ok assessment, w) ->
  init_assessment_tracker init_request (Users.id trainee) w = (Ok b, w') ->
  forall (reviewer : Reviewers.t) (reviewer_username : string),
    Reviewers.user_id reviewer <> Users.id trainee ->
    approve_assessment trainee reviewer reviewer_username assessment w'
      = (Raise NoReviewerAssigned, w').
Proof.
  intros Ha Hinit reviewer reviewer_username Hself.
  destruct (init_assessment_tracker_cases w init_request (Users.id trainee))
    as [[Ha' H] | [(a & entry & Ha' & He & H)
                  | [(a & Ha' & He & Hc & H) | (a & Ha' & He & Hc & H)]]];
    rewrite H in Hinit; inversion Hinit; subst b w'.
  rewrite Ha in Ha'. inversion Ha'; subst a.
  rewrite get_assessment_tracker_entry_find in He.
  destruct (find _ (tracker_rows w)) eqn:Epair; [discriminate|].
  rewrite approve_assessment_unfold.
  destruct (Z.eqb_spec (Reviewers.user_id reviewer) (Users.id trainee));
    [contradiction|].
  rewrite get_assessment_tracker_entry_find.
  change (tracker_rows (world_after_insert _ 2 w))
    with (tracker_rows w ++
            [initiated_row (ticks w) (next_id (tracker_rows w)) init_request
               (Users.id trainee) (Assessments.id assessment)]).
  rewrite (find_app_None _ _ _ Epair). simpl. rewrite !Z.eqb_refl. reflexivity.
Qed.

End ApproveMore.

(** ** The moves of the status *)

Section StatusMoves.
Context {P : Platform}.

Lemma merge_row_statuses row rows e :
  find (fun r => Z.eqb (AssessmentTracker.id r) (AssessmentTracker.id row)) rows
    = Some e ->
  AssessmentTracker.status row = AssessmentTracker.status e ->
  map (fun r => (AssessmentTracker.id r, AssessmentTracker.status r))
      (merge_row row rows)
  = map (fun r => (AssessmentTracker.id r, AssessmentTracker.status r)) rows.
Proof.
  intros Hfind Hst.
  destruct (merge_row_found row rows e Hfind) as (pre & post & -> & -> & _).
  rewrite !map_app. simpl. rewrite Hst.
  apply find_some in Hfind as [_ Hid]. apply Z.eqb_eq in Hid.
  now rewrite Hid.
Qed.

(** An initiation leaves the stored rows alone and adds at most one row,
    with status [Initiated]. *)
Lemma init_assessment_tracker_adds w init_request user_id :
  tracker_rows (snd (init_assessment_tracker init_request user_id w))
    = tracker_rows w \/
  exists entry,
    tracker_rows (snd (init_assessment_tracker init_request user_id w))
      = tracker_rows w ++ [entry] /\
    AssessmentTracker.status entry = "Initiated".
Proof.
  destruct (init_assessment_tracker_rows w init_request user_id)
    as [-> | (a & _ & Hrows)]; [now left|].
  right. eexists. split; [exact Hrows | reflexivity].
Qed.

(** A commit update changes no key and no status. *)
Lemma update_assessment_log_statuses w entry_id latest_commit update_logs :
  map (fun r => (AssessmentTracker.id r, AssessmentTracker.status r))
      (tracker_rows
         (snd (update_assessment_log entry_id latest_commit update_logs w)))
  = map (fun r => (AssessmentTracker.id r, AssessmentTracker.status r))
        (tracker_rows w).
Proof.
  destruct (find (fun r => Z.eqb (AssessmentTracker.id r) entry_id)
                 (tracker_rows w)) as [entry|] eqn:E.
  - rewrite (update_assessment_log_rows _ _ _ _ _ E).
    apply (merge_row_statuses _ _ entry); [|reflexivity].
    apply find_some in E as E'. destruct E' as [_ Hid].
    apply Z.eqb_eq in Hid. simpl. now rewrite Hid.
  - now rewrite (update_assessment_log_missing _ _ _ _ E).
Qed.

Lemma never_backward_statuses rows rows' :
  map (fun r => (AssessmentTracker.id r, AssessmentTracker.status r)) rows'
    = map (fun r => (AssessmentTracker.id r, AssessmentTracker.status r)) rows ->
  never_backward rows rows'.
Proof.
  intros Hmap. exists rows', []. split; [now rewrite app_nil_r|].
  revert rows' Hmap. induction rows as [|r rows IH]; intros [|r' rows'] Hmap;
    try discriminate; constructor.
  - simpl in Hmap. injection Hmap as Hid Hst Hrest.
    split; [exact Hid|]. rewrite Hst. apply status_forward_refl.
  - apply IH. simpl in Hmap. now injection Hmap.
Qed.

(** An approval either fails and changes nothing, or rewrites one row from
    [Under review] to [Approved]. *)
Lemma approve_assessment_moves w trainee reviewer reviewer_username assessment :
  primary_keys_unique w ->
  ((exists e, fst (approve_assessment trainee reviewer reviewer_username
                     assessment w) = Raise e) /\
   snd (approve_assessment trainee reviewer reviewer_username assessment w) = w)
  \/
  (fst (approve_assessment trainee reviewer reviewer_username assessment w)
     = Ok true /\
   exists pre entry entry' post,
     tracker_rows w = pre ++ entry :: post /\
     tracker_rows
       (snd (approve_assessment trainee reviewer reviewer_username assessment w))
       = pre ++ entry' :: post /\
     AssessmentTracker.id entry' = AssessmentTracker.id entry /\
     AssessmentTracker.status entry = "Under review" /\
     AssessmentTracker.status entry' = "Approved").
Proof.
  intros Hkeys.
  destruct (approve_assessment trainee reviewer reviewer_username assessment w)
    as [[b|e] w'] eqn:Hrun.
  - right. apply approve_assessment_Ok in Hrun as (entry & _ & Hin & Hst & -> & ->).
    split; [reflexivity|].
    pose proof (find_by_unique_id _ _ Hkeys Hin) as Hfind.
    destruct (merge_row_found (approved_row (ticks w) reviewer entry) _ _ Hfind)
      as (pre & post & Hrows & Hmerge & _).
    exists pre, entry, (approved_row (ticks w) reviewer entry), post.
    cbn [snd]. rewrite world_after_write_rows.
    split; [exact Hrows|]. split; [exact Hmerge|].
    split; [reflexivity|]. split; [exact Hst | reflexivity].
  - left. apply approve_assessment_Raise in Hrun as [-> _].
    split; [now exists e | reflexivity].
Qed.

(** C1, as the code has it: initiation, commit updates and approval never
    move the status of a row back along
    [Initiated -> Under review -> Approved].  Initiation leaves the stored
    rows as they are and adds at most one row, with status [Initiated];
    a commit update changes the status of no row; an approval (given unique
    primary keys) either fails and changes nothing, or turns the status of
    exactly one row from [Under review] into [Approved].  But
    [assign_reviewer] has no precondition on the status: it always succeeds
    and leaves the entry [Under review], whatever its status was. *)
Theorem status_forward_except_assignment (w : World) :
  (forall init_request user_id,
     let rows' :=
       tracker_rows (snd (init_assessment_tracker init_request user_id w)) in
     never_backward (tracker_rows w) rows' /\
     (rows' = tracker_rows w \/
      exists entry,
        rows' = tracker_rows w ++ [entry] /\
        AssessmentTracker.status entry = "Initiated")) /\
  (forall entry_id latest_commit update_logs,
     let rows' :=
       tracker_rows
         (snd (update_assessment_log entry_id latest_commit update_logs w)) in
     never_backward (tracker_rows w) rows' /\
     map (fun r => (AssessmentTracker.id r, AssessmentTracker.status r)) rows'
       = map (fun r => (AssessmentTracker.id r, AssessmentTracker.status r))
             (tracker_rows w)) /\
  (primary_keys_unique w ->
   forall trainee reviewer reviewer_username assessment,
     let run :=
       approve_assessment trainee reviewer reviewer_username assessment w in
     never_backward (tracker_rows w) (tracker_rows (snd run)) /\
     (((exists e, fst run = Raise e) /\ snd run = w) \/
      (fst run = Ok true /\
       exists pre entry entry' post,
         tracker_rows w = pre ++ entry :: post /\
         tracker_rows (snd run) = pre ++ entry' :: post /\
         AssessmentTracker.id entry' = AssessmentTracker.id entry /\
         AssessmentTracker.status entry = "Under review" /\
         AssessmentTracker.status entry' = "Approved"))) /\
  (forall entry reviewer_info,
     exists entry' w',
       assign_reviewer entry reviewer_info w = (Ok true, w') /\
       get_assessment_tracker_entry_by_id (AssessmentTracker.id entry) w'
         = (Ok entry', w') /\
       AssessmentTracker.status entry' = "Under review").
Proof.
  split; [|split; [|split]].
  - intros init_request user_id rows'. subst rows'.
    pose proof (init_assessment_tracker_adds w init_request user_id) as Hadds.
    split; [|exact Hadds].
    destruct Hadds as [-> | (entry & -> & _)];
      [apply never_backward_refl | apply never_backward_append].
  - intros entry_id latest_commit update_logs rows'. subst rows'.
    pose proof (update_assessment_log_statuses w entry_id latest_commit
                  update_logs) as Hst.
    split; [now apply never_backward_statuses | exact Hst].
  - intros Hkeys trainee reviewer reviewer_username assessment run. subst run.
    pose proof (approve_assessment_moves w trainee reviewer reviewer_username
                  assessment Hkeys) as Hmoves.
    split; [|exact Hmoves].
    destruct Hmoves as [[_ ->] | (_ & pre & entry & entry' & post & -> & ->
                                   & Hid & Hst & Hst')].
    + apply never_backward_refl.
    + apply never_backward_replace; auto. now rewrite Hst, Hst'.
  - intros entry reviewer_info.
    exists (assigned_row (ticks w) reviewer_info entry).
    eexists. split; [apply assign_reviewer_eq|].
    split; [|reflexivity].
    apply (world_after_write_lookup (assigned_row (ticks w) reviewer_info entry)).
Qed.

End StatusMoves.

(** Approval at a concrete store moves the entry forward. *)
Lemma status_forward_except_assignment_witness :
  primary_keys_unique Demo.under_review /\
  never_backward (tracker_rows Demo.under_review)
    (tracker_rows
       (snd (approve_assessment (P := Demo.platform) Demo.alice Demo.rev_bob
               "bob" Demo.python1 Demo.under_review))).
Proof.
  assert (Hkeys : primary_keys_unique Demo.under_review).
  { unfold primary_keys_unique. simpl. repeat constructor. intros []. }
  split; [exact Hkeys|].
  destruct (status_forward_except_assignment (P := Demo.platform)
              Demo.under_review) as (_ & _ & Happrove & _).
  apply (Happrove Hkeys).
Defined.

(** C1 as stated fails: assigning a reviewer to an approved entry succeeds
    and takes its status back to [Under review]. *)
Lemma assign_reviewer_reopens_approved :
  AssessmentTracker.status (Demo.entry_with "Approved" (Some 7)) = "Approved" /\
  tracker_rows Demo.approved = [Demo.entry_with "Approved" (Some 7)] /\
  fst (assign_reviewer (P := Demo.platform)
         (Demo.entry_with "Approved" (Some 7)) (ReviewerInfo.mk 8 "carol")
         Demo.approved) = Ok true /\
  map AssessmentTracker.status
    (tracker_rows
       (snd (assign_reviewer (P := Demo.platform)
               (Demo.entry_with "Approved" (Some 7)) (ReviewerInfo.mk 8 "carol")
               Demo.approved))) = ["Under review"] /\
  status_forward "Approved" "Under review" = false /\
  ~ never_backward (tracker_rows Demo.approved)
      (tracker_rows
         (snd (assign_reviewer (P := Demo.platform)
                 (Demo.entry_with "Approved" (Some 7))
                 (ReviewerInfo.mk 8 "carol") Demo.approved))).
Proof.
  repeat split; try reflexivity.
  intros (kept & added & Heq & Hall).
  vm_compute in Heq.
  inversion Hall as [|e e' before kept' [_ Hst] Hrest]; subst.
  inversion Hrest; subst.
  simpl in Heq. inversion Heq; subst.
  vm_compute in Hst. discriminate.
Qed.

(** Bob approves alice's entry at a concrete store. *)
Lemma approve_assessment_success_frame_witness :
  exists entry' w',
    approve_assessment (P := Demo.platform) Demo.alice Demo.rev_bob "bob"
        Demo.python1 Demo.under_review = (Ok true, w') /\
    tracker_rows w' = [entry'] /\
    AssessmentTracker.status entry' = "Approved" /\
    AssessmentTracker.reviewer_id entry' = Some 7.
Proof.
  destruct (approve_assessment_success_frame (P := Demo.platform)
              Demo.under_review Demo.alice Demo.rev_bob "bob" Demo.python1
              (Demo.entry_with "Under review" (Some 7)) 7 Demo.rev_bob Demo.bob)
    as (pre & post & entry' & w' & Hrun & Hrows & Hrows' & _ & _ & _ & Hst & _
        & Hrid & _); try reflexivity.
  - unfold primary_keys_unique. simpl. repeat constructor. intros [].
  - discriminate.
  - destruct pre as [|x pre]; [|destruct pre; discriminate].
    inversion Hrows; subst post.
    exists entry', w'. auto.
Defined.

(** A refused approval at a concrete store changes nothing. *)
Lemma approve_assessment_failure_atomic_witness :
  snd (approve_assessment (P := Demo.platform) Demo.alice Demo.rev_bob "bob"
         Demo.python1 Demo.approved) = Demo.approved.
Proof.
  apply (proj1 (approve_assessment_failure_atomic (P := Demo.platform)
                  Demo.approved Demo.alice Demo.rev_bob "bob" Demo.python1)
           NotUnderReview _ eq_refl).
Defined.

(** Approving twice at a concrete store. *)
Lemma approve_assessment_twice_refused_witness :
  exists w',
    approve_assessment (P := Demo.platform) Demo.alice Demo.rev_bob "bob"
        Demo.python1 Demo.under_review = (Ok true, w') /\
    approve_assessment (P := Demo.platform) Demo.alice Demo.rev_carol "bob"
        Demo.python1 w' = (Raise NotUnderReview, w').
Proof.
  exists (snd (approve_assessment (P := Demo.platform) Demo.alice Demo.rev_bob
                 "bob" Demo.python1 Demo.under_review)).
  split; [vm_compute; reflexivity|].
  apply (approve_assessment_twice_refused (P := Demo.platform)
           Demo.under_review Demo.alice Demo.rev_bob "bob" Demo.python1 true).
  - unfold primary_keys_unique. simpl. repeat constructor. intros [].
  - reflexivity.
  - discriminate.
Defined.

(** Approving right after initiation at a concrete store. *)
Lemma approve_assessment_after_init_refused_witness :
  exists w',
    init_assessment_tracker (P := Demo.platform) Demo.request 42
        Demo.empty_world = (Ok true, w') /\
    approve_assessment (P := Demo.platform) Demo.alice Demo.rev_bob "bob"
        Demo.python1 w' = (Raise NoReviewerAssigned, w').
Proof.
  exists (snd (init_assessment_tracker (P := Demo.platform) Demo.request 42
                 Demo.empty_world)).
  split; [vm_compute; reflexivity|].
  apply (approve_assessment_after_init_refused (P := Demo.platform)
           Demo.empty_world Demo.request Demo.alice Demo.python1 true).
  - reflexivity.
  - reflexivity.
  - discriminate.
Defined.

(** ** Reviewer selection, further *)

Section SelectMore.
Context {P : Platform}.

(** The draw lands on the candidate at position [random mod n]. *)
Lemma select_reviewer_pick w entry i rid :
  nth_error (eligible_ids entry w) i = Some rid ->
  random_at (draws w) mod Z.of_nat (List.length (eligible_ids entry w))
    = Z.of_nat i ->
  exists r,
    select_reviewer entry w
      = (Ok r, mkWorld (db w) (ticks w) (S (draws w))) /\
    Reviewers.id r = rid /\
    In r (Tables.reviewers (Session.pending (db w))) /\
    get_reviewer_by_id rid w = (Ok r, w).
Proof.
  intros Hnth Hmod.
  assert (Hlen : (i < List.length (eligible_ids entry w))%nat).
  { apply nth_error_Some. congruence. }
  unfold select_reviewer.
  unfold bind at 1, query at 1. unfold bind at 1, query at 1.
  fold (excluded_ids entry w). fold (eligible_ids entry w).
  unfold bind at 1, try_except at 1, bind at 1, randint.
  destruct (Z.ltb_spec (Z.of_nat (List.length (eligible_ids entry w)) - 1) 0)
    as [Hlt|Hle]; [lia|].
  replace (Z.of_nat (List.length (eligible_ids entry w)) - 1 - 0 + 1)
    with (Z.of_nat (List.length (eligible_ids entry w))) by lia.
  rewrite Hmod. unfold py_index.
  destruct (Z.ltb_spec (0 + Z.of_nat i) 0) as [Hneg|_]; [lia|].
  destruct (Z.ltb_spec (0 + Z.of_nat i) 0) as [Hneg|_]; [lia|].
  destruct (Z.leb_spec (Z.of_nat (List.length (eligible_ids entry w)))
                       (0 + Z.of_nat i)) as [Hbig|_]; [lia|].
  cbn [orb]. replace (Z.to_nat (0 + Z.of_nat i)) with i by lia.
  rewrite Hnth. unfold ret at 1, try_except.
  set (w1 := mkWorld (db w) (ticks w) (S (draws w))).
  destruct (get_reviewer_by_id_cases rid w1) as [(r & Hr & Hin & Hid) | Hr].
  - rewrite Hr. exists r. repeat split; auto.
    revert Hr. unfold get_reviewer_by_id. run.
    destruct (find _ _); intros [= <-]; reflexivity.
  - exfalso. apply nth_error_In in Hnth.
    apply in_map_iff in Hnth as (y & Hid & Hy).
    apply filter_In in Hy as [Hy _].
    revert Hr. unfold get_reviewer_by_id. run.
    destruct (find _ _) eqn:Efind; [discriminate|].
    intros _. apply (find_none _ _ Efind) in Hy.
    apply Z.eqb_neq in Hy. congruence.
Qed.

Lemma select_reviewer_none w entry :
  eligible_ids entry w = [] ->
  select_reviewer entry w = (Raise NoReviewerAvailable, w).
Proof.
  intros Hnil. unfold select_reviewer.
  unfold bind at 1, query at 1. unfold bind at 1, query at 1.
  fold (excluded_ids entry w). fold (eligible_ids entry w).
  rewrite Hnil. reflexivity.
Qed.

(** The position the draw lands on exists as soon as there is a candidate. *)
Lemma eligible_position w entry :
  eligible_ids entry w <> [] ->
  exists i rid,
    nth_error (eligible_ids entry w) i = Some rid /\
    random_at (draws w) mod Z.of_nat (List.length (eligible_ids entry w))
      = Z.of_nat i.
Proof.
  intros Hne.
  assert (Hlen : (0 < List.length (eligible_ids entry w))%nat).
  { destruct (eligible_ids entry w); [contradiction|simpl; lia]. }
  pose proof (Z.mod_pos_bound (random_at (draws w))
                (Z.of_nat (List.length (eligible_ids entry w)))) as Hb.
  set (m := random_at (draws w) mod
            Z.of_nat (List.length (eligible_ids entry w))) in *.
  destruct (nth_error (eligible_ids entry w) (Z.to_nat m)) as [rid|] eqn:E.
  - exists (Z.to_nat m), rid. split; auto. lia.
  - apply nth_error_None in E. lia.
Qed.

(** X15: [select_reviewer] fails exactly when no reviewer row lies outside
    the trainee's own user; the failure is the ["No reviewer available"]
    error, and it leaves the world as it was: no random draw is consumed. *)
Theorem select_reviewer_fails_iff_none_eligible
    (w : World) (entry : AssessmentTracker.t) :
  (eligible_ids entry w = [] ->
   select_reviewer entry w = (Raise NoReviewerAvailable, w)) /\
  (forall e w', select_reviewer entry w = (Raise e, w') ->
     eligible_ids entry w = [] /\ e = NoReviewerAvailable /\ w' = w).
Proof.
  split; [apply select_reviewer_none|].
  intros e w' Hrun.
  destruct (eligible_ids entry w) as [|x l] eqn:E.
  - rewrite (select_reviewer_none w entry E) in Hrun.
    inversion Hrun; auto.
  - exfalso.
    destruct (eligible_position w entry) as (i & rid & Hnth & Hmod);
      [congruence|].
    destruct (select_reviewer_pick w entry i rid Hnth Hmod) as (r & Hr & _).
    congruence.
Qed.

(** X16: a successful [select_reviewer] consumes one random draw and touches
    nothing else, and it can return every candidate: for each position of
    the candidate list, a draw congruent to that position modulo the number
    of candidates returns the stored reviewer with the id at that
    position. *)
Theorem select_reviewer_reaches_every_candidate
    (w : World) (entry : AssessmentTracker.t) (i : nat) (rid : Z) :
  nth_error (eligible_ids entry w) i = Some rid ->
  random_at (draws w) mod Z.of_nat (List.length (eligible_ids entry w))
    = Z.of_nat i ->
  exists r,
    select_reviewer entry w
      = (Ok r, mkWorld (db w) (ticks w) (S (draws w))) /\
    Reviewers.id r = rid /\
    In r (Tables.reviewers (Session.pending (db w))).
Proof.
  intros Hnth Hmod.
  destruct (select_reviewer_pick w entry i rid Hnth Hmod) as (r & H1 & H2 & H3 & _).
  eauto.
Qed.

(** What a successful selection tells. *)
Lemma select_reviewer_Ok w entry r w' :
  select_reviewer entry w = (Ok r, w') ->
  w' = mkWorld (db w) (ticks w) (S (draws w)) /\
  get_reviewer_by_id (Reviewers.id r) w = (Ok r, w) /\
  Reviewers.user_id r <> AssessmentTracker.user_id entry.
Proof.
  intros Hrun.
  destruct (eligible_ids entry w) as [|x l] eqn:E.
  - rewrite (select_reviewer_none w entry E) in Hrun. discriminate.
  - destruct (eligible_position w entry) as (i & rid & Hnth & Hmod);
      [congruence|].
    destruct (select_reviewer_pick w entry i rid Hnth Hmod)
      as (r' & Hr & Hid & Hin & Hget).
    rewrite Hr in Hrun. inversion Hrun; subst r' w'.
    split; auto. split; [now rewrite Hid|].
    apply nth_error_In in Hnth.
    destruct (eligible_not_excluded
                (Tables.reviewers (Session.pending (db w)))
                (AssessmentTracker.user_id entry) rid Hnth) as [_ Hnot].
    intros Huser. apply Hnot. rewrite <- Hid.
    apply in_map, filter_In. split; auto. now apply Z.eqb_eq.
Qed.

End SelectMore.

(** A trainee who is the only reviewer cannot be given a reviewer. *)
Lemma select_reviewer_fails_iff_none_eligible_witness :
  select_reviewer (P := Demo.platform) (Demo.entry_with "Initiated" None)
      (mkWorld (Session.mk (Tables.mk [Demo.alice] [Demo.rev_alice] [] [] [])
                           (Tables.mk [Demo.alice] [Demo.rev_alice] [] [] []))
               0 0)
    = (Raise NoReviewerAvailable,
       mkWorld (Session.mk (Tables.mk [Demo.alice] [Demo.rev_alice] [] [] [])
                           (Tables.mk [Demo.alice] [Demo.rev_alice] [] [] []))
               0 0).
Proof.
  apply (proj1 (select_reviewer_fails_iff_none_eligible (P := Demo.platform)
                  _ (Demo.entry_with "Initiated" None))).
  reflexivity.
Defined.

(** After one earlier draw the second candidate, carol, is selected. *)
Lemma select_reviewer_reaches_every_candidate_witness :
  exists r,
    select_reviewer (P := Demo.platform) (Demo.entry_with "Initiated" None)
        (mkWorld (db Demo.empty_world) 0 1)
      = (Ok r, mkWorld (db Demo.empty_world) 0 2) /\
    Reviewers.id r = 8.
Proof.
  destruct (select_reviewer_reaches_every_candidate (P := Demo.platform)
              (mkWorld (db Demo.empty_world) 0 1)
              (Demo.entry_with "Initiated" None) 1 8 eq_refl eq_refl)
    as (r & Hrun & Hid & _).
  exists r. split; [exact Hrun | exact Hid].
Defined.

(** ** A whole review *)

Section ReviewCycle.
Context {P : Platform}.

Lemma get_reviewer_by_id_frame reviewer_id w w' r :
  Tables.reviewers (Session.pending (db w'))
    = Tables.reviewers (Session.pending (db w)) ->
  get_reviewer_by_id reviewer_id w = (Ok r, w) ->
  get_reviewer_by_id reviewer_id w' = (Ok r, w').
Proof.
  unfold get_reviewer_by_id. run. intros ->.
  destruct (find _ _); intros [= <-]; reflexivity.
Qed.

Lemma get_user_by_id_frame user_id w w' u :
  Tables.users (Session.pending (db w')) = Tables.users (Session.pending (db w)) ->
  get_user_by_id user_id w = (Ok u, w) ->
  get_user_by_id user_id w' = (Ok u, w').
Proof.
  unfold get_user_by_id. run. intros ->.
  destruct (find _ _); intros [= <-]; reflexivity.
Qed.

(** Rewriting the row a pair lookup returns keeps it under the pair. *)
Lemma pair_lookup_after_write user_id assessment_id w entry row n :
  NoDup (map AssessmentTracker.id (tracker_rows w)) ->
  get_assessment_tracker_entry user_id assessment_id w = (Ok entry, w) ->
  AssessmentTracker.id row = AssessmentTracker.id entry ->
  AssessmentTracker.user_id row = AssessmentTracker.user_id entry ->
  AssessmentTracker.assessment_id row = AssessmentTracker.assessment_id entry ->
  get_assessment_tracker_entry user_id assessment_id (world_after_write row n w)
    = (Ok row, world_after_write row n w).
Proof.
  intros Hkeys He Hid Hu Ha.
  rewrite get_assessment_tracker_entry_find in He |- *.
  rewrite world_after_write_rows.
  destruct (find _ (tracker_rows w)) as [e0|] eqn:Efind; [|discriminate].
  inversion He; subst e0.
  rewrite (find_merge_row _ row (tracker_rows w) entry Hkeys Efind Hid).
  - reflexivity.
  - apply find_some in Efind as [_ Hp]. now rewrite Hu, Ha.
Qed.

(** X17: a whole review goes through: for a stored entry, a reviewer
    returned by [select_reviewer], assigned with [assign_reviewer] under the
    username of the reviewer's user, approves with that username as soon as
    the commit checks pass on the assigned entry; the self-review check
    cannot fire, the entry ends [Approved] with the selected reviewer
    recorded, and its log has gained the assignment record and the approval
    record, in that order. *)
Theorem review_cycle_succeeds
    (w : World) (trainee : Users.t) (assessment : Assessments.t)
    (entry : AssessmentTracker.t) (reviewer : Reviewers.t) (w1 : World)
    (reviewer_user : Users.t) :
  primary_keys_unique w ->
  get_assessment_tracker_entry (Users.id trainee) (Assessments.id assessment) w
    = (Ok entry, w) ->
  select_reviewer entry w = (Ok reviewer, w1) ->
  get_user_by_id (Reviewers.user_id reviewer) w = (Ok reviewer_user, w) ->
  let reviewer_info :=
    ReviewerInfo.mk (Reviewers.id reviewer) (Users.username reviewer_user) in
  let w2 := snd (assign_reviewer entry reviewer_info w1) in
  (forall entry2,
     get_assessment_tracker_entry (Users.id trainee) (Assessments.id assessment)
       w2 = (Ok entry2, w2) ->
     verify_check entry2 = true) ->
  exists w3 entry3 assigned approved,
    assign_reviewer entry reviewer_info w1 = (Ok true, w2) /\
    approve_assessment trainee reviewer (Users.username reviewer_user)
      assessment w2 = (Ok true, w3) /\
    get_assessment_tracker_entry (Users.id trainee) (Assessments.id assessment)
      w3 = (Ok entry3, w3) /\
    AssessmentTracker.status entry3 = "Approved" /\
    AssessmentTracker.reviewer_id entry3 = Some (Reviewers.id reviewer) /\
    AssessmentTracker.log entry3
      = AssessmentTracker.log entry ++ [assigned; approved] /\
    Dict.get "reviewer_id" assigned = Some (JInt (Reviewers.id reviewer)) /\
    Dict.get "Reviewer" approved = Some (JInt (Reviewers.id reviewer)).
Proof.
  intros Hkeys He Hsel Hru reviewer_info w2 Hcheck.
  apply select_reviewer_Ok in Hsel as (-> & Hrr & Hnotself).
  set (w1 := mkWorld (db w) (ticks w) (S (draws w))) in *.
  assert (Hentry : In entry (tracker_rows w) /\
                   AssessmentTracker.user_id entry = Users.id trainee).
  { destruct (get_assessment_tracker_entry_cases (Users.id trainee)
                (Assessments.id assessment) w) as [(e0 & He0 & Hin & Hu & _)|He0];
      rewrite He0 in He; inversion He; subst; auto. }
  destruct Hentry as [Hin Huser].
  set (e2 := assigned_row (ticks w1) reviewer_info entry).
  assert (Hw2 : w2 = world_after_write e2 2 w1).
  { unfold w2. now rewrite assign_reviewer_eq. }
  assert (He1 : get_assessment_tracker_entry (Users.id trainee)
                  (Assessments.id assessment) w1 = (Ok entry, w1)).
  { rewrite get_assessment_tracker_entry_find in He |- *.
    change (tracker_rows w1) with (tracker_rows w).
    destruct (find _ (tracker_rows w)); inversion He; reflexivity. }
  assert (He2 : get_assessment_tracker_entry (Users.id trainee)
                  (Assessments.id assessment) w2 = (Ok e2, w2)).
  { rewrite Hw2. apply (pair_lookup_after_write _ _ w1 entry); auto. }
  set (e3 := approved_row (ticks w2) reviewer e2).
  exists (world_after_write e3 2 w2), e3.
  exists (update_record (utcnow_at (S (ticks w1)))
            (AssessmentTracker.latest_commit entry)
            (ReviewerInfo.to_dict reviewer_info)).
  exists (approval_record (utcnow_at (S (ticks w2)))
            (AssessmentTracker.latest_commit entry) reviewer).
  split; [unfold w2; now rewrite assign_reviewer_eq|].
  split; [|split; [|repeat split]].
  - apply (approve_assessment_succeeds w2 trainee reviewer _ assessment e2
             (Reviewers.id reviewer) reviewer reviewer_user); auto.
    + congruence.
    + apply (get_reviewer_by_id_frame _ w); [rewrite Hw2; reflexivity | auto].
    + apply (get_user_by_id_frame _ w); [rewrite Hw2; reflexivity | auto].
  - apply (pair_lookup_after_write _ _ w2 e2); auto.
    rewrite Hw2, world_after_write_rows. now apply merge_row_keys_unique.
  - simpl. rewrite <- app_assoc. reflexivity.
Qed.

End ReviewCycle.

(** The review of alice's entry at a concrete store. *)
Lemma review_cycle_succeeds_witness :
  exists w3 entry3,
    get_assessment_tracker_entry 42 1 w3 = (Ok entry3, w3) /\
    AssessmentTracker.status entry3 = "Approved" /\
    AssessmentTracker.reviewer_id entry3 = Some 7 /\
    List.length (AssessmentTracker.log entry3) = 3%nat.
Proof.
  pose proof (review_cycle_succeeds (P := Demo.platform)
                (Demo.world_of [Demo.entry_with "Initiated" None] [])
                Demo.alice Demo.python1 (Demo.entry_with "Initiated" None)
                Demo.rev_bob
                (mkWorld (db (Demo.world_of [Demo.entry_with "Initiated" None] []))
                         0 1)
                Demo.bob) as H.
  cbv zeta in H.
  destruct H as (w3 & entry3 & assigned & approved & _ & _ & Hget & Hst & Hrid
                 & Hlog & _).
  - unfold primary_keys_unique. simpl. repeat constructor. intros [].
  - reflexivity.
  - reflexivity.
  - reflexivity.
  - intros entry2 Hget. vm_compute in Hget. inversion Hget. reflexivity.
  - exists w3, entry3. repeat split; auto. rewrite Hlog. reflexivity.
Defined.

(** ** Invariants of the store *)

Section Invariants.
Context {P : Platform}.

Lemma merge_row_pairs row rows e :
  find (fun r => Z.eqb (AssessmentTracker.id r) (AssessmentTracker.id row)) rows
    = Some e ->
  AssessmentTracker.user_id row = AssessmentTracker.user_id e ->
  AssessmentTracker.assessment_id row = AssessmentTracker.assessment_id e ->
  map (fun r => (AssessmentTracker.user_id r, AssessmentTracker.assessment_id r))
      (merge_row row rows)
  = map (fun r => (AssessmentTracker.user_id r, AssessmentTracker.assessment_id r))
        rows.
Proof.
  intros Hfind Hu Ha.
  destruct (merge_row_found row rows e Hfind) as (pre & post & -> & -> & _).
  rewrite !map_app. simpl. now rewrite Hu, Ha.
Qed.

(** X18: the uniqueness of the primary keys of the tracker table is kept by
    every tracker operation, whether it succeeds or raises: initiation gives
    the new row a key above all stored ones, and the other operations
    rewrite a row under its own key. *)
Theorem primary_keys_unique_preserved (w : World) :
  primary_keys_unique w ->
  (forall init_request user_id,
     primary_keys_unique
       (snd (init_assessment_tracker init_request user_id w))) /\
  (forall entry_id latest_commit update_logs,
     primary_keys_unique
       (snd (update_assessment_log entry_id latest_commit update_logs w))) /\
  (forall entry reviewer_info,
     primary_keys_unique (snd (assign_reviewer entry reviewer_info w))) /\
  (forall trainee reviewer reviewer_username assessment,
     primary_keys_unique
       (snd (approve_assessment trainee reviewer reviewer_username
               assessment w))).
Proof.
  intros Hkeys. split; [|split; [|split]].
  - intros init_request user_id.
    destruct (init_assessment_tracker_rows w init_request user_id)
      as [-> | (a & _ & Hrows)]; auto.
    unfold primary_keys_unique. fold (tracker_rows (snd
      (init_assessment_tracker init_request user_id w))).
    rewrite Hrows, map_app. simpl.
    apply NoDup_app; auto.
    + repeat constructor. intros [].
    + intros x Hx [Hk|[]]. subst x. now apply next_id_fresh in Hx.
  - intros entry_id latest_commit update_logs.
    destruct (find (fun r => Z.eqb (AssessmentTracker.id r) entry_id)
                   (tracker_rows w)) as [entry|] eqn:E.
    + unfold primary_keys_unique. fold (tracker_rows (snd
        (update_assessment_log entry_id latest_commit update_logs w))).
      rewrite (update_assessment_log_rows _ _ _ _ _ E).
      apply merge_row_keys_unique, Hkeys.
    + now rewrite (update_assessment_log_missing _ _ _ _ E).
  - intros entry reviewer_info. rewrite assign_reviewer_eq.
    apply merge_row_keys_unique, Hkeys.
  - intros trainee reviewer reviewer_username assessment.
    destruct (approve_assessment trainee reviewer reviewer_username assessment w)
      as [[b|e] w'] eqn:Hrun.
    + apply approve_assessment_Ok in Hrun as (entry & _ & _ & _ & _ & ->).
      apply merge_row_keys_unique, Hkeys.
    + apply approve_assessment_Raise in Hrun as [-> _]. exact Hkeys.
Qed.

(** X19: at most one entry per user and assessment: the constraint is kept
    by initiation (which refuses a stored pair) and by commit updates, and,
    when the primary keys are unique, by approval and by the assignment of
    a reviewer to a stored entry. *)
Theorem pairs_unique_preserved (w : World) :
  pairs_unique w ->
  (forall init_request user_id,
     pairs_unique (snd (init_assessment_tracker init_request user_id w))) /\
  (forall entry_id latest_commit update_logs,
     pairs_unique
       (snd (update_assessment_log entry_id latest_commit update_logs w))) /\
  (primary_keys_unique w ->
   (forall entry reviewer_info,
      In entry (tracker_rows w) ->
      pairs_unique (snd (assign_reviewer entry reviewer_info w))) /\
   (forall trainee reviewer reviewer_username assessment,
      pairs_unique
        (snd (approve_assessment trainee reviewer reviewer_username
                assessment w)))).
Proof.
  intros Hpairs. split; [|split].
  - intros init_request user_id.
    destruct (init_assessment_tracker_rows w init_request user_id)
      as [-> | (a & He & Hrows)]; auto.
    unfold pairs_unique. rewrite Hrows, map_app. simpl.
    apply NoDup_app; auto.
    + repeat constructor. intros [].
    + intros x Hx [Hk|[]]. subst x.
      apply in_map_iff in Hx as (r & Hpair & Hr).
      rewrite get_assessment_tracker_entry_find in He.
      destruct (find _ (tracker_rows w)) eqn:E; [discriminate|].
      apply (find_none _ _ E) in Hr. inversion Hpair as [[Hu Ha]].
      rewrite Hu, Ha, !Z.eqb_refl in Hr. discriminate.
  - intros entry_id latest_commit update_logs.
    destruct (find (fun r => Z.eqb (AssessmentTracker.id r) entry_id)
                   (tracker_rows w)) as [entry|] eqn:E.
    + unfold pairs_unique. rewrite (update_assessment_log_rows _ _ _ _ _ E).
      rewrite (merge_row_pairs _ _ entry); auto.
      simpl. apply find_some in E as E'. destruct E' as [_ Hid].
      apply Z.eqb_eq in Hid. now rewrite Hid.
    + now rewrite (update_assessment_log_missing _ _ _ _ E).
  - intros Hkeys. split.
    + intros entry reviewer_info Hin. rewrite assign_reviewer_eq.
      cbn [snd]. unfold pairs_unique. rewrite world_after_write_rows.
      rewrite (merge_row_pairs _ _ entry); auto.
      apply (find_unique_key AssessmentTracker.id Z.eqb (tracker_rows w) entry
               Z.eqb_eq Hkeys Hin).
    + intros trainee reviewer reviewer_username assessment.
      destruct (approve_assessment trainee reviewer reviewer_username assessment w)
        as [[b|e] w'] eqn:Hrun.
      * apply approve_assessment_Ok in Hrun as (entry & _ & Hin & _ & _ & ->).
        cbn [snd]. unfold pairs_unique. rewrite world_after_write_rows.
        rewrite (merge_row_pairs _ _ entry); auto.
        apply (find_unique_key AssessmentTracker.id Z.eqb (tracker_rows w) entry
                 Z.eqb_eq Hkeys Hin).
      * apply approve_assessment_Raise in Hrun as [-> _]. exact Hpairs.
Qed.

End Invariants.

(** The keys stay unique through an initiation at a concrete store. *)
Lemma primary_keys_unique_preserved_witness :
  primary_keys_unique
    (snd (init_assessment_tracker (P := Demo.platform)
            (InitRequest.mk "bob" "Python I" "fff000") 50 Demo.under_review)).
Proof.
  apply (primary_keys_unique_preserved (P := Demo.platform) Demo.under_review).
  unfold primary_keys_unique. simpl. repeat constructor. intros [].
Defined.

(** The pairs stay unique through an initiation at a concrete store. *)
Lemma pairs_unique_preserved_witness :
  pairs_unique
    (snd (init_assessment_tracker (P := Demo.platform)
            (InitRequest.mk "bob" "Python I" "fff000") 50 Demo.under_review)).
Proof.
  apply (pairs_unique_preserved (P := Demo.platform) Demo.under_review).
  unfold pairs_unique. simpl. repeat constructor. intros [].
Defined.

(** ** The catalogue, further *)

Section CatalogueMore.
Context {P : Platform}.

Lemma same_but_badges_refl tb : same_but_badges tb tb.
Proof. repeat split. Qed.

Lemma same_but_badges_trans tb1 tb2 tb3 :
  same_but_badges tb1 tb2 -> same_but_badges tb2 tb3 -> same_but_badges tb1 tb3.
Proof.
  intros (H1 & H2 & H3 & H4) (K1 & K2 & K3 & K4).
  repeat split; congruence.
Qed.

(** One record either raises and changes nothing, or writes badges only and
    commits. *)
Lemma sync_badge_outcome w badge r w' :
  sync_badge badge w = (r, w') ->
  ticks w' = ticks w /\ draws w' = draws w /\
  match r with
  | Raise _ => w' = w
  | Ok _ =>
      Session.committed (db w') = Session.pending (db w') /\
      same_but_badges (Session.pending (db w)) (Session.pending (db w'))
  end.
Proof.
  unfold sync_badge, getitem. run.
  destruct (Dict.get "name" badge) as [name|]; [|intros [= <- <-]; auto].
  destruct (hd_error _);
    destruct (unknown_column _);
    intros [= <- <-]; simpl; repeat split; auto.
Qed.

Lemma for_each_sync_outcome catalog w r w' :
  session_clean w ->
  for_each catalog sync_badge w = (r, w') ->
  session_clean w' /\ ticks w' = ticks w /\ draws w' = draws w /\
  same_but_badges (Session.pending (db w)) (Session.pending (db w')).
Proof.
  revert w. induction catalog as [|badge catalog IH]; intros w Hclean.
  - intros [= <- <-]. split; [exact Hclean|].
    split; [reflexivity|]. split; [reflexivity|]. apply same_but_badges_refl.
  - cbn [for_each]. unfold bind.
    destruct (sync_badge badge w) as [[u|e] w1] eqn:Hb.
    + apply sync_badge_outcome in Hb as (Ht & Hd & Hc & Hsame).
      intros Hrest. apply IH in Hrest as (Hc' & Ht' & Hd' & Hsame'); auto.
      split; [exact Hc'|]. split; [congruence|]. split; [congruence|].
      eapply same_but_badges_trans; eauto.
    + apply sync_badge_outcome in Hb as (_ & _ & Hw1). subst w1.
      intros [= <- <-]. split; [exact Hclean|].
      split; [reflexivity|]. split; [reflexivity|].
      apply same_but_badges_refl.
Qed.

Lemma sync_badges_eq catalog w :
  sync_badges (Ok catalog) w =
  match for_each catalog sync_badge w with
  | (Ok u, w1) => (Ok u, w1)
  | (Raise e, w1) =>
      (Raise e, mkWorld (Session.rollback (db w1)) (ticks w1) (draws w1))
  end.
Proof.
  unfold sync_badges. unfold bind at 1, try_except at 1, ret at 1.
  unfold try_except. now destruct (for_each catalog sync_badge w) as [[u|e] w1].
Qed.

(** X20: starting from a clean session, [sync_badges] ends with a clean
    session whatever happens, it reads neither the clock nor the random
    source, and it changes no table but the badges: users, reviewers,
    assessments and tracker entries are as before, on success and on
    failure alike. *)
Theorem sync_badges_touches_badges_only
    (w : World) (fetched : result (list (Dict.t PyVal))) :
  session_clean w ->
  let w' := snd (sync_badges fetched w) in
  session_clean w' /\
  ticks w' = ticks w /\ draws w' = draws w /\
  same_but_badges (Session.pending (db w)) (Session.pending (db w')).
Proof.
  intros Hclean. cbv zeta.
  destruct fetched as [catalog|e].
  - rewrite sync_badges_eq.
    destruct (for_each catalog sync_badge w) as [[u|e] w1] eqn:Hloop;
      apply for_each_sync_outcome in Hloop as (Hc & Ht & Hd & Hsame);
      try exact Hclean.
    + cbn [snd]. split; [exact Hc|]. split; [exact Ht|]. split; [exact Hd|].
      exact Hsame.
    + cbn [snd ticks draws db].
      unfold session_clean in *. unfold Session.rollback.
      cbn [Session.pending Session.committed]. rewrite Hc.
      split; [reflexivity|]. split; [exact Ht|]. split; [exact Hd|].
      exact Hsame.
  - cbn [snd]. split; [exact Hclean|].
    split; [reflexivity|]. split; [reflexivity|]. apply same_but_badges_refl.
Qed.

(** A record that is not accepted makes the loop body raise. *)
Lemma sync_badge_rejected w badge :
  record_accepted badge = false ->
  exists e, sync_badge badge w = (Raise e, w) /\
            (Dict.get "name" badge = None -> e = KeyError "name").
Proof.
  unfold record_accepted, sync_badge, getitem.
  destruct (Dict.get "name" badge) as [name|] eqn:Ename.
  - rewrite <- unknown_column_badge_fields.
    destruct (unknown_column (badge_fields badge)) as [k|] eqn:Ecol;
      [|discriminate].
    intros _. unfold bind at 1, ret at 1. unfold bind at 1, query at 1.
    destruct (hd_error _); eexists; (split; [reflexivity | discriminate]).
  - intros _. eexists. split; [reflexivity | auto].
Qed.

Lemma for_each_sync_Ok_accepted catalog w u w' :
  for_each catalog sync_badge w = (Ok u, w') ->
  forallb record_accepted catalog = true.
Proof.
  revert w. induction catalog as [|badge catalog IH]; intros w; auto.
  cbn [for_each forallb]. unfold bind.
  destruct (record_accepted badge) eqn:Eacc.
  - rewrite (sync_badge_accepted w badge Eacc). apply IH.
  - destruct (sync_badge_rejected w badge Eacc) as (e & -> & _). discriminate.
Qed.

(** X21: [sync_badges] succeeds exactly when every fetched record has a
    name and only known columns; a failed fetch is re-raised as it is with
    nothing changed; and when the first record that is not accepted has no
    ["name"], the error is [KeyError] on that key. *)
Theorem sync_badges_succeeds_iff_accepted
    (w : World) (catalog : list (Dict.t PyVal)) :
  (forallb record_accepted catalog = true <->
   exists w', sync_badges (Ok catalog) w = (Ok tt, w')) /\
  (forall e, sync_badges (Raise e) w = (Raise e, w)) /\
  (forall earlier nameless later,
     catalog = earlier ++ nameless :: later ->
     forallb record_accepted earlier = true ->
     Dict.get "name" nameless = None ->
     fst (sync_badges (Ok catalog) w) = Raise (KeyError "name")).
Proof.
  split; [|split].
  - split.
    + intros Hall. exists (fold_left world_after_upsert catalog w).
      unfold sync_badges. unfold bind at 1, try_except at 1, ret at 1.
      unfold try_except. now rewrite for_each_sync_accepted.
    + intros [w' Hrun]. apply sync_badges_Ok_loop in Hrun.
      eapply for_each_sync_Ok_accepted; eauto.
  - reflexivity.
  - intros earlier nameless later -> Hall Hname.
    unfold sync_badges. unfold bind at 1, try_except at 1, ret at 1.
    unfold try_except. rewrite for_each_app, (for_each_sync_accepted _ _ Hall).
    cbn [for_each]. unfold bind at 1.
    assert (Hrej : record_accepted nameless = false).
    { unfold record_accepted. now rewrite Hname. }
    destruct (sync_badge_rejected (fold_left world_after_upsert earlier w)
                nameless Hrej) as (e & -> & He).
    rewrite (He Hname). reflexivity.
Qed.

End CatalogueMore.

(** Synchronising at a concrete clean store leaves the tracker alone. *)
Lemma sync_badges_touches_badges_only_witness :
  tracker_rows
    (snd (sync_badges (P := Demo.platform)
            (Ok [Demo.badge_a; Demo.badge_nameless]) Demo.under_review))
  = tracker_rows Demo.under_review.
Proof.
  destruct (sync_badges_touches_badges_only (P := Demo.platform)
              Demo.under_review (Ok [Demo.badge_a; Demo.badge_nameless])
              eq_refl) as (_ & _ & _ & _ & _ & _ & Hrows).
  exact Hrows.
Defined.

(** A catalogue with a nameless record at a concrete store. *)
Lemma sync_badges_succeeds_iff_accepted_witness :
  fst (sync_badges (P := Demo.platform)
         (Ok [Demo.badge_a; Demo.badge_nameless]) Demo.empty_world)
    = Raise (KeyError "name").
Proof.
  destruct (sync_badges_succeeds_iff_accepted (P := Demo.platform)
              Demo.empty_world [Demo.badge_a; Demo.badge_nameless])
    as (_ & _ & Hnameless).
  apply (Hnameless [Demo.badge_a] Demo.badge_nameless []); reflexivity.
Defined.

(** ** Dictionaries under repeated updates *)

Section DictUpdates.
Context {V : Type}.
Implicit Types (d f : Dict.t V) (k : string) (v : V).

Lemma dict_keys_In_set d k k' v :
  In k' (Dict.keys d) -> In k' (Dict.keys (Dict.set k v d)).
Proof.
  intros Hin. rewrite dict_keys_set. destruct (existsb _ _); auto.
  apply in_or_app. now left.
Qed.

Lemma dict_keys_set_self d k v : In k (Dict.keys (Dict.set k v d)).
Proof.
  rewrite dict_keys_set. destruct (existsb _ _) eqn:E.
  - apply existsb_exists in E as (x & Hx & Heq).
    apply String.eqb_eq in Heq. now subst.
  - apply in_or_app. right. now left.
Qed.

Lemma dict_update_app d f g :
  Dict.update d (f ++ g) = Dict.update (Dict.update d f) g.
Proof. unfold Dict.update. apply fold_left_app. Qed.

Lemma dict_update_keys_In d f k :
  In k (Dict.keys d) -> In k (Dict.keys (Dict.update d f)).
Proof.
  revert d. induction f as [|[k0 v0] f IH]; intros d Hin; auto.
  apply IH. now apply dict_keys_In_set.
Qed.

Lemma dict_update_keys_own d f k :
  In k (Dict.keys f) -> In k (Dict.keys (Dict.update d f)).
Proof.
  revert d. induction f as [|[k0 v0] f IH]; intros d; [intros []|].
  intros [<-|Hin].
  - apply (dict_update_keys_In (Dict.set k0 v0 d) f). apply dict_keys_set_self.
  - apply (IH (Dict.set k0 v0 d) Hin).
Qed.

Lemma dict_get_update_other d f k :
  ~ In k (Dict.keys f) -> Dict.get k (Dict.update d f) = Dict.get k d.
Proof.
  revert d. induction f as [|[k0 v0] f IH]; intros d Hnot; auto.
  change (Dict.update d ((k0, v0) :: f))
    with (Dict.update (Dict.set k0 v0 d) f).
  rewrite IH by (intros H; apply Hnot; now right).
  apply dict_get_set_other. intros ->. apply Hnot. now left.
Qed.

Lemma dict_get_update_own d f k v :
  NoDup (Dict.keys f) -> Dict.get k f = Some v ->
  Dict.get k (Dict.update d f) = Some v.
Proof.
  revert d. induction f as [|[k0 v0] f IH]; intros d Hnd Hget; [discriminate|].
  change (Dict.update d ((k0, v0) :: f))
    with (Dict.update (Dict.set k0 v0 d) f).
  simpl in Hget. inversion Hnd as [|? ? Hnotin Hnd']; subst.
  destruct (String.eqb_spec k0 k) as [->|Hne].
  - inversion Hget; subst. rewrite dict_get_update_other by exact Hnotin.
    apply dict_get_set_same.
  - now apply IH.
Qed.

Lemma dict_set_fixed d k v : Dict.get k d = Some v -> Dict.set k v d = d.
Proof.
  induction d as [|[k0 v0] d IH]; simpl; [discriminate|].
  destruct (String.eqb_spec k0 k) as [->|Hne].
  - now intros [= ->].
  - intros H. now rewrite IH.
Qed.

Lemma dict_update_fixed d f :
  (forall kv, In kv f -> Dict.get (fst kv) d = Some (snd kv)) ->
  Dict.update d f = d.
Proof.
  induction f as [|[k0 v0] f IH]; intros H; auto.
  change (Dict.update d ((k0, v0) :: f))
    with (Dict.update (Dict.set k0 v0 d) f).
  rewrite (dict_set_fixed d k0 v0) by (apply (H (k0, v0)); now left).
  apply IH. intros kv Hin. apply H. now right.
Qed.

Lemma dict_get_In_NoDup f kv :
  NoDup (Dict.keys f) -> In kv f -> Dict.get (fst kv) f = Some (snd kv).
Proof.
  induction f as [|[k0 v0] f IH]; intros Hnd; [intros []|].
  inversion Hnd as [|? ? Hnotin Hnd']; subst. intros [<-|Hin]; simpl.
  - now rewrite String.eqb_refl.
  - destruct (String.eqb_spec k0 (fst kv)) as [Heq|Hne]; [|now apply IH].
    exfalso. apply Hnotin. rewrite Heq. unfold Dict.keys. now apply in_map.
Qed.

Lemma dict_update_self f : NoDup (Dict.keys f) -> Dict.update f f = f.
Proof.
  intros Hnd. apply dict_update_fixed. intros kv. now apply dict_get_In_NoDup.
Qed.

Lemma dict_set_set d k v v' : Dict.set k v (Dict.set k v' d) = Dict.set k v d.
Proof.
  induction d as [|[k0 v0] d IH]; simpl.
  - now rewrite String.eqb_refl.
  - destruct (String.eqb k0 k) eqn:E; simpl; rewrite E; auto. now rewrite IH.
Qed.

Lemma dict_set_comm d k k' v v' :
  k <> k' -> In k (Dict.keys d) \/ In k' (Dict.keys d) ->
  Dict.set k v (Dict.set k' v' d) = Dict.set k' v' (Dict.set k v d).
Proof.
  intros Hne. induction d as [|[k0 v0] d IH]; simpl.
  - intros [[]|[]].
  - intros Hin.
    destruct (String.eqb k0 k') eqn:E'; destruct (String.eqb k0 k) eqn:E;
      simpl; rewrite ?E, ?E'; auto.
    + apply String.eqb_eq in E, E'. congruence.
    + apply String.eqb_neq in E, E'. rewrite IH; auto.
      destruct Hin as [[?|?]|[?|?]]; try congruence; auto.
Qed.

(** A key set before an update that sets it again is overwritten. *)
Lemma dict_update_absorbs d f k v :
  In k (Dict.keys d) -> In k (Dict.keys f) ->
  Dict.update (Dict.set k v d) f = Dict.update d f.
Proof.
  revert d. induction f as [|[k0 v0] f IH]; intros d Hd; [intros []|].
  change (Dict.update (Dict.set k v d) ((k0, v0) :: f))
    with (Dict.update (Dict.set k0 v0 (Dict.set k v d)) f).
  change (Dict.update d ((k0, v0) :: f)) with (Dict.update (Dict.set k0 v0 d) f).
  destruct (String.eqb_spec k0 k) as [->|Hne]; intros Hin.
  - now rewrite dict_set_set.
  - destruct Hin as [Heq|Hin]; [simpl in Heq; congruence|].
    rewrite dict_set_comm by auto.
    apply IH; auto. now apply dict_keys_In_set.
Qed.

(** A key the update does not set can be set before or after it. *)
Lemma dict_update_commutes d f k v :
  ~ In k (Dict.keys f) ->
  (forall k', In k' (Dict.keys f) -> In k' (Dict.keys d)) ->
  Dict.update (Dict.set k v d) f = Dict.set k v (Dict.update d f).
Proof.
  revert d. induction f as [|[k0 v0] f IH]; intros d Hnot Hsub; auto.
  change (Dict.update (Dict.set k v d) ((k0, v0) :: f))
    with (Dict.update (Dict.set k0 v0 (Dict.set k v d)) f).
  change (Dict.update d ((k0, v0) :: f)) with (Dict.update (Dict.set k0 v0 d) f).
  assert (Hne : k0 <> k) by (intros ->; apply Hnot; now left).
  rewrite dict_set_comm.
  - apply IH.
    + intros H. apply Hnot. now right.
    + intros k' Hk'. apply dict_keys_In_set, Hsub. now right.
  - exact Hne.
  - left. apply Hsub. now left.
Qed.

(** Applying the same updates a second time changes nothing, whatever keys
    they repeat. *)
Lemma dict_update_idempotent d f :
  Dict.update (Dict.update d f) f = Dict.update d f.
Proof.
  revert d. induction f as [|[k v] f IH] using rev_ind; intros d; auto.
  rewrite !dict_update_app.
  change (Dict.update (Dict.update d f) [(k, v)])
    with (Dict.set k v (Dict.update d f)).
  set (D0 := Dict.update d f).
  change (Dict.update (Dict.update (Dict.set k v D0) f) [(k, v)])
    with (Dict.set k v (Dict.update (Dict.set k v D0) f)).
  assert (Hsub : forall k', In k' (Dict.keys f) -> In k' (Dict.keys D0)).
  { intros k' Hk'. now apply dict_update_keys_own. }
  destruct (in_dec string_dec k (Dict.keys f)) as [Hin|Hnot].
  - rewrite dict_update_absorbs; auto. unfold D0. now rewrite IH.
  - rewrite dict_update_commutes; auto.
    unfold D0 at 1. rewrite IH. fold D0. apply dict_set_set.
Qed.

End DictUpdates.

(** ** Synchronising twice *)

Section Idempotence.
Context {P : Platform}.

Lemma badge_fields_NoDup badge : NoDup (Dict.keys (badge_fields badge)).
Proof. rewrite badge_fields_keys. apply coerced_fields_NoDup. Qed.

Lemma name_is_same_text x y row :
  name_is x row = true -> name_is y row = true -> py_str x = py_str y.
Proof.
  unfold name_is. destruct (Dict.get "name" row) as [[s|d]|]; try discriminate.
  intros Hx Hy. apply String.eqb_eq in Hx, Hy. congruence.
Qed.

Lemma name_is_text x y row :
  py_str x = py_str y -> name_is x row = name_is y row.
Proof. unfold name_is. now intros ->. Qed.

(** The bulk update of a stable record leaves the name of a row alone. *)
Lemma row_update_name badge row x :
  record_stable badge = true ->
  name_is x (row_update badge row) = name_is x row.
Proof.
  unfold record_stable, name_kept, row_update, record_names.
  intros Hst. apply andb_true_iff in Hst as [_ Hkept].
  destruct (Dict.get "name" badge) as [name|]; [|discriminate].
  destruct (name_is name row) eqn:Erow; auto.
  unfold name_is in *.
  destruct (Dict.get "name" (badge_fields badge)) as [[s'|?]|] eqn:Ef;
    try discriminate.
  rewrite (dict_get_update_own row (badge_fields badge) "name" (VStr s')
             (badge_fields_NoDup badge) Ef).
  destruct (Dict.get "name" row) as [[s|?]|]; try discriminate.
  apply String.eqb_eq in Hkept, Erow. congruence.
Qed.

Lemma row_update_names badge badge' row :
  record_stable badge = true ->
  record_names badge' (row_update badge row) = record_names badge' row.
Proof.
  intros Hst. unfold record_names.
  destruct (Dict.get "name" badge'); auto. now apply row_update_name.
Qed.

Lemma rows_update_names catalog badge' row :
  forallb record_stable catalog = true ->
  record_names badge' (rows_update catalog row) = record_names badge' row.
Proof.
  unfold rows_update. revert row.
  induction catalog as [|badge catalog IH]; intros row Hall; auto.
  simpl in Hall. apply andb_true_iff in Hall as [Hb Hall].
  cbn [fold_left]. rewrite IH by exact Hall. now apply row_update_names.
Qed.

Lemma matching_fields_ext catalog row row' :
  (forall badge, record_names badge row' = record_names badge row) ->
  matching_fields catalog row' = matching_fields catalog row.
Proof.
  intros H. unfold matching_fields.
  induction catalog as [|badge catalog IH]; auto.
  cbn [flat_map]. now rewrite H, IH.
Qed.

(** The updates of a catalogue on a row are one update with the fields of
    the records that carry the row's name. *)
Lemma rows_update_matching catalog row :
  forallb record_stable catalog = true ->
  rows_update catalog row = Dict.update row (matching_fields catalog row).
Proof.
  revert row. induction catalog as [|badge catalog IH]; intros row Hall; auto.
  simpl in Hall. apply andb_true_iff in Hall as [Hb Hall].
  unfold rows_update. cbn [fold_left]. fold (rows_update catalog (row_update badge row)).
  rewrite IH by exact Hall.
  rewrite (matching_fields_ext catalog row (row_update badge row))
    by (intros b'; now apply row_update_names).
  unfold matching_fields at 2. cbn [flat_map].
  fold (matching_fields catalog row).
  unfold row_update. destruct (record_names badge row).
  - now rewrite dict_update_app.
  - reflexivity.
Qed.

Lemma rows_update_idempotent catalog row :
  forallb record_stable catalog = true ->
  rows_update catalog (rows_update catalog row) = rows_update catalog row.
Proof.
  intros Hall.
  rewrite (rows_update_matching catalog (rows_update catalog row) Hall).
  rewrite (matching_fields_ext catalog row (rows_update catalog row))
    by (intros b'; now apply rows_update_names).
  rewrite (rows_update_matching catalog row Hall).
  apply dict_update_idempotent.
Qed.

(** The upsert of a record: the bulk update of every row, and one more row
    when no row carries the name. *)
Lemma upsert_by_name_rows rows badge :
  record_stable badge = true ->
  upsert_by_name rows badge =
  map (row_update badge) rows ++
  (if existsb (record_names badge) rows then [] else [badge_fields badge]).
Proof.
  unfold record_stable, record_accepted, upsert_by_name, row_update, record_names.
  destruct (Dict.get "name" badge) as [name|]; [|discriminate]. intros _.
  destruct (existsb (name_is name) rows) eqn:E.
  - now rewrite app_nil_r.
  - f_equal. symmetry. rewrite <- (map_id rows) at 2. apply map_ext_in.
    intros row Hin.
    destruct (name_is name row) eqn:Erow; auto.
    assert (existsb (name_is name) rows = true); [|congruence].
    apply existsb_exists. eauto.
Qed.

Lemma row_update_own badge :
  record_stable badge = true ->
  row_update badge (badge_fields badge) = badge_fields badge.
Proof.
  intros Hst. unfold row_update. destruct (record_names _ _); auto.
  apply dict_update_self, badge_fields_NoDup.
Qed.

Lemma record_names_own badge :
  record_stable badge = true ->
  record_names badge (badge_fields badge) = true.
Proof.
  unfold record_stable, name_kept, record_names.
  intros Hst. apply andb_true_iff in Hst as [_ Hkept].
  now destruct (Dict.get "name" badge).
Qed.

Lemma existsb_map_row_update badge rows x :
  record_stable badge = true ->
  existsb (name_is x) (map (row_update badge) rows) = existsb (name_is x) rows.
Proof.
  intros Hst. induction rows as [|row rows IH]; auto.
  cbn [map existsb]. now rewrite IH, row_update_name.
Qed.

Lemma upsert_by_name_keeps_names rows badge x :
  record_stable badge = true ->
  existsb (name_is x) rows = true ->
  existsb (name_is x) (upsert_by_name rows badge) = true.
Proof.
  intros Hst Hx. rewrite upsert_by_name_rows by exact Hst.
  rewrite existsb_app, existsb_map_row_update by exact Hst.
  now rewrite Hx.
Qed.

Lemma fold_upsert_keeps_names catalog rows x :
  forallb record_stable catalog = true ->
  existsb (name_is x) rows = true ->
  existsb (name_is x) (fold_left upsert_by_name catalog rows) = true.
Proof.
  revert rows. induction catalog as [|badge catalog IH]; intros rows Hall Hx; auto.
  simpl in Hall. apply andb_true_iff in Hall as [Hb Hall].
  cbn [fold_left]. apply IH; auto. now apply upsert_by_name_keeps_names.
Qed.

Lemma existsb_record_names badge rows :
  existsb (record_names badge) rows =
  match Dict.get "name" badge with
  | Some name => existsb (name_is name) rows
  | None => false
  end.
Proof.
  unfold record_names. destruct (Dict.get "name" badge); auto.
  induction rows; auto.
Qed.

Lemma upsert_by_name_found rows badge :
  record_stable badge = true ->
  existsb (record_names badge) (upsert_by_name rows badge) = true.
Proof.
  intros Hst. rewrite upsert_by_name_rows by exact Hst.
  rewrite existsb_app.
  destruct (existsb (record_names badge) rows) eqn:E.
  - rewrite existsb_record_names in *.
    destruct (Dict.get "name" badge) as [name|]; [|discriminate].
    now rewrite existsb_map_row_update, E.
  - cbn [existsb]. rewrite (record_names_own badge Hst).
    now rewrite orb_true_r.
Qed.

(** After a synchronisation every record is found under its name. *)
Lemma fold_upsert_found catalog rows badge :
  forallb record_stable catalog = true ->
  In badge catalog ->
  existsb (record_names badge) (fold_left upsert_by_name catalog rows) = true.
Proof.
  revert rows. induction catalog as [|b catalog IH]; intros rows Hall; [intros []|].
  simpl in Hall. apply andb_true_iff in Hall as [Hb Hall].
  cbn [fold_left]. intros [<-|Hin]; [|now apply IH].
  pose proof (upsert_by_name_found rows b Hb) as Hfound.
  rewrite existsb_record_names in *.
  destruct (Dict.get "name" b) as [name|]; [|discriminate].
  now apply fold_upsert_keeps_names.
Qed.

(** When every record finds its name, the synchronisation only updates. *)
Lemma fold_upsert_all_found catalog rows :
  forallb record_stable catalog = true ->
  (forall badge, In badge catalog -> existsb (record_names badge) rows = true) ->
  fold_left upsert_by_name catalog rows = map (rows_update catalog) rows.
Proof.
  revert rows. induction catalog as [|b catalog IH]; intros rows Hall Hfound.
  - cbn. now rewrite map_id.
  - simpl in Hall. apply andb_true_iff in Hall as [Hb Hall].
    cbn [fold_left]. rewrite upsert_by_name_rows by exact Hb.
    rewrite (Hfound b) by now left. rewrite app_nil_r.
    rewrite IH; auto.
    + rewrite map_map. reflexivity.
    + intros badge Hin. specialize (Hfound badge (or_intror Hin)).
      rewrite existsb_record_names in *.
      destruct (Dict.get "name" badge) as [name|]; [|discriminate].
      now rewrite existsb_map_row_update.
Qed.

(** A synchronisation is the updates of the catalogue on the stored rows
    and on rows it adds, whose names were not stored. *)
Lemma fold_upsert_shape catalog rows :
  forallb record_stable catalog = true ->
  exists added,
    fold_left upsert_by_name catalog rows
      = map (rows_update catalog) (rows ++ added) /\
    forall row x, In row added -> existsb (name_is x) rows = true ->
                  name_is x row = false.
Proof.
  revert rows. induction catalog as [|b catalog IH]; intros rows Hall.
  - exists []. split; [cbn; now rewrite app_nil_r, map_id | intros ? ? []].
  - simpl in Hall. apply andb_true_iff in Hall as [Hb Hall].
    cbn [fold_left].
    destruct (IH (upsert_by_name rows b) Hall) as (added & Hshape & Hnew).
    set (extra := if existsb (record_names b) rows then []
                  else [badge_fields b]).
    assert (Hextra : map (row_update b) extra = extra).
    { unfold extra. destruct (existsb _ rows); auto.
      cbn [map]. now rewrite row_update_own. }
    assert (Hadded : map (row_update b) added = added).
    { rewrite <- (map_id added) at 2. apply map_ext_in. intros row Hin.
      unfold row_update. destruct (record_names b row) eqn:Erow; auto.
      exfalso. pose proof (upsert_by_name_found rows b Hb) as Hfound.
      rewrite existsb_record_names in Hfound. unfold record_names in Erow.
      destruct (Dict.get "name" b) as [name|]; [|discriminate].
      rewrite (Hnew row name Hin Hfound) in Erow. discriminate. }
    exists (extra ++ added). split.
    + rewrite Hshape, upsert_by_name_rows by exact Hb. fold extra.
      change (rows_update (b :: catalog))
        with (fun r => rows_update catalog (row_update b r)).
      rewrite <- (map_map (row_update b) (rows_update catalog)).
      rewrite (map_app (row_update b) rows), (map_app (row_update b) extra).
      rewrite Hextra, Hadded, <- app_assoc. reflexivity.
    + intros row x Hin Hx. apply in_app_or in Hin as [Hin|Hin].
      * unfold extra in Hin.
        destruct (existsb (record_names b) rows) eqn:E; [destruct Hin|].
        destruct Hin as [<-|[]].
        destruct (name_is x (badge_fields b)) eqn:Ex; auto.
        exfalso. pose proof (record_names_own b Hb) as Hown.
        rewrite existsb_record_names in E. unfold record_names in Hown.
        destruct (Dict.get "name" b) as [name|]; [|discriminate].
        pose proof (name_is_same_text x name _ Ex Hown) as Htext.
        assert (existsb (name_is name) rows = existsb (name_is x) rows).
        { clear -Htext. induction rows as [|r rows IH]; auto.
          cbn [existsb]. now rewrite IH, (name_is_text x name r Htext). }
        congruence.
      * apply (Hnew row x Hin). now apply upsert_by_name_keeps_names.
Qed.

Lemma fold_upsert_idempotent catalog rows :
  forallb record_stable catalog = true ->
  fold_left upsert_by_name catalog (fold_left upsert_by_name catalog rows)
    = fold_left upsert_by_name catalog rows.
Proof.
  intros Hall.
  rewrite (fold_upsert_all_found catalog (fold_left upsert_by_name catalog rows))
    by (auto; intros; now apply fold_upsert_found).
  destruct (fold_upsert_shape catalog rows Hall) as (added & -> & _).
  rewrite map_map. apply map_ext. intros row.
  now apply rows_update_idempotent.
Qed.

Lemma record_stable_accepted catalog :
  forallb record_stable catalog = true ->
  forallb record_accepted catalog = true.
Proof.
  induction catalog as [|b catalog IH]; auto. cbn [forallb].
  unfold record_stable at 1. intros H.
  apply andb_true_iff in H as [Hb Hall]. apply andb_true_iff in Hb as [-> _].
  now rewrite IH.
Qed.

(** The world a synchronisation of accepted records leaves. *)
Lemma fold_world_after_upsert_eq catalog w :
  catalog <> [] ->
  fold_left world_after_upsert catalog w =
  let tb := Tables.set_badges
              (fold_left upsert_by_name catalog (badge_rows w))
              (Session.pending (db w)) in
  mkWorld (Session.mk tb tb) (ticks w) (draws w).
Proof.
  revert w. induction catalog as [|b catalog IH]; intros w Hne; [contradiction|].
  cbn [fold_left]. destruct catalog as [|b' catalog].
  - reflexivity.
  - rewrite IH by discriminate. reflexivity.
Qed.

(** X22: synchronising the same catalogue a second time is a no-op: when
    every record is accepted and keeps its name as text, the second call
    succeeds and leaves the world exactly as the first call left it. *)
Theorem sync_badges_twice_is_once
    (w : World) (catalog : list (Dict.t PyVal)) :
  forallb record_stable catalog = true ->
  exists w1,
    sync_badges (Ok catalog) w = (Ok tt, w1) /\
    sync_badges (Ok catalog) w1 = (Ok tt, w1) /\
    badge_rows w1 = fold_left upsert_by_name catalog (badge_rows w).
Proof.
  intros Hall. pose proof (record_stable_accepted catalog Hall) as Hacc.
  exists (fold_left world_after_upsert catalog w).
  rewrite !sync_badges_eq, !for_each_sync_accepted by exact Hacc.
  split; [reflexivity|]. split; [|apply fold_world_after_upsert_rows].
  f_equal. destruct catalog as [|b catalog]; [reflexivity|].
  rewrite (fold_world_after_upsert_eq (b :: catalog) w) by discriminate.
  cbv zeta.
  rewrite (fold_world_after_upsert_eq (b :: catalog)) by discriminate.
  cbv zeta. unfold badge_rows.
  cbn [db ticks draws Session.pending Tables.badges Tables.set_badges].
  rewrite (fold_upsert_idempotent (b :: catalog) _ Hall).
  reflexivity.
Qed.

(** X23: after a successful synchronisation of records that keep their
    names as text, every fetched record is stored: a badge row carrying the
    record's name exists, so a later synchronisation of the same record
    updates instead of inserting. *)
Theorem sync_badges_records_found
    (w : World) (catalog : list (Dict.t PyVal)) (badge : Dict.t PyVal) :
  forallb record_stable catalog = true ->
  In badge catalog ->
  exists w' name,
    sync_badges (Ok catalog) w = (Ok tt, w') /\
    Dict.get "name" badge = Some name /\
    existsb (name_is name) (badge_rows w') = true /\
    existsb (name_is name) (stored_badges w') = true.
Proof.
  intros Hall Hin. pose proof (record_stable_accepted catalog Hall) as Hacc.
  pose proof (fold_upsert_found catalog (badge_rows w) badge Hall Hin) as Hfound.
  rewrite existsb_record_names in Hfound.
  destruct (Dict.get "name" badge) as [name|] eqn:Ename; [|discriminate].
  exists (fold_left world_after_upsert catalog w), name.
  rewrite sync_badges_eq, for_each_sync_accepted by exact Hacc.
  split; [reflexivity|]. split; [reflexivity|].
  rewrite fold_world_after_upsert_stored, fold_world_after_upsert_rows.
  - auto.
  - intros ->. destruct Hin.
Qed.

End Idempotence.

(** ** The parse chain, as stored *)

Section ParseChainStored.
Context {P : Platform}.

(** The row that holds an upserted record carries the record's fields. *)
Lemma upsert_by_name_holds rows badge :
  record_accepted badge = true ->
  exists row,
    In row (upsert_by_name rows badge) /\
    forall k v, Dict.get k (badge_fields badge) = Some v ->
                Dict.get k row = Some v.
Proof.
  unfold record_accepted, upsert_by_name.
  destruct (Dict.get "name" badge) as [name|]; [|discriminate].
  intros _. destruct (existsb (name_is name) rows) eqn:Hex.
  - apply existsb_exists in Hex as (row & Hin & Hname).
    exists (Dict.update row (badge_fields badge)). split.
    + apply in_map_iff. exists row. now rewrite Hname.
    + intros k v Hget. apply dict_get_update_own; auto.
      apply badge_fields_NoDup.
  - exists (badge_fields badge). split; [|auto].
    apply in_or_app. right. now left.
Qed.

(** C8: every field of a fetched record is first coerced to text; the text
    is tried against the format with fractional seconds, then against the
    format without, and kept as text when both fail; no field is added or
    lost.  The outcome of the chain is what [sync_badges] stores: for a
    record with a name and known columns the loop body succeeds whatever the
    two parses answer and leaves a committed badge row that carries, under
    every key of the record, the chain's value of the coerced text; so does
    the whole call when the records before it are accepted too. *)
Theorem badge_fields_parse_chain (badge : Dict.t PyVal) :
  (forall k v, Dict.get k (coerced_fields badge) = Some v ->
               exists s, v = VStr s) /\
  (forall k s, Dict.get k (coerced_fields badge) = Some (VStr s) ->
               Dict.get k (badge_fields badge) = Some (parse_chain s)) /\
  (forall k, Dict.get k (coerced_fields badge) = None ->
             Dict.get k (badge_fields badge) = None) /\
  (record_accepted badge = true ->
   (forall w,
      exists w' row,
        sync_badge badge w = (Ok tt, w') /\
        In row (stored_badges w') /\
        forall k s, Dict.get k (coerced_fields badge) = Some (VStr s) ->
                    Dict.get k row = Some (parse_chain s)) /\
   (forall earlier w,
      forallb record_accepted earlier = true ->
      exists w' row,
        sync_badges (Ok (earlier ++ [badge])) w = (Ok tt, w') /\
        In row (stored_badges w') /\
        forall k s, Dict.get k (coerced_fields badge) = Some (VStr s) ->
                    Dict.get k row = Some (parse_chain s))).
Proof.
  split; [|split; [|split]].
  - apply coerced_fields_text.
  - apply badge_fields_get_text.
  - apply badge_fields_get_none.
  - intros Hacc. split.
    { intros w.
      destruct (upsert_by_name_holds (badge_rows w) badge Hacc)
        as (row & Hin & Hrow).
      exists (world_after_upsert w badge), row.
      split; [now apply sync_badge_accepted|].
      split; [exact Hin|].
      intros k s Hget. apply Hrow. now apply badge_fields_get_text. }
    intros earlier w Hearlier.
    set (w1 := fold_left world_after_upsert earlier w).
    destruct (upsert_by_name_holds (badge_rows w1) badge Hacc)
      as (row & Hin & Hrow).
    exists (world_after_upsert w1 badge), row. split; [|split].
    + rewrite sync_badges_eq, for_each_sync_accepted.
      * now rewrite fold_left_app.
      * rewrite forallb_app, Hearlier. simpl. now rewrite Hacc.
    + exact Hin.
    + intros k s Hget. apply Hrow. now apply badge_fields_get_text.
Qed.

End ParseChainStored.

(** The chain at a concrete record: the creation time has no fractional
    seconds and is parsed by the second format, the name stays text, and
    the stored row carries both. *)
Lemma badge_fields_parse_chain_witness :
  Dict.get "createdAt" (badge_fields (P := Demo.platform) Demo.badge_a)
    = Some (VDatetime (datetime.mk 2022 5 4 3 2 1 0)) /\
  Dict.get "name" (badge_fields (P := Demo.platform) Demo.badge_a)
    = Some (VStr "A") /\
  exists w' row,
    sync_badges (P := Demo.platform) (Ok [Demo.badge_a]) Demo.empty_world
      = (Ok tt, w') /\
    In row (stored_badges w') /\
    Dict.get "createdAt" row = Some (VDatetime (datetime.mk 2022 5 4 3 2 1 0)).
Proof.
  destruct (badge_fields_parse_chain (P := Demo.platform) Demo.badge_a)
    as (_ & Hchain & _ & Hsync).
  split; [|split].
  - apply (Hchain "createdAt" "2022-05-04T03:02:01Z"). reflexivity.
  - apply (Hchain "name" "A"). reflexivity.
  - destruct (proj2 (Hsync eq_refl) [] Demo.empty_world eq_refl)
      as (w' & row & Hrun & Hin & Hrow).
    exists w', row. split; [exact Hrun|]. split; [exact Hin|].
    apply (Hrow "createdAt" "2022-05-04T03:02:01Z"). reflexivity.
Defined.


(** Synchronising the same two records twice at a concrete store. *)
Lemma sync_badges_twice_is_once_witness :
  exists w1,
    sync_badges (P := Demo.platform)
        (Ok [Demo.badge_a; Demo.badge_a_renumbered]) Demo.empty_world
      = (Ok tt, w1) /\
    sync_badges (P := Demo.platform)
        (Ok [Demo.badge_a; Demo.badge_a_renumbered]) w1 = (Ok tt, w1) /\
    List.length (badge_rows w1) = 1%nat.
Proof.
  destruct (sync_badges_twice_is_once (P := Demo.platform) Demo.empty_world
              [Demo.badge_a; Demo.badge_a_renumbered] eq_refl)
    as (w1 & H1 & H2 & Hrows).
  exists w1. split; [exact H1|]. split; [exact H2|].
  rewrite Hrows. reflexivity.
Defined.

(** The badge synchronised at a concrete store is found by its name. *)
Lemma sync_badges_records_found_witness :
  exists w',
    sync_badges (P := Demo.platform) (Ok [Demo.badge_a]) Demo.empty_world
      = (Ok tt, w') /\
    existsb (name_is (P := Demo.platform) "A") (stored_badges w') = true.
Proof.
  destruct (sync_badges_records_found (P := Demo.platform) Demo.empty_world
              [Demo.badge_a] Demo.badge_a eq_refl (or_introl eq_refl))
    as (w' & name & Hrun & Hname & _ & Hstored).
  inversion Hname; subst name.
  exists w'. split; [exact Hrun | exact Hstored].
Defined.

(** ** Clean sessions and raw records *)

Section CleanAndRaw.
Context {P : Platform}.

Lemma select_reviewer_Raise w entry e w' :
  select_reviewer entry w = (Raise e, w') -> w' = w.
Proof.
  intros Hrun. destruct (eligible_ids entry w) as [|x l] eqn:E.
  - rewrite (select_reviewer_none w entry E) in Hrun. now inversion Hrun.
  - exfalso.
    destruct (eligible_position w entry) as (i & rid & Hnth & Hmod);
      [congruence|].
    destruct (select_reviewer_pick w entry i rid Hnth Hmod) as (r & Hr & _).
    congruence.
Qed.

(** X24: started on a clean session, assignment, approval and selection
    always end on a clean session, whether they succeed or raise, and so do
    initiation and commit update unless they raise the store's
    [IntegrityError], the one failure that comes after a write and that no
    handler follows with a rollback; on that path the committed tables are
    those from before the call. *)
Theorem session_clean_preserved (w : World) :
  session_clean w ->
  (forall init_request user_id,
     fst (init_assessment_tracker init_request user_id w)
       <> Raise IntegrityError ->
     session_clean (snd (init_assessment_tracker init_request user_id w))) /\
  (forall entry_id latest_commit update_logs,
     fst (update_assessment_log entry_id latest_commit update_logs w)
       <> Raise IntegrityError ->
     session_clean
       (snd (update_assessment_log entry_id latest_commit update_logs w))) /\
  (forall entry reviewer_info,
     session_clean (snd (assign_reviewer entry reviewer_info w))) /\
  (forall trainee reviewer reviewer_username assessment,
     session_clean
       (snd (approve_assessment trainee reviewer reviewer_username
               assessment w))) /\
  (forall entry, session_clean (snd (select_reviewer entry w))) /\
  (forall init_request user_id,
     fst (init_assessment_tracker init_request user_id w)
       = Raise IntegrityError ->
     Session.committed
       (db (snd (init_assessment_tracker init_request user_id w)))
       = Session.committed (db w)) /\
  (forall entry_id latest_commit update_logs,
     fst (update_assessment_log entry_id latest_commit update_logs w)
       = Raise IntegrityError ->
     Session.committed
       (db (snd (update_assessment_log entry_id latest_commit update_logs w)))
       = Session.committed (db w)).
Proof.
  intros Hclean. split; [|split; [|split; [|split; [|split; [|split]]]]].
  - intros init_request user_id.
    destruct (init_assessment_tracker_cases w init_request user_id)
      as [[_ ->] | [(a & entry & _ & _ & ->)
                   | [(a & _ & _ & _ & ->) | (a & _ & _ & _ & ->)]]]; auto.
    + intros H. now contradiction H.
    + reflexivity.
  - intros entry_id latest_commit update_logs.
    destruct (find (fun r => Z.eqb (AssessmentTracker.id r) entry_id)
                   (tracker_rows w)) as [entry|] eqn:E.
    + rewrite (update_assessment_log_run _ _ _ _ _ E).
      destruct (update_refused _ _ _); [intros H; now contradiction H|].
      reflexivity.
    + now rewrite (update_assessment_log_missing _ _ _ _ E).
  - intros entry reviewer_info. rewrite assign_reviewer_eq. reflexivity.
  - intros trainee reviewer reviewer_username assessment.
    destruct (approve_assessment trainee reviewer reviewer_username assessment w)
      as [[b|e] w'] eqn:Hrun.
    + apply approve_assessment_Ok in Hrun as (entry & _ & _ & _ & _ & ->).
      reflexivity.
    + apply approve_assessment_Raise in Hrun as [-> _]. exact Hclean.
  - intros entry.
    destruct (select_reviewer entry w) as [[r|e] w'] eqn:Hrun.
    + apply select_reviewer_Ok in Hrun as (-> & _). exact Hclean.
    + apply select_reviewer_Raise in Hrun as ->. exact Hclean.
  - intros init_request user_id.
    destruct (init_assessment_tracker_cases w init_request user_id)
      as [[_ ->] | [(a & entry & _ & _ & ->)
                   | [(a & _ & _ & _ & ->) | (a & _ & _ & _ & ->)]]];
      try discriminate.
    reflexivity.
  - intros entry_id latest_commit update_logs.
    destruct (find (fun r => Z.eqb (AssessmentTracker.id r) entry_id)
                   (tracker_rows w)) as [entry|] eqn:E.
    + rewrite (update_assessment_log_run _ _ _ _ _ E).
      now destruct (update_refused _ _ _).
    + now rewrite (update_assessment_log_missing _ _ _ _ E).
Qed.

Lemma dict_set_absent {V} (d : Dict.t V) k v :
  ~ In k (Dict.keys d) -> Dict.set k v d = d ++ [(k, v)].
Proof.
  induction d as [|[k0 v0] d IH]; simpl; auto.
  intros Hnot. destruct (String.eqb_spec k0 k) as [->|Hne].
  - exfalso. apply Hnot. now left.
  - rewrite IH; auto.
Qed.

Lemma dict_update_fresh {V} (d l : Dict.t V) :
  NoDup (Dict.keys (d ++ l)) -> Dict.update d l = d ++ l.
Proof.
  revert d. induction l as [|[k v] l IH]; intros d Hnd.
  - now rewrite app_nil_r.
  - change (Dict.update d ((k, v) :: l)) with (Dict.update (Dict.set k v d) l).
    assert (Hnot : ~ In k (Dict.keys d)).
    { unfold Dict.keys in *. rewrite map_app in Hnd. simpl in Hnd.
      apply NoDup_remove_2 in Hnd. intros H. apply Hnd.
      apply in_or_app. now left. }
    rewrite (dict_set_absent d k v Hnot), IH.
    + now rewrite <- app_assoc.
    + now rewrite <- app_assoc.
Qed.

Lemma dict_get_map {V W} (g : V -> W) (d : Dict.t V) k :
  Dict.get k (map (fun kv => (fst kv, g (snd kv))) d)
    = option_map g (Dict.get k d).
Proof.
  induction d as [|[k0 v0] d IH]; simpl; auto.
  destruct (String.eqb k0 k); auto.
Qed.

(** X25: for a fetched record with pairwise distinct keys, the stored fields
    have exactly the record's keys, in the record's order, and the value
    under each key is the text of the record's value put through the two
    timestamp formats. *)
Theorem badge_fields_of_record (badge : Dict.t PyVal) :
  NoDup (Dict.keys badge) ->
  Dict.keys (badge_fields badge) = Dict.keys badge /\
  forall k, Dict.get k (badge_fields badge)
            = option_map (fun v => parse_chain (py_str v)) (Dict.get k badge).
Proof.
  intros Hnd.
  assert (Hco : coerced_fields badge
                = map (fun kv => (fst kv, VStr (py_str (snd kv)))) badge).
  { unfold coerced_fields, Dict.items.
    rewrite dict_update_fresh; auto.
    cbn [app]. unfold Dict.keys. rewrite map_map. exact Hnd. }
  split.
  - rewrite badge_fields_keys, Hco. unfold Dict.keys. now rewrite map_map.
  - intros k. unfold badge_fields. fold (coerced_fields badge).
    unfold Dict.items.
    rewrite reparse_fold_get by apply coerced_fields_NoDup.
    rewrite Hco, (dict_get_map (fun v => VStr (py_str v)) badge k).
    destruct (Dict.get k badge) as [v|]; auto. cbn [option_map].
    unfold parse_chain.
    destruct (strptime (py_str v) FMT_FRACTION); auto.
    destruct (strptime (py_str v) FMT_SECONDS); auto.
Qed.

End CleanAndRaw.

(** A failed approval at a concrete clean store leaves the session clean. *)
Lemma session_clean_preserved_witness :
  session_clean
    (snd (approve_assessment (P := Demo.platform) Demo.alice Demo.rev_bob "bob"
            Demo.python1 Demo.under_review)).
Proof.
  apply (session_clean_preserved (P := Demo.platform) Demo.under_review).
  reflexivity.
Defined.

(** The fields of a concrete record. *)
Lemma badge_fields_of_record_witness :
  Dict.keys (badge_fields (P := Demo.platform) Demo.badge_a)
    = ["entityId"; "name"; "createdAt"].
Proof.
  apply (badge_fields_of_record (P := Demo.platform) Demo.badge_a).
  simpl. repeat constructor; simpl; intuition discriminate.
Defined.

(** ** Assertions *)

Section AssertionFacts.
Context {P : Platform} {W : Wrangler}.

Lemma entityId_is_update x row badge :
  record_has_entityId x badge = true ->
  entityId_is x (Dict.update row (badge_fields badge)) = true.
Proof.
  unfold record_has_entityId, entityId_is. intros H.
  destruct (Dict.get "entityId" (badge_fields badge)) as [[s|?]|] eqn:E;
    try discriminate.
  now rewrite (dict_get_update_own row (badge_fields badge) "entityId" (VStr s)
                 (badge_fields_NoDup badge) E).
Qed.

(** After the upsert of a record, a row carries its name and its id. *)
Lemma upsert_by_name_entityId rows badge x :
  record_stable badge = true ->
  record_has_entityId x badge = true ->
  exists row, In row (upsert_by_name rows badge) /\
              record_names badge row = true /\ entityId_is x row = true.
Proof.
  intros Hst Hid. rewrite upsert_by_name_rows by exact Hst.
  destruct (existsb (record_names badge) rows) eqn:E.
  - apply existsb_exists in E as (r & Hr & Hname).
    exists (row_update badge r). split; [|split].
    + rewrite app_nil_r. now apply in_map.
    + now rewrite row_update_names.
    + unfold row_update. rewrite Hname. now apply entityId_is_update.
  - exists (badge_fields badge). split; [|split].
    + apply in_or_app. right. now left.
    + now apply record_names_own.
    + exact Hid.
Qed.

Lemma record_names_text badge badge' row :
  record_names badge row = true -> record_names badge' row = true ->
  record_name_text badge' = record_name_text badge.
Proof.
  unfold record_names, record_name_text.
  destruct (Dict.get "name" badge) as [n|]; [|discriminate].
  destruct (Dict.get "name" badge') as [n'|]; [|discriminate].
  intros H H'. cbn [option_map]. f_equal.
  now apply (name_is_same_text n' n row).
Qed.

(** A record with another name leaves that row alone. *)
Lemma upsert_by_name_other rows badge badge' row :
  record_stable badge' = true ->
  record_name_text badge' <> record_name_text badge ->
  In row rows -> record_names badge row = true ->
  In row (upsert_by_name rows badge').
Proof.
  intros Hst Hne Hin Hname. rewrite upsert_by_name_rows by exact Hst.
  apply in_or_app. left.
  replace row with (row_update badge' row); [now apply in_map|].
  unfold row_update. destruct (record_names badge' row) eqn:E; auto.
  exfalso. apply Hne. now apply (record_names_text badge badge' row).
Qed.

Lemma fold_upsert_other catalog rows badge row :
  forallb record_stable catalog = true ->
  ~ In (record_name_text badge) (map record_name_text catalog) ->
  In row rows -> record_names badge row = true ->
  In row (fold_left upsert_by_name catalog rows).
Proof.
  revert rows. induction catalog as [|b catalog IH]; intros rows Hall Hnot Hin Hn;
    auto.
  simpl in Hall. apply andb_true_iff in Hall as [Hb Hall].
  cbn [fold_left]. apply IH; auto.
  - intros H. apply Hnot. now right.
  - apply (upsert_by_name_other rows badge b row); auto.
    intros Heq. apply Hnot. left. exact Heq.
Qed.

(** After a synchronisation of records with pairwise distinct names, a
    record is found by its external id. *)
Lemma fold_upsert_entityId catalog rows badge x :
  forallb record_stable catalog = true ->
  NoDup (map record_name_text catalog) ->
  In badge catalog ->
  record_has_entityId x badge = true ->
  exists row, In row (fold_left upsert_by_name catalog rows) /\
              entityId_is x row = true.
Proof.
  revert rows. induction catalog as [|b catalog IH]; intros rows Hall Hnd;
    [intros []|].
  simpl in Hall. apply andb_true_iff in Hall as [Hb Hall].
  inversion Hnd as [|? ? Hnotin Hnd']; subst.
  cbn [fold_left]. intros [->|Hin] Hid.
  - destruct (upsert_by_name_entityId rows badge x Hb Hid)
      as (row & Hrow & Hname & Hx).
    exists row. split; auto.
    now apply (fold_upsert_other catalog _ badge row).
  - now apply IH.
Qed.

(** X26: when the badge class of the assertion is stored, [add_assertion]
    does not consult the badge service at all (its outcome is the same for
    every fetch result), and when the wrangled fields name known columns it
    succeeds: exactly one assertion row is added, carrying the given entry
    id under ["assessment_tracker_id"] (whatever the wrangler put there)
    and the wrangler's value under every other key, wrangled with the name
    of the first stored badge of that class; the badges are untouched and
    the session is committed. *)
Theorem add_assertion_known_badge
    (fetched fetched' : result (list (Dict.t PyVal))) (entry_id : Z)
    (assertion : Dict.t PyVal) (aw : AssertionWorld)
    (badgeclass : PyVal) (badge : Badges.t) :
  Dict.get "badgeclass" assertion = Some badgeclass ->
  badge_by_entityId badgeclass (base aw) = Some badge ->
  add_assertion fetched entry_id assertion aw
    = add_assertion fetched' entry_id assertion aw /\
  (unknown_assertion_column (assertion_fields entry_id assertion badge) = None ->
   exists row aw',
     add_assertion fetched entry_id assertion aw = (Done true, aw') /\
     assertions aw' = assertions aw ++ [row] /\
     Dict.get "assessment_tracker_id" row = Some (of_int entry_id) /\
     (forall k, k <> "assessment_tracker_id" ->
        Dict.get k row
          = Dict.get k (wrangle_assertion assertion (Dict.get "name" badge))) /\
     badge_rows (base aw') = badge_rows (base aw) /\
     tracker_rows (base aw') = tracker_rows (base aw) /\
     session_clean (base aw')).
Proof.
  intros Hkey Hbadge. unfold add_assertion. rewrite Hkey, Hbadge.
  split; [reflexivity|]. intros Hcol. rewrite Hcol.
  eexists. eexists. split; [reflexivity|].
  split; [reflexivity|]. split; [|split; [|repeat split]].
  - unfold assertion_fields. apply dict_get_set_same.
  - intros k Hk. unfold assertion_fields.
    apply dict_get_set_other. congruence.
Qed.

(** X27: the failures of [add_assertion] store no assertion.  Without a
    ["badgeclass"] key it raises [KeyError] and touches nothing; when the
    badge class is not stored it synchronises the catalogue once: a failing
    synchronisation is re-raised, and a badge class still unknown after a
    successful one gives the [AttributeError] of [None.name]; in both cases
    the store is as the synchronisation left it. *)
Theorem add_assertion_failures
    (fetched : result (list (Dict.t PyVal))) (entry_id : Z)
    (assertion : Dict.t PyVal) (aw : AssertionWorld) :
  (forall e aw', add_assertion fetched entry_id assertion aw = (Failed e, aw') ->
     assertions aw' = assertions aw) /\
  (Dict.get "badgeclass" assertion = None ->
   add_assertion fetched entry_id assertion aw
     = (Failed (Builtin (KeyError "badgeclass")), aw)) /\
  (forall badgeclass,
     Dict.get "badgeclass" assertion = Some badgeclass ->
     badge_by_entityId badgeclass (base aw) = None ->
     (forall e w1, sync_badges fetched (base aw) = (Raise e, w1) ->
        add_assertion fetched entry_id assertion aw
          = (Failed (Builtin e), mkAssertionWorld w1 (assertions aw))) /\
     (forall u w1, sync_badges fetched (base aw) = (Ok u, w1) ->
        badge_by_entityId badgeclass w1 = None ->
        add_assertion fetched entry_id assertion aw
          = (Failed (AttributeError "'NoneType' object has no attribute 'name'"),
             mkAssertionWorld w1 (assertions aw)))).
Proof.
  split; [|split].
  - intros e aw'. unfold add_assertion.
    destruct (Dict.get "badgeclass" assertion) as [bc|];
      [|now intros [= _ <-]].
    destruct (badge_by_entityId bc (base aw)) as [badge|].
    + destruct (unknown_assertion_column _); [now intros [= _ <-]|discriminate].
    + destruct (sync_badges fetched (base aw)) as [[u|e0] w1];
        [|now intros [= _ <-]].
      destruct (badge_by_entityId bc w1) as [badge|]; [|now intros [= _ <-]].
      destruct (unknown_assertion_column _); [now intros [= _ <-]|discriminate].
  - intros Hkey. unfold add_assertion. now rewrite Hkey.
  - intros bc Hkey Hnone. split.
    + intros e w1 Hsync. unfold add_assertion.
      now rewrite Hkey, Hnone, Hsync.
    + intros u w1 Hsync Hstill. unfold add_assertion.
      now rewrite Hkey, Hnone, Hsync, Hstill.
Qed.

(** X28: the refresh makes [add_assertion] succeed: when the badge class is
    not stored, but the fetched catalogue (records accepted, names kept as
    text and pairwise distinct) has a record with that external id, and the
    wrangler only produces known columns, the call synchronises the
    catalogue, finds a badge with that id and stores the assertion. *)
Theorem add_assertion_refreshes_catalogue
    (catalog : list (Dict.t PyVal)) (record : Dict.t PyVal) (entry_id : Z)
    (assertion : Dict.t PyVal) (aw : AssertionWorld) (badgeclass : PyVal) :
  Dict.get "badgeclass" assertion = Some badgeclass ->
  badge_by_entityId badgeclass (base aw) = None ->
  forallb record_stable catalog = true ->
  NoDup (map record_name_text catalog) ->
  In record catalog ->
  record_has_entityId badgeclass record = true ->
  (forall badge,
     unknown_assertion_column (assertion_fields entry_id assertion badge) = None) ->
  exists badge aw',
    add_assertion (Ok catalog) entry_id assertion aw = (Done true, aw') /\
    assertions aw' = assertions aw ++ [assertion_fields entry_id assertion badge] /\
    In badge (stored_badges (base aw')) /\
    entityId_is badgeclass badge = true.
Proof.
  intros Hkey Hnone Hall Hnd Hin Hid Hcols.
  pose proof (record_stable_accepted catalog Hall) as Hacc.
  set (w1 := fold_left world_after_upsert catalog (base aw)).
  assert (Hsync : sync_badges (Ok catalog) (base aw) = (Ok tt, w1)).
  { rewrite sync_badges_eq, for_each_sync_accepted by exact Hacc. reflexivity. }
  destruct (fold_upsert_entityId catalog (badge_rows (base aw)) record badgeclass
              Hall Hnd Hin Hid) as (row & Hrow & Hx).
  rewrite <- fold_world_after_upsert_rows in Hrow. fold w1 in Hrow.
  destruct (badge_by_entityId badgeclass w1) as [badge|] eqn:Efind.
  - exists badge. eexists. unfold add_assertion.
    rewrite Hkey, Hnone, Hsync, Efind, Hcols.
    split; [reflexivity|]. split; [reflexivity|].
    unfold badge_by_entityId in Efind. apply find_some in Efind as [Hb Hbx].
    split; [exact Hb | exact Hbx].
  - exfalso. unfold badge_by_entityId in Efind.
    apply (find_none _ _ Efind) in Hrow. congruence.
Qed.

End AssertionFacts.

(** The badge class is stored: the assertion is added without any fetch. *)
Lemma add_assertion_known_badge_witness :
  exists row aw',
    add_assertion (W := demo_wrangler)
        (Raise (Exception "badge service unreachable")) 1 demo_assertion
        (mkAssertionWorld (W := demo_wrangler)
           (Demo.world_of [] [Demo.row_a]) [])
      = (Done true, aw') /\
    assertions aw' = [row] /\
    Dict.get "assessment_tracker_id" row = Some (inl 1).
Proof.
  destruct (add_assertion_known_badge (W := demo_wrangler)
              (Raise (Exception "badge service unreachable"))
              (Raise (Exception "badge service unreachable")) 1 demo_assertion
              (mkAssertionWorld (W := demo_wrangler)
                 (Demo.world_of [] [Demo.row_a]) [])
              "e1" Demo.row_a eq_refl eq_refl) as [_ Hadd].
  destruct (Hadd eq_refl) as (row & aw' & Hrun & Hrows & Hid & _).
  exists row, aw'. auto.
Defined.

(** The badge class is unknown and the badge service fails. *)
Lemma add_assertion_failures_witness :
  add_assertion (W := demo_wrangler)
      (Raise (Exception "badge service unreachable")) 1 demo_assertion
      (mkAssertionWorld (W := demo_wrangler) Demo.empty_world [])
    = (Failed (Builtin (Exception "badge service unreachable")),
       mkAssertionWorld (W := demo_wrangler) Demo.empty_world []).
Proof.
  destruct (add_assertion_failures (W := demo_wrangler)
              (Raise (Exception "badge service unreachable")) 1 demo_assertion
              (mkAssertionWorld (W := demo_wrangler) Demo.empty_world []))
    as (_ & _ & Hunknown).
  destruct (Hunknown "e1" eq_refl eq_refl) as [Hraise _].
  apply (Hraise (Exception "badge service unreachable") Demo.empty_world).
  reflexivity.
Defined.

(** The badge class is unknown and the badge service has it. *)
Lemma add_assertion_refreshes_catalogue_witness :
  exists badge aw',
    add_assertion (W := demo_wrangler) (Ok [Demo.badge_a]) 1 demo_assertion
        (mkAssertionWorld (W := demo_wrangler) Demo.empty_world [])
      = (Done true, aw') /\
    In badge (stored_badges (base aw')) /\
    List.length (assertions aw') = 1%nat.
Proof.
  destruct (add_assertion_refreshes_catalogue (W := demo_wrangler)
              [Demo.badge_a] Demo.badge_a 1 demo_assertion
              (mkAssertionWorld (W := demo_wrangler) Demo.empty_world [])
              "e1" eq_refl eq_refl eq_refl)
    as (badge & aw' & Hrun & Hrows & Hin & _).
  - simpl. repeat constructor. intros [].
  - now left.
  - reflexivity.
  - intros badge. reflexivity.
  - exists badge, aw'. split; [exact Hrun|]. split; [exact Hin|].
    rewrite Hrows. reflexivity.
Defined.
